(** * Blog API: visibility, aggregate and pagination rules

    A shallow embedding of the request handlers of [main.py], the
    [paginate] helper of [database.py], the tables of [models.py] and the
    request bodies of [schemas.py] with their field constraints.

    Tables are lists of rows in insertion order.  A SQLAlchemy query is the
    list of rows it selects: [query.filter(c)] is [List.filter],
    [.first()] is the head of the list, [.count()] its length.  Handlers
    that write take the database and return the database after the request
    together with the response; a handler that raises [HTTPException]
    returns the exception and the database the session leaves behind.

    The store is the SQLite database of [database.py]: row ids are
    assigned as one more than the largest id of the table, text compares
    byte by byte, NOT NULL is enforced and foreign keys are not.  The
    current user is what [get_current_user] or [get_current_user_optional]
    resolved from the token; the time of a request is the argument [now];
    strings are ASCII. *)

From Stdlib Require Import List ZArith String Ascii Bool Lia.
Import ListNotations.

Open Scope string_scope.
Open Scope list_scope.
Open Scope Z_scope.

(** ** models.py *)

Module models.

Module User.
Record t := mk
  { id : Z; username : string; email : string;
    password : string; role : string }.
End User.

Module Status.
Record t := mk { id : Z; name : string; description : string }.
End Status.

Module Like.
Record t := mk { id : Z; post_id : Z; user_id : Z; created_at : Z }.
End Like.

(** [status_id] is a nullable column; [title] and [content] are not. *)
Module Post.
Record t := mk
  { id : Z; title : string; content : string; author_id : Z;
    status_id : option Z; created_at : Z; updated_at : Z }.
End Post.

Module Comment.
Record t := mk
  { id : Z; content : string; post_id : Z; author_id : Z; created_at : Z }.
End Comment.

Module Tag.
Record t := mk { id : Z; name : string }.
End Tag.

(** A row of the association table [post_tags]: (post_id, tag_id).  The
    table has no key of its own, so equal rows may repeat. *)
Definition post_tags_row : Type := (Z * Z)%type.

End models.

Import models.

(** The rows of every table the handlers below read or write. *)
Record DB := mkDB
  { users : list User.t;
    status : list Status.t;
    posts : list Post.t;
    tags : list Tag.t;
    post_tags : list post_tags_row;
    likes : list Like.t;
    comments : list Comment.t }.

(** ** Responses *)

(** What a request ends in: the handler's return value, an
    [HTTPException(status_code, detail)], the 422 answer of the framework's
    validation of the parameters and the body, or an exception no handler
    catches. *)
Inductive response (A : Type) : Type :=
| Ok (a : A)
| HTTPException (status_code : Z) (detail : string)
| RequestValidationError (loc : string)
| Unhandled (exn : string).

Arguments Ok {A} a.
Arguments HTTPException {A} status_code detail.
Arguments RequestValidationError {A} loc.
Arguments Unhandled {A} exn.

Definition bind {A B} (r : response A) (k : A -> response B) : response B :=
  match r with
  | Ok a => k a
  | HTTPException c d => HTTPException c d
  | RequestValidationError l => RequestValidationError l
  | Unhandled e => Unhandled e
  end.

Notation "x <- r ;; k" := (bind r (fun x => k))
  (at level 100, r at next level, right associativity).

(** Status codes of the error taxonomy. *)
Definition BadRequest : Z := 400.
Definition Forbidden : Z := 403.
Definition NotFound : Z := 404.
Definition Conflict : Z := 409.
Definition Unprocessable : Z := 422.
Definition InternalError : Z := 500.

(** ** Query helpers *)

Definition first {A} (query : list A) : option A := hd_error query.

Definition count {A} (query : list A) : Z := Z.of_nat (List.length query).

(** SQLite reads a negative OFFSET as 0 and a negative LIMIT as no limit. *)
Definition offset {A} (n : Z) (query : list A) : list A :=
  skipn (Z.to_nat n) query.

Definition limit {A} (n : Z) (query : list A) : list A :=
  if n <? 0 then query else firstn (Z.to_nat n) query.

(** [column == value] on a nullable integer column: NULL equals nothing. *)
Definition eq_nullable (column : option Z) (value : Z) : bool :=
  match column with
  | Some v => v =? value
  | None => false
  end.

(** SQL inner join: every pair of rows that satisfies the ON clause. *)
Definition join {A B} (on : A -> B -> bool) (l : list A) (r : list B)
  : list (A * B) :=
  flat_map (fun a => map (pair a) (filter (on a) r)) l.

(** Next rowid of a table without AUTOINCREMENT: one more than the largest. *)
Definition next_id (ids : list Z) : Z := 1 + fold_right Z.max 0 ids.

(** *** ILIKE *)

Definition lower (c : ascii) : ascii :=
  let n := N_of_ascii c in
  if (65 <=? n)%N && (n <=? 90)%N then ascii_of_N (n + 32) else c.

(** SQL LIKE: [%] matches any run of characters, [_] exactly one. *)
Fixpoint like_match (pattern s : list ascii) : bool :=
  match pattern with
  | [] => match s with [] => true | _ :: _ => false end
  | c :: pattern' =>
      if Ascii.eqb c "%" then
        (fix any (s : list ascii) : bool :=
           like_match pattern' s
           || match s with [] => false | _ :: s' => any s' end) s
      else
        match s with
        | [] => false
        | d :: s' =>
            (Ascii.eqb c "_" || Ascii.eqb c d) && like_match pattern' s'
        end
  end.

(** [column.ilike(pattern)]: LIKE on the lower-cased operands. *)
Definition ilike (column pattern : string) : bool :=
  like_match (map lower (list_ascii_of_string pattern))
             (map lower (list_ascii_of_string column)).

(** *** ORDER BY created_at DESC *)

Fixpoint insert_desc (p : Post.t) (l : list Post.t) : list Post.t :=
  match l with
  | [] => [p]
  | q :: l' =>
      if Post.created_at q <=? Post.created_at p then p :: q :: l'
      else q :: insert_desc p l'
  end.

Definition order_by_created_at_desc (query : list Post.t) : list Post.t :=
  fold_right insert_desc [] query.

(** ** database.py *)

Record Page (A : Type) := mkPage
  { items : list A; total : Z; pages : Z; current_page : Z }.

Arguments mkPage {A} items total pages current_page.
Arguments items {A} p.
Arguments total {A} p.
Arguments pages {A} p.
Arguments current_page {A} p.

(** Python's [//] raises on a zero divisor and is [Z.div] otherwise. *)
Definition floordiv (a b : Z) : response Z :=
  if b =? 0 then Unhandled "ZeroDivisionError" else Ok (a / b).

Definition paginate {A} (query : list A) (page limit_ : Z)
  : response (Page A) :=
  let total := count query in
  let items := limit limit_ (offset ((page - 1) * limit_) query) in
  pages <- floordiv (total + limit_ - 1) limit_ ;;
  Ok (mkPage items total pages page).

(** [Query(default, gt=..., le=...)]: the declared default when the
    parameter is absent, a validation error when it is out of bounds. *)
Definition Query (default gt : Z) (le : option Z) (loc : string)
    (value : option Z) : response Z :=
  match value with
  | None => Ok default
  | Some v =>
      if (gt <? v) && match le with Some m => v <=? m | None => true end
      then Ok v
      else RequestValidationError loc
  end.

(** ** main.py: read paths *)

(** The status id the handlers compare with: [2  # published]. *)
Definition published : Z := 2.

Definition is_admin (user : User.t) : bool :=
  String.eqb (User.role user) "admin".

Definition filter_published_posts (query : list Post.t)
    (current_user : option User.t) : list Post.t :=
  match current_user with
  | None => filter (fun p => eq_nullable (Post.status_id p) published) query
  | Some user =>
      if is_admin user then query
      else filter (fun p => (Post.author_id p =? User.id user)
                            || eq_nullable (Post.status_id p) published)
                  query
  end.

(** [db.query(models.Post).filter(models.Post.id == post_id).first()]. *)
Definition find_post (db : DB) (post_id : Z) : option Post.t :=
  first (filter (fun p => Post.id p =? post_id) (posts db)).

Definition get_post (db : DB) (post_id : Z) (current_user : option User.t)
  : response Post.t :=
  match find_post db post_id with
  | None => HTTPException 404 "Post not found"
  | Some post =>
      if negb (eq_nullable (Post.status_id post) published) then
        match current_user with
        | None => HTTPException 404 "Post not found"
        | Some user =>
            if negb (is_admin user)
               && negb (User.id user =? Post.author_id post)
            then HTTPException 404 "Post not found"
            else Ok post
        end
      else Ok post
  end.

(** [if search:] and [if status:] hold for a supplied, non-empty string;
    [truthy] gives that string. *)
Definition truthy (s : option string) : option string :=
  match s with
  | Some s => if String.eqb s "" then None else Some s
  | None => None
  end.

Definition search_filter (search : option string) (query : list Post.t)
  : list Post.t :=
  match truthy search with
  | Some s =>
      let pattern := ("%" ++ s ++ "%")%string in
      filter (fun p => ilike (Post.title p) pattern
                       || ilike (Post.content p) pattern)
             query
  | None => query
  end.

Definition list_posts (db : DB) (page limit_ : option Z)
    (search : option string) (current_user : option User.t)
  : response (Page Post.t) :=
  page <- Query 1 0 None "page" page ;;
  limit_ <- Query 10 0 (Some 100) "limit" limit_ ;;
  let query := posts db in
  let query :=
    match current_user with
    | None => filter (fun p => eq_nullable (Post.status_id p) published) query
    | Some user =>
        if is_admin user then query
        else filter (fun p => (Post.author_id p =? User.id user)
                              || eq_nullable (Post.status_id p) published)
                    query
    end in
  let query := search_filter search query in
  paginate (order_by_created_at_desc query) page limit_.

(** [Model.column == value] where the right-hand side may be [None]: the
    comparison becomes IS NULL, which no primary key satisfies. *)
Definition eq_value (column : Z) (value : option Z) : bool :=
  match value with
  | Some v => column =? v
  | None => false
  end.

(** [db.query(models.Like).filter(Like.post_id == post_id,
    Like.user_id == user_id).first()]. *)
Definition find_like (db : DB) (post_id user_id : Z) : option Like.t :=
  first (filter (fun l => (Like.post_id l =? post_id)
                          && (Like.user_id l =? user_id))
                (likes db)).

(** [user.role in roles]. *)
Definition has_role (user : User.t) (roles : list string) : bool :=
  existsb (String.eqb (User.role user)) roles.

(** The query of [get_posts_by_tag]: one row per matching row of the joins,
    each carrying its Post entity. *)
Definition posts_with_tag (db : DB) (tag_id : Z) : list Post.t :=
  map fst
    (filter (fun row => snd (snd row) =? tag_id)
       (join (fun p r => Post.id p =? fst r) (posts db) (post_tags db))).

Definition with_status_name (db : DB) (status_ : string)
    (query : list Post.t) : list Post.t :=
  map fst
    (filter (fun row => String.eqb (Status.name (snd row)) status_)
       (join (fun p s => eq_nullable (Post.status_id p) (Status.id s))
             query (status db))).

Definition get_posts_by_tag (db : DB) (tag_id : Z) (page limit_ : option Z)
    (status_ : option string) (current_user : option User.t)
  : response (Page Post.t) :=
  page <- Query 1 0 None "page" page ;;
  limit_ <- Query 10 0 (Some 100) "limit" limit_ ;;
  match first (filter (fun t => Tag.id t =? tag_id) (tags db)) with
  | None => HTTPException 404 "Tag not found"
  | Some _ =>
      let query := posts_with_tag db tag_id in
      query <-
        match truthy status_ with
        | Some s =>
            if match current_user with
               | None => true
               | Some user => negb (has_role user ["admin"; "author"])
               end
            then HTTPException 403 "Not authorized to filter by status"
            else Ok (with_status_name db s query)
        | None => Ok (filter_published_posts query current_user)
        end ;;
      let total := count query in
      let posts := limit limit_ (offset ((page - 1) * limit_) query) in
      pages <- floordiv (total + limit_ - 1) limit_ ;;
      Ok (mkPage posts total pages page)
  end.

Record PostWithLikeStatus := mkPostWithLikeStatus
  { post : Post.t; is_liked : bool; likes_count : Z }.

Definition get_post_with_like_status (db : DB) (post_id : Z)
    (current_user : option User.t) : response PostWithLikeStatus :=
  match find_post db post_id with
  | None => HTTPException 404 "Post not found"
  | Some post =>
      let is_liked :=
        match current_user with
        | Some user =>
            match find_like db post_id (User.id user) with
            | Some _ => true
            | None => false
            end
        | None => false
        end in
      let likes_count :=
        count (filter (fun l => Like.post_id l =? post_id) (likes db)) in
      Ok (mkPostWithLikeStatus post is_liked likes_count)
  end.

(** ** main.py: write paths *)

(** The end of a [try: ... db.commit()] block.  [storage_ok] says whether
    the storage calls of the block go through; when one raises, the
    [except Exception] branch rolls the session back and answers 500. *)
Definition commit {A} (storage_ok : bool) (db session : DB) (value : A)
    (detail : string) : response A * DB :=
  if storage_ok then (Ok value, session)
  else (HTTPException 500 detail, db).

Definition check_resource_permission (user : User.t)
    (resource_owner_id : Z) (action : string) : bool :=
  if is_admin user then true else User.id user =? resource_owner_id.

Definition NotAuthorizedError {A} (action : string) : response A :=
  HTTPException 403
    ("Not authorized to " ++ action ++ " this resource")%string.

Definition set_likes (db : DB) (likes' : list Like.t) : DB :=
  mkDB (users db) (status db) (posts db) (tags db) (post_tags db) likes'
       (comments db).

Definition like_post (db : DB) (post_id : Z) (current_user : User.t)
    (now : Z) (storage_ok : bool) : response string * DB :=
  match find_post db post_id with
  | None => (HTTPException 404 "Post not found", db)
  | Some _ =>
      match find_like db post_id (User.id current_user) with
      | Some _ => (HTTPException 409 "Post already liked", db)
      | None =>
          let like :=
            Like.mk (next_id (map Like.id (likes db))) post_id
                    (User.id current_user) now in
          let session := set_likes db (likes db ++ [like]) in
          commit storage_ok db session "Post liked successfully"
                 "Could not like post"
      end
  end.

Definition unlike_post (db : DB) (post_id : Z) (current_user : User.t)
    (storage_ok : bool) : response string * DB :=
  match find_like db post_id (User.id current_user) with
  | None => (HTTPException 404 "Post not liked", db)
  | Some like =>
      let session :=
        set_likes db
          (filter (fun l => negb (Like.id l =? Like.id like)) (likes db)) in
      commit storage_ok db session "Post unliked successfully"
             "Could not unlike post"
  end.

(** ** schemas.py *)

Module schemas.

Record PostCreate := mkPostCreate
  { title : string; content : string;
    status_id : option Z; tags : list string }.

(** A field of a request body that [exclude_unset=True] tells apart from
    a field that was sent, even when what was sent is [null]. *)
Inductive field (A : Type) : Type :=
| Unset
| Sent (value : option A).

Arguments Unset {A}.
Arguments Sent {A} value.

(** [tags] is tested with [is not None]: an omitted [tags] and a null one
    are the same [None]. *)
Record PostUpdate := mkPostUpdate
  { update_title : field string;
    update_content : field string;
    update_status_id : field Z;
    update_tags : option (list string) }.

Record UserCreate := mkUserCreate
  { username : string; email : string;
    password : string; role : option string }.

(** [Field(..., min_length=, max_length=)] on a [str] field. *)
Definition Field (min_length : Z) (max_length : option Z) (value : string)
  : bool :=
  let n := Z.of_nat (String.length value) in
  (min_length <=? n)
  && match max_length with Some m => n <=? m | None => true end.

(** [class UserRole(str, Enum)]: the values of the enumeration. *)
Definition UserRole (value : string) : bool :=
  existsb (String.eqb value) ["admin"; "author"; "reader"].

Section Validation.

(** pydantic's [EmailStr], a collaborator: the normalised address, or
    nothing when the string is refused. *)
Variable EmailStr : string -> option string.

(** What the framework makes of the body of a request before it calls the
    handler: the model with its validated fields, or the 422 answer,
    [loc] naming the first of the fields that were refused. *)
Definition UserCreate_model_validate (body : UserCreate)
  : response UserCreate :=
  if negb (Field 3 (Some 50) (username body)) then
    RequestValidationError "username"
  else
    match EmailStr (email body) with
    | None => RequestValidationError "email"
    | Some email_ =>
        if negb (Field 8 None (password body)) then
          RequestValidationError "password"
        else if negb match role body with
                     | Some value => UserRole value
                     | None => true
                     end then
          RequestValidationError "role"
        else
          Ok (mkUserCreate (username body) email_ (password body)
                           (role body))
    end.

End Validation.

End schemas.

(** [tag = query(Tag).filter(Tag.name == tag_name).first()], and a new row
    when there is none. *)
Definition get_or_create_tag (tags_ : list Tag.t) (tag_name : string)
  : Tag.t * list Tag.t :=
  match first (filter (fun t => String.eqb (Tag.name t) tag_name) tags_) with
  | Some tag => (tag, tags_)
  | None =>
      let tag := Tag.mk (next_id (map Tag.id tags_)) tag_name in
      (tag, tags_ ++ [tag])
  end.

(** The loop [for tag_name in tags: ... db_post.tags.append(tag)]: the tags
    table and the post's collection after it. *)
Fixpoint attach_tags (tag_names : list string) (tags_ : list Tag.t)
    (collection : list Tag.t) : list Tag.t * list Tag.t :=
  match tag_names with
  | [] => (tags_, collection)
  | tag_name :: rest =>
      let (tag, tags') := get_or_create_tag tags_ tag_name in
      attach_tags rest tags' (collection ++ [tag])
  end.

Definition association_rows (post_id : Z) (collection : list Tag.t)
  : list post_tags_row :=
  map (fun t => (post_id, Tag.id t)) collection.

Definition create_post (db : DB) (post : schemas.PostCreate)
    (current_user : User.t) (now : Z) (storage_ok : bool)
  : response Post.t * DB :=
  match first (filter (fun s => eq_value (Status.id s)
                                         (schemas.status_id post))
                      (status db)) with
  | None => (HTTPException 404 "Status not found", db)
  | Some _ =>
      let db_post :=
        Post.mk (next_id (map Post.id (posts db)))
                (schemas.title post) (schemas.content post)
                (User.id current_user) (schemas.status_id post) now now in
      let (tags', collection) :=
        attach_tags (schemas.tags post) (tags db) [] in
      let session :=
        mkDB (users db) (status db) (posts db ++ [db_post]) tags'
             (post_tags db ++ association_rows (Post.id db_post) collection)
             (likes db) (comments db) in
      commit storage_ok db session db_post "Could not create post"
  end.

(** [setattr(db_post, field, value)] for the fields that were sent. *)
Definition setattr {A} (old : option A) (f : schemas.field A) : option A :=
  match f with
  | schemas.Unset => old
  | schemas.Sent value => value
  end.

Definition eqb_option {A} (eqb : A -> A -> bool) (x y : option A) : bool :=
  match x, y with
  | Some a, Some b => eqb a b
  | None, None => true
  | _, _ => false
  end.

(** The row the UPDATE leaves, or [None] when a NOT NULL column would
    receive NULL.  The ORM issues the UPDATE, and with it the [onupdate] of
    [updated_at], only when some column changed. *)
Definition updated_row (db_post : Post.t) (post_update : schemas.PostUpdate)
    (now : Z) : option Post.t :=
  let title := setattr (Some (Post.title db_post))
                       (schemas.update_title post_update) in
  let content := setattr (Some (Post.content db_post))
                         (schemas.update_content post_update) in
  let status_id := setattr (Post.status_id db_post)
                           (schemas.update_status_id post_update) in
  match title, content with
  | Some title, Some content =>
      let unchanged :=
        String.eqb title (Post.title db_post)
        && String.eqb content (Post.content db_post)
        && eqb_option Z.eqb status_id (Post.status_id db_post) in
      Some (Post.mk (Post.id db_post) title content
                    (Post.author_id db_post) status_id
                    (Post.created_at db_post)
                    (if unchanged then Post.updated_at db_post else now))
  | _, _ => None
  end.

Definition update_post (db : DB) (post_id : Z)
    (post_update : schemas.PostUpdate) (current_user : User.t) (now : Z)
    (storage_ok : bool) : response Post.t * DB :=
  match find_post db post_id with
  | None => (HTTPException 404 "Post not found", db)
  | Some db_post =>
      if negb (check_resource_permission current_user
                 (Post.author_id db_post) "edit")
      then (NotAuthorizedError "edit", db)
      else
        match updated_row db_post post_update now with
        | None => (HTTPException 500 "Could not update post", db)
        | Some row =>
            let posts' :=
              map (fun p => if Post.id p =? post_id then row else p)
                  (posts db) in
            let (tags', post_tags') :=
              match schemas.update_tags post_update with
              | Some tag_names =>
                  let (tags', collection) :=
                    attach_tags tag_names (tags db) [] in
                  (tags',
                   filter (fun r => negb (fst r =? post_id)) (post_tags db)
                   ++ association_rows post_id collection)
              | None => (tags db, post_tags db)
              end in
            let session :=
              mkDB (users db) (status db) posts' tags' post_tags'
                   (likes db) (comments db) in
            commit storage_ok db session row "Could not update post"
        end
  end.

(** *** Registration *)

Definition isupper (c : ascii) : bool :=
  let n := N_of_ascii c in (65 <=? n)%N && (n <=? 90)%N.
Definition islower (c : ascii) : bool :=
  let n := N_of_ascii c in (97 <=? n)%N && (n <=? 122)%N.
Definition isdigit (c : ascii) : bool :=
  let n := N_of_ascii c in (48 <=? n)%N && (n <=? 57)%N.

Definition validate_password (password : string) : bool :=
  let chars := list_ascii_of_string password in
  if Z.of_nat (String.length password) <? 8 then false
  else if negb (existsb isupper chars) then false
  else if negb (existsb islower chars) then false
  else if negb (existsb isdigit chars) then false
  else true.

(** [models.User.validate_role]. *)
Definition validate_role (role : string) : bool :=
  existsb (String.eqb role) ["admin"; "author"; "reader"].

Section Registration.

(** The address and the credential collaborator. *)
Variable EmailStr : string -> option string.
Variable get_password_hash : string -> string.

(** [user: schemas.UserCreate]: the handler runs on the validated body. *)
Definition register_user (db : DB) (user : schemas.UserCreate)
    (storage_ok : bool) : response User.t * DB :=
  match schemas.UserCreate_model_validate EmailStr user with
  | HTTPException status_code detail =>
      (HTTPException status_code detail, db)
  | RequestValidationError loc => (RequestValidationError loc, db)
  | Unhandled exn => (Unhandled exn, db)
  | Ok user =>
  match first (filter (fun u => String.eqb (User.username u)
                                           (schemas.username user))
                      (users db)) with
  | Some _ => (HTTPException 400 "Username already registered", db)
  | None =>
      match first (filter (fun u => String.eqb (User.email u)
                                               (schemas.email user))
                          (users db)) with
      | Some _ => (HTTPException 400 "Email already registered", db)
      | None =>
          if negb (validate_password (schemas.password user)) then
            (HTTPException 422
               "Password must be at least 8 characters and contain uppercase, lowercase, and numbers",
             db)
          else
            let role := match schemas.role user with
                        | Some r => if String.eqb r "" then "reader" else r
                        | None => "reader"
                        end in
            if negb (validate_role role) then
              (HTTPException 500 "Could not register user", db)
            else
              let db_user :=
                User.mk (next_id (map User.id (users db)))
                        (schemas.username user) (schemas.email user)
                        (get_password_hash (schemas.password user))
                        role in
              let session :=
                mkDB (users db ++ [db_user]) (status db) (posts db)
                     (tags db) (post_tags db) (likes db) (comments db) in
              commit storage_ok db session db_user
                     "Could not register user"
      end
  end
  end.

End Registration.

(** ** main.py: the listings of the current user *)

Definition list_user_posts (db : DB) (page limit_ : option Z)
    (current_user : User.t) : response (Page Post.t) :=
  page <- Query 1 0 None "page" page ;;
  limit_ <- Query 10 0 (Some 100) "limit" limit_ ;;
  let query :=
    filter (fun p => Post.author_id p =? User.id current_user) (posts db) in
  let total := count query in
  let posts :=
    limit limit_ (offset ((page - 1) * limit_)
                         (order_by_created_at_desc query)) in
  pages <- floordiv (total + limit_ - 1) limit_ ;;
  Ok (mkPage posts total pages page).

Definition list_user_comments (db : DB) (page limit_ : option Z)
    (current_user : User.t) : response (Page Comment.t) :=
  page <- Query 1 0 None "page" page ;;
  limit_ <- Query 10 0 (Some 100) "limit" limit_ ;;
  let query :=
    filter (fun c => Comment.author_id c =? User.id current_user)
           (comments db) in
  let total := count query in
  let comments := limit limit_ (offset ((page - 1) * limit_) query) in
  pages <- floordiv (total + limit_ - 1) limit_ ;;
  Ok (mkPage comments total pages page).

Definition list_user_liked_posts (db : DB) (page limit_ : option Z)
    (current_user : User.t) : response (Page Post.t) :=
  page <- Query 1 0 None "page" page ;;
  limit_ <- Query 10 0 (Some 100) "limit" limit_ ;;
  let query :=
    map fst
      (filter (fun row => Like.user_id (snd row) =? User.id current_user)
         (join (fun p l => Like.post_id l =? Post.id p)
               (posts db) (likes db))) in
  let total := count query in
  let posts := limit limit_ (offset ((page - 1) * limit_) query) in
  pages <- floordiv (total + limit_ - 1) limit_ ;;
  Ok (mkPage posts total pages page).

(** ** The paginated routes *)




(** ** main.py: the remaining read paths *)

(** [post.comments]: the comments whose [post_id] is the post's id. *)
Definition list_post_comments (db : DB) (post_id : Z)
  : response (list Comment.t) :=
  match find_post db post_id with
  | None => HTTPException 404 "Post not found"
  | Some post =>
      if negb (eq_nullable (Post.status_id post) published)
      then HTTPException 404 "Post not found"
      else Ok (filter (fun c => Comment.post_id c =? Post.id post)
                      (comments db))
  end.

Definition get_user_profile (db : DB) (user_id : Z) : response User.t :=
  match first (filter (fun u => User.id u =? user_id) (users db)) with
  | None => HTTPException 404 "User not found"
  | Some user => Ok user
  end.

Definition list_status (db : DB) : list Status.t := status db.

Definition list_tags (db : DB) : list Tag.t := tags db.

Definition get_post_likes (db : DB) (post_id : Z) : response Z :=
  match find_post db post_id with
  | None => HTTPException 404 "Post not found"
  | Some _ =>
      Ok (count (filter (fun l => Like.post_id l =? post_id) (likes db)))
  end.

(** ** main.py: deleting a post *)

(** [db.delete(db_post)] with the relationships of [models.Post]: the
    comments and likes of the post go with it ([cascade="all,
    delete-orphan"]), and so do its rows of the association table. *)
Definition delete_post (db : DB) (post_id : Z) (current_user : User.t)
    (storage_ok : bool) : response string * DB :=
  match find_post db post_id with
  | None => (HTTPException 404 "Post not found", db)
  | Some db_post =>
      if negb (check_resource_permission current_user
                 (Post.author_id db_post) "delete")
      then (NotAuthorizedError "delete", db)
      else
        let gone := Post.id db_post in
        let session :=
          mkDB (users db) (status db)
               (filter (fun p => negb (Post.id p =? gone)) (posts db))
               (tags db)
               (filter (fun r => negb (fst r =? gone)) (post_tags db))
               (filter (fun l => negb (Like.post_id l =? gone)) (likes db))
               (filter (fun c => negb (Comment.post_id c =? gone))
                       (comments db)) in
        commit storage_ok db session "Post deleted successfully"
               "Could not delete post"
  end.

(** ** main.py: comments *)

Module CommentCreate.
Record t := mk { content : string }.
End CommentCreate.

Module CommentUpdate.
Record t := mk { content : string }.
End CommentUpdate.

Definition set_comments (db : DB) (comments' : list Comment.t) : DB :=
  mkDB (users db) (status db) (posts db) (tags db) (post_tags db)
       (likes db) comments'.

Definition create_comment (db : DB) (post_id : Z)
    (comment : CommentCreate.t) (current_user : User.t) (now : Z)
    (storage_ok : bool) : response Comment.t * DB :=
  match find_post db post_id with
  | None => (HTTPException 404 "Post not found", db)
  | Some _ =>
      let db_comment :=
        Comment.mk (next_id (map Comment.id (comments db)))
                   (CommentCreate.content comment) post_id
                   (User.id current_user) now in
      commit storage_ok db (set_comments db (comments db ++ [db_comment]))
             db_comment "Could not create comment"
  end.

(** [db.query(models.Comment).filter(Comment.id == comment_id,
    Comment.post_id == post_id).first()]. *)
Definition find_comment (db : DB) (post_id comment_id : Z)
  : option Comment.t :=
  first (filter (fun c => (Comment.id c =? comment_id)
                          && (Comment.post_id c =? post_id))
                (comments db)).

Definition update_comment (db : DB) (post_id comment_id : Z)
    (comment_update : CommentUpdate.t) (current_user : User.t)
    (storage_ok : bool) : response Comment.t * DB :=
  match find_post db post_id with
  | None => (HTTPException 404 "Post not found", db)
  | Some _ =>
      match find_comment db post_id comment_id with
      | None => (HTTPException 404 "Comment not found", db)
      | Some comment =>
          if negb (check_resource_permission current_user
                     (Comment.author_id comment) "edit")
          then (NotAuthorizedError "edit", db)
          else
            let row :=
              Comment.mk (Comment.id comment)
                         (CommentUpdate.content comment_update)
                         (Comment.post_id comment)
                         (Comment.author_id comment)
                         (Comment.created_at comment) in
            let session :=
              set_comments db
                (map (fun c => if Comment.id c =? Comment.id comment
                               then row else c)
                     (comments db)) in
            commit storage_ok db session row "Could not update comment"
      end
  end.

Definition delete_comment (db : DB) (post_id comment_id : Z)
    (current_user : User.t) (storage_ok : bool) : response string * DB :=
  match find_post db post_id with
  | None => (HTTPException 404 "Post not found", db)
  | Some _ =>
      match find_comment db post_id comment_id with
      | None => (HTTPException 404 "Comment not found", db)
      | Some comment =>
          if negb (check_resource_permission current_user
                     (Comment.author_id comment) "delete")
          then (NotAuthorizedError "delete", db)
          else
            let session :=
              set_comments db
                (filter (fun c => negb (Comment.id c =? Comment.id comment))
                        (comments db)) in
            commit storage_ok db session "Comment deleted successfully"
                   "Could not delete comment"
      end
  end.

(** ** main.py: tags and statuses *)

Module TagBase.
Record t := mk { name : string }.
End TagBase.

Module StatusCreate.
Record t := mk { name : string; description : string }.
End StatusCreate.

Definition create_tag (db : DB) (tag : TagBase.t) (current_user : User.t)
    (storage_ok : bool) : response Tag.t * DB :=
  match first (filter (fun t => String.eqb (Tag.name t) (TagBase.name tag))
                      (tags db)) with
  | Some _ => (HTTPException 409 "Tag already exists", db)
  | None =>
      let db_tag :=
        Tag.mk (next_id (map Tag.id (tags db))) (TagBase.name tag) in
      let session :=
        mkDB (users db) (status db) (posts db) (tags db ++ [db_tag])
             (post_tags db) (likes db) (comments db) in
      commit storage_ok db session db_tag "Could not create tag"
  end.

(** [create_status] has no [try] block and does not look for the name
    first: the unique constraint on [status.name], or a failing store,
    surfaces as an exception of the commit. *)
Definition create_status (db : DB) (status_ : StatusCreate.t)
    (current_user : User.t) (storage_ok : bool)
  : response Status.t * DB :=
  if negb (is_admin current_user)
  then (HTTPException 403 "Not authorized", db)
  else if existsb (fun s => String.eqb (Status.name s)
                                       (StatusCreate.name status_))
                  (status db)
  then (Unhandled "IntegrityError", db)
  else
    let db_status :=
      Status.mk (next_id (map Status.id (status db)))
                (StatusCreate.name status_)
                (StatusCreate.description status_) in
    if storage_ok then
      (Ok db_status,
       mkDB (users db) (status db ++ [db_status]) (posts db) (tags db)
            (post_tags db) (likes db) (comments db))
    else (Unhandled "Exception", db).

(** ** main.py: the profile of the current user *)

Module UserUpdate.
Record t := mk
  { username : option string; email : option string;
    password : option string; role : option string }.

(** An [Optional] field: [None] passes, a value is checked. *)
Definition Optional (check : string -> bool) (value : option string)
  : bool :=
  match value with
  | Some v => check v
  | None => true
  end.

Section Validation.

Variable EmailStr : string -> option string.

(** The body of [PUT /me] as the handler gets it, or the 422 answer. *)
Definition model_validate (body : t) : response t :=
  if negb (Optional (schemas.Field 3 (Some 50)) (username body)) then
    RequestValidationError "username"
  else
    match match email body with
          | Some value => option_map Some (EmailStr value)
          | None => Some None
          end with
    | None => RequestValidationError "email"
    | Some email_ =>
        if negb (Optional (schemas.Field 8 None) (password body)) then
          RequestValidationError "password"
        else if negb (Optional schemas.UserRole (role body)) then
          RequestValidationError "role"
        else Ok (mk (username body) email_ (password body) (role body))
    end.

End Validation.

End UserUpdate.

Definition set_users (db : DB) (users' : list User.t) : DB :=
  mkDB users' (status db) (posts db) (tags db) (post_tags db) (likes db)
       (comments db).

Section Profile.

Variable EmailStr : string -> option string.
Variable get_password_hash : string -> string.

(** The body of the [try] block up to the commit: the attributes set on
    [current_user], or the [HTTPException] raised on the way.  The [role]
    of the request is never read. *)
Definition updated_profile (db : DB) (user_update : UserUpdate.t)
    (current_user : User.t) : response User.t :=
  user <-
    match truthy (UserUpdate.username user_update) with
    | Some username =>
        if negb (String.eqb username (User.username current_user)) then
          match first (filter (fun u => String.eqb (User.username u)
                                                   username)
                              (users db)) with
          | Some _ => HTTPException 400 "Username already taken"
          | None =>
              Ok (User.mk (User.id current_user) username
                          (User.email current_user)
                          (User.password current_user)
                          (User.role current_user))
          end
        else Ok current_user
    | None => Ok current_user
    end ;;
  user <-
    match truthy (UserUpdate.email user_update) with
    | Some email =>
        if negb (String.eqb email (User.email current_user)) then
          match first (filter (fun u => String.eqb (User.email u) email)
                              (users db)) with
          | Some _ => HTTPException 400 "Email already registered"
          | None =>
              Ok (User.mk (User.id user) (User.username user) email
                          (User.password user) (User.role user))
          end
        else Ok user
    | None => Ok user
    end ;;
  match truthy (UserUpdate.password user_update) with
  | Some password =>
      if negb (validate_password password) then
        HTTPException 400
          "Password must be at least 8 characters and contain uppercase, lowercase, and numbers"
      else
        Ok (User.mk (User.id user) (User.username user) (User.email user)
                    (get_password_hash password) (User.role user))
  | None => Ok user
  end.

Definition update_user_profile (db : DB) (user_update : UserUpdate.t)
    (current_user : User.t) (storage_ok : bool) : response User.t * DB :=
  match user_update <- UserUpdate.model_validate EmailStr user_update ;;
        updated_profile db user_update current_user with
  | Ok user =>
      let session :=
        set_users db
          (map (fun u => if User.id u =? User.id current_user
                         then user else u)
               (users db)) in
      commit storage_ok db session user "Could not update profile"
  | HTTPException status_code detail =>
      (HTTPException status_code detail, db)
  | RequestValidationError loc => (RequestValidationError loc, db)
  | Unhandled exn => (Unhandled exn, db)
  end.

End Profile.

(** ** main.py: tokens *)

Module UserLogin.
Record t := mk { username : string; password : string }.
End UserLogin.

Module Token.
Record t := mk
  { access_token : string; token_type : string;
    expires_in : Z; user : User.t }.
End Token.

(** config.py *)
Module settings.
Definition ACCESS_TOKEN_EXPIRE_MINUTES : Z := 30.
Definition ADMIN_PASSWORD_HASH : string :=
  "$2b$12$LQv3c1yqBWVHxkd0LHAkCOYz6TtxMQJqhN8/LewKyNiAYMyzJ/eRm".
End settings.

Section Tokens.

(** The credential and token collaborators: [pwd_context.verify],
    [jwt.encode] of a subject and an expiry, and [jwt.decode] at a time,
    which gives the payload's [sub] (if it has one) or fails. *)
Variable verify_password : string -> string -> bool.
Variable jwt_encode : string -> Z -> string.
Variable jwt_decode : string -> Z -> option (option string).

(** Time counts seconds. *)
Definition create_access_token (sub : string) (now : Z) : string :=
  jwt_encode sub (now + settings.ACCESS_TOKEN_EXPIRE_MINUTES * 60).

Definition find_user (db : DB) (username : string) : option User.t :=
  first (filter (fun u => String.eqb (User.username u) username)
                (users db)).

Definition login (db : DB) (credentials : UserLogin.t) (now : Z)
  : response Token.t :=
  match find_user db (UserLogin.username credentials) with
  | None => HTTPException 401 "Incorrect username or password"
  | Some user =>
      if negb (verify_password (UserLogin.password credentials)
                               (User.password user))
      then HTTPException 401 "Incorrect username or password"
      else
        Ok (Token.mk (create_access_token (User.username user) now)
                     "bearer"
                     (settings.ACCESS_TOKEN_EXPIRE_MINUTES * 60) user)
  end.

Definition get_current_user_optional (db : DB) (token : option string)
    (now : Z) : option User.t :=
  match truthy token with
  | None => None
  | Some token =>
      match jwt_decode token now with
      | Some (Some username) => find_user db username
      | Some None => None
      | None => None
      end
  end.

(** Without a bearer token the [OAuth2PasswordBearer] scheme answers 401
    itself. *)
Definition get_current_user (db : DB) (token : option string) (now : Z)
  : response User.t :=
  match token with
  | None => HTTPException 401 "Not authenticated"
  | Some token =>
      match jwt_decode token now with
      | Some (Some username) =>
          match find_user db username with
          | Some user => Ok user
          | None => HTTPException 401 "Could not validate credentials"
          end
      | Some None => HTTPException 401 "Could not validate credentials"
      | None => HTTPException 401 "Could not validate credentials"
      end
  end.

End Tokens.

(** ** init_db.py *)

Definition default_statuses : list (string * string) :=
  [("draft", "Draft post"); ("published", "Published post")].

(** The session of [init_db] does not flush before a query, so each lookup
    reads the committed rows; the commit at the end inserts the pending
    rows in the order they were added.  Nothing catches the exception of a
    commit that fails, here when the name or the address of the admin
    account is taken by a user that is no admin. *)
Definition init_db (db : DB) (storage_ok : bool) : response unit * DB :=
  let admin :=
    match first (filter (fun u => String.eqb (User.role u) "admin")
                        (users db)) with
    | Some _ => []
    | None =>
        [User.mk (next_id (map User.id (users db))) "admin"
                 "admin@example.com" settings.ADMIN_PASSWORD_HASH "admin"]
    end in
  let status' :=
    fold_left
      (fun pending status_data =>
         match first (filter (fun s => String.eqb (Status.name s)
                                                  (fst status_data))
                             (status db)) with
         | Some _ => pending
         | None =>
             pending
             ++ [Status.mk (next_id (map Status.id pending))
                           (fst status_data) (snd status_data)]
         end)
      default_statuses (status db) in
  if existsb (fun a =>
                existsb (fun u => String.eqb (User.username u)
                                             (User.username a)
                                  || String.eqb (User.email u)
                                                (User.email a))
                        (users db))
             admin
  then (Unhandled "IntegrityError", db)
  else if storage_ok then
    (Ok tt,
     mkDB (users db ++ admin) status' (posts db) (tags db) (post_tags db)
          (likes db) (comments db))
  else (Unhandled "Exception", db).

(** ** The requests that write *)

Inductive request : Type :=
| POST_auth_register (user : schemas.UserCreate)
| PUT_me (user_update : UserUpdate.t) (current_user : User.t)
| POST_posts (post : schemas.PostCreate) (current_user : User.t)
| PUT_posts (post_id : Z) (post_update : schemas.PostUpdate)
            (current_user : User.t)
| DELETE_posts (post_id : Z) (current_user : User.t)
| POST_posts_comments (post_id : Z) (comment : CommentCreate.t)
                      (current_user : User.t)
| PUT_posts_comments (post_id comment_id : Z)
                     (comment_update : CommentUpdate.t)
                     (current_user : User.t)
| DELETE_posts_comments (post_id comment_id : Z) (current_user : User.t)
| POST_posts_like (post_id : Z) (current_user : User.t)
| DELETE_posts_like (post_id : Z) (current_user : User.t)
| POST_tags (tag : TagBase.t) (current_user : User.t)
| POST_status (status_ : StatusCreate.t) (current_user : User.t).

(** A response without its body. *)
Definition outcome {A} (r : response A * DB) : response unit * DB :=
  (_ <- fst r ;; Ok tt, snd r).

Section Router.

Variable EmailStr : string -> option string.
Variable get_password_hash : string -> string.

Definition handle (db : DB) (req : request) (now : Z) (storage_ok : bool)
  : response unit * DB :=
  match req with
  | POST_auth_register user =>
      outcome (register_user EmailStr get_password_hash db user storage_ok)
  | PUT_me user_update current_user =>
      outcome (update_user_profile EmailStr get_password_hash db user_update
                                   current_user storage_ok)
  | POST_posts post current_user =>
      outcome (create_post db post current_user now storage_ok)
  | PUT_posts post_id post_update current_user =>
      outcome (update_post db post_id post_update current_user now
                           storage_ok)
  | DELETE_posts post_id current_user =>
      outcome (delete_post db post_id current_user storage_ok)
  | POST_posts_comments post_id comment current_user =>
      outcome (create_comment db post_id comment current_user now
                              storage_ok)
  | PUT_posts_comments post_id comment_id comment_update current_user =>
      outcome (update_comment db post_id comment_id comment_update
                              current_user storage_ok)
  | DELETE_posts_comments post_id comment_id current_user =>
      outcome (delete_comment db post_id comment_id current_user
                              storage_ok)
  | POST_posts_like post_id current_user =>
      outcome (like_post db post_id current_user now storage_ok)
  | DELETE_posts_like post_id current_user =>
      outcome (unlike_post db post_id current_user storage_ok)
  | POST_tags tag current_user =>
      outcome (create_tag db tag current_user storage_ok)
  | POST_status status_ current_user =>
      outcome (create_status db status_ current_user storage_ok)
  end.

End Router.

(** The user [get_current_user] resolved for a request. *)
Definition requester (req : request) : option User.t :=
  match req with
  | POST_auth_register _ => None
  | PUT_me _ current_user
  | POST_posts _ current_user
  | PUT_posts _ _ current_user
  | DELETE_posts _ current_user
  | POST_posts_comments _ _ current_user
  | PUT_posts_comments _ _ _ current_user
  | DELETE_posts_comments _ _ current_user
  | POST_posts_like _ current_user
  | DELETE_posts_like _ current_user
  | POST_tags _ current_user
  | POST_status _ current_user => Some current_user
  end.

(** [get_current_user] returns a row of the users table. *)
Definition authenticated (db : DB) (req : request) : Prop :=
  match requester req with
  | Some current_user => In current_user (users db)
  | None => True
  end.

(** The databases a run of requests leads to, each request made by a user
    of the database it meets. *)
Inductive reachable (EmailStr : string -> option string)
    (get_password_hash : string -> string) (db : DB) : DB -> Prop :=
| reachable_start : reachable EmailStr get_password_hash db db
| reachable_step (db' : DB) (req : request) (now : Z) (storage_ok : bool) :
    reachable EmailStr get_password_hash db db' ->
    authenticated db' req ->
    reachable EmailStr get_password_hash db
      (snd (handle EmailStr get_password_hash db' req now storage_ok)).

(** * Specification-side definitions *)

(** The read rule in the words of the specification. *)
Definition visible (principal : option User.t) (P : Post.t) : Prop :=
  match principal with
  | None => Post.status_id P = Some published
  | Some user =>
      if is_admin user then True
      else Post.author_id P = User.id user
           \/ Post.status_id P = Some published
  end.

Definition canView (principal : option User.t) (P : Post.t) : bool :=
  match principal with
  | None => eq_nullable (Post.status_id P) published
  | Some user =>
      is_admin user
      || (Post.author_id P =? User.id user)
      || eq_nullable (Post.status_id P) published
  end.

(** A post carries a tag when the association table links them. *)
Definition carries_tag (db : DB) (P : Post.t) (tag_id : Z) : Prop :=
  In (Post.id P, tag_id) (post_tags db).

(** The status a post references has the given name. *)
Definition has_status_named (db : DB) (P : Post.t) (name : string) : Prop :=
  exists s, In s (status db)
            /\ Post.status_id P = Some (Status.id s)
            /\ Status.name s = name.

(** A Like row for the pair (post, user) is stored. *)
Definition liked (db : DB) (post_id user_id : Z) : Prop :=
  exists l, In l (likes db)
            /\ Like.post_id l = post_id /\ Like.user_id l = user_id.

(** Some stored user has the given username. *)
Definition username_taken (db : DB) (name : string) : Prop :=
  exists u, In u (users db) /\ User.username u = name.

(** A status id that references a stored Status. *)
Definition status_exists (db : DB) (status_id : option Z) : Prop :=
  exists s, In s (status db) /\ status_id = Some (Status.id s).

(** The tag a name resolves to: the first stored tag of exactly that name. *)
Definition tag_named (tags_ : list Tag.t) (name : string) : option Tag.t :=
  first (filter (fun t => String.eqb (Tag.name t) name) tags_).

(** The tags the association table gives a post. *)
Definition tag_ids_of (db : DB) (post_id : Z) : list Z :=
  map snd (filter (fun r => fst r =? post_id) (post_tags db)).

Definition tag_exists (db : DB) (tag_id : Z) : Prop :=
  exists t, In t (tags db) /\ Tag.id t = tag_id.

(** A status filter is asked for by a principal that may not use one:
    anonymous, or with a role other than admin and author. *)
Definition status_filter_refused (status_ : option string)
    (principal : option User.t) : Prop :=
  truthy status_ <> None
  /\ match principal with
     | None => True
     | Some user => has_role user ["admin"; "author"] = false
     end.

(** ceil(a / b) for a positive [b]. *)
Definition ceil_div (a b : Z) : Z := - ((- a) / b).


(** [l'] is [l] with rows added at the end. *)
Definition extends {A} (l l' : list A) : Prop := exists more, l' = l ++ more.

(** The accounts of a database: the id and the role of each user. *)
Definition accounts (db : DB) : list (Z * string) :=
  map (fun u => (User.id u, User.role u)) (users db).

(** Primary keys: no two rows of a table share an id. *)
Definition unique_keys (db : DB) : Prop :=
  NoDup (map User.id (users db))
  /\ NoDup (map Status.id (status db))
  /\ NoDup (map Post.id (posts db))
  /\ NoDup (map Tag.id (tags db))
  /\ NoDup (map Like.id (likes db))
  /\ NoDup (map Comment.id (comments db)).

(** The columns declared [unique=True] in [models.py]. *)
Definition unique_names (db : DB) : Prop :=
  NoDup (map User.username (users db))
  /\ NoDup (map User.email (users db))
  /\ NoDup (map Tag.name (tags db))
  /\ NoDup (map Status.name (status db)).

(** At most one Like per post and user. *)
Definition unique_likes (db : DB) : Prop :=
  NoDup (map (fun l => (Like.post_id l, Like.user_id l)) (likes db)).

(** Every reference of a post, comment, like or association row to a user,
    post or tag is to a stored row. *)
Definition no_orphans (db : DB) : Prop :=
  (forall p, In p (posts db) ->
     In (Post.author_id p) (map User.id (users db)))
  /\ (forall c, In c (comments db) ->
        In (Comment.post_id c) (map Post.id (posts db))
        /\ In (Comment.author_id c) (map User.id (users db)))
  /\ (forall l, In l (likes db) ->
        In (Like.post_id l) (map Post.id (posts db))
        /\ In (Like.user_id l) (map User.id (users db)))
  /\ (forall r, In r (post_tags db) ->
        In (fst r) (map Post.id (posts db))
        /\ In (snd r) (map Tag.id (tags db))).

(** The items of a page, none when the request failed. *)
Definition page_items {A} (r : response (Page A)) : list A :=
  match r with
  | Ok p => items p
  | _ => []
  end.

(** The characters LIKE gives a meaning of their own. *)
Definition wildcard (c : ascii) : bool :=
  Ascii.eqb c "%" || Ascii.eqb c "_".

(** [sub] occurs in [s] as a run of consecutive characters. *)
Definition contains (sub s : list ascii) : Prop :=
  exists before after, s = before ++ sub ++ after.

(** The Conflict of the taxonomy at a registration: the request is refused
    as the client's error, and the detail says that the value is
    already registered. *)
Definition already_registered {A} (r : response A) : Prop :=
  exists status_code detail,
    r = HTTPException status_code detail
    /\ 400 <= status_code < 500
    /\ contains (list_ascii_of_string "already registered")
                (list_ascii_of_string detail).

(** * A small database

    Three accounts, the two seeded statuses, a draft and a published post
    of the same author, one tag carried by both posts. *)

Module Example.

Definition alice : User.t :=
  User.mk 1 "alice" "alice@example.com" "$2b$alice" "author".
Definition bob : User.t :=
  User.mk 2 "bob" "bob@example.com" "$2b$bob" "reader".
Definition carol : User.t :=
  User.mk 3 "carol" "carol@example.com" "$2b$carol" "author".
Definition root : User.t :=
  User.mk 4 "root" "root@example.com" "$2b$root" "admin".

Definition draft : Post.t :=
  Post.mk 1 "Secret plans" "not ready yet" 1 (Some 1) 100 100.
Definition article : Post.t :=
  Post.mk 2 "Hello" "an open secret" 1 (Some 2) 200 200.

Definition db : DB :=
  mkDB [alice; bob; carol; root]
       [Status.mk 1 "draft" "Draft post";
        Status.mk 2 "published" "Published post"]
       [draft; article]
       [Tag.mk 1 "news"]
       [(1, 1); (2, 1)]
       [Like.mk 1 2 3 260]
       [Comment.mk 1 "Welcome" 2 2 250].

(** Stands in for the credential collaborator. *)
Definition get_password_hash (password : string) : string :=
  ("$2b$" ++ password)%string.

(** Stands in for the address collaborator: an address holds an [@] and
    is kept as it is. *)
Definition EmailStr (value : string) : option string :=
  if existsb (Ascii.eqb "@") (list_ascii_of_string value) then Some value
  else None.

Definition dave : schemas.UserCreate :=
  schemas.mkUserCreate "dave" "dave@example.com" "Passw0rd" None.
Definition dave_again : schemas.UserCreate :=
  schemas.mkUserCreate "dave" "david@example.org" "An0therPass" (Some "author").
Definition dave_malformed : schemas.UserCreate :=
  schemas.mkUserCreate "dave" "not an email" "x" None.

End Example.

(** Stand-ins for the credential and token collaborators. *)
Module Collaborators.

Definition verify_password (plain_password hashed_password : string)
  : bool :=
  String.eqb hashed_password (Example.get_password_hash plain_password).

Definition jwt_encode (sub : string) (exp : Z) : string := sub.

Definition jwt_decode (token : string) (now : Z) : option (option string) :=
  Some (Some token).

End Collaborators.

(** * Properties *)

(** ** Query helpers *)

Lemma first_filter_Some {A} (f : A -> bool) (l : list A) (x : A) :
  first (filter f l) = Some x -> In x l /\ f x = true.
Proof.
  unfold first. intros H.
  assert (Hin : In x (filter f l)).
  { destruct (filter f l); inversion H; subst; now left. }
  now apply filter_In in Hin.
Qed.

Lemma first_filter_None {A} (f : A -> bool) (l : list A) :
  first (filter f l) = None <-> forall x, In x l -> f x = false.
Proof.
  unfold first. split.
  - intros H x Hin. destruct (f x) eqn:E; [|reflexivity].
    assert (Hx : In x (filter f l)) by (apply filter_In; auto).
    destruct (filter f l); [contradiction | discriminate].
  - intros H. destruct (filter f l) as [|y t] eqn:E; [reflexivity|].
    assert (Hy : In y (filter f l)) by (rewrite E; now left).
    apply filter_In in Hy. destruct Hy as [Hy1 Hy2].
    rewrite (H y Hy1) in Hy2. discriminate.
Qed.

Lemma in_limit {A} (n : Z) (l : list A) (x : A) : In x (limit n l) -> In x l.
Proof.
  unfold limit. destruct (n <? 0); [auto|]. intros H.
  rewrite <- (firstn_skipn (Z.to_nat n) l). apply in_or_app. now left.
Qed.

Lemma in_offset {A} (n : Z) (l : list A) (x : A) : In x (offset n l) -> In x l.
Proof.
  unfold offset. intros H.
  rewrite <- (firstn_skipn (Z.to_nat n) l). apply in_or_app. now right.
Qed.


Lemma in_insert_desc (p q : Post.t) (l : list Post.t) :
  In q (insert_desc p l) <-> q = p \/ In q l.
Proof.
  induction l as [|r l IH]; simpl.
  - intuition.
  - destruct (Post.created_at r <=? Post.created_at p); simpl.
    + intuition.
    + rewrite IH. intuition.
Qed.

Lemma in_order_by_created_at_desc (q : Post.t) (l : list Post.t) :
  In q (order_by_created_at_desc l) <-> In q l.
Proof.
  unfold order_by_created_at_desc.
  induction l as [|p l IH]; simpl; [tauto|].
  rewrite in_insert_desc, IH. intuition.
Qed.

Lemma eq_nullable_true (column : option Z) (value : Z) :
  eq_nullable column value = true <-> column = Some value.
Proof.
  destruct column as [v|]; simpl.
  - rewrite Z.eqb_eq. split; [intros ->; reflexivity | now inversion 1].
  - split; discriminate.
Qed.

(** ** Visibility of a single post *)

Lemma canView_visible (principal : option User.t) (P : Post.t) :
  canView principal P = true <-> visible principal P.
Proof.
  unfold canView, visible. destruct principal as [user|].
  - destruct (is_admin user); simpl; [tauto|].
    rewrite orb_true_iff, Z.eqb_eq, eq_nullable_true. tauto.
  - apply eq_nullable_true.
Qed.

Lemma get_post_canView (db : DB) (post_id : Z) (principal : option User.t)
    (P : Post.t) :
  find_post db post_id = Some P ->
  get_post db post_id principal =
    if canView principal P then Ok P
    else HTTPException NotFound "Post not found".
Proof.
  intros Hfind. unfold get_post, canView. rewrite Hfind.
  destruct (eq_nullable (Post.status_id P) published); simpl.
  - destruct principal as [user|]; [|reflexivity].
    now rewrite !orb_true_r.
  - destruct principal as [user|]; [|reflexivity].
    rewrite !orb_false_r, (Z.eqb_sym (Post.author_id P)).
    destruct (is_admin user); simpl; [reflexivity|].
    now destruct (User.id user =? Post.author_id P).
Qed.

Lemma filter_published_posts_canView (query : list Post.t)
    (principal : option User.t) (P : Post.t) :
  In P (filter_published_posts query principal)
  <-> In P query /\ canView principal P = true.
Proof.
  unfold filter_published_posts, canView. destruct principal as [user|].
  - destruct (is_admin user); simpl; [tauto|]. apply filter_In.
  - apply filter_In.
Qed.

(** C1. For a post [P] stored under [post_id] and any principal, anonymous
    or not, [get_post] returns [P] exactly when [P] is visible to the
    principal: to an anonymous principal when its status is published, to
    an admin always, to any other user when the user is the author or the
    status is published.  A stored post that is not visible is answered
    with 404 "Post not found", and no answer of [get_post] is a 403. *)
Theorem get_post_visible_iff :
  forall (db : DB) (post_id : Z) (principal : option User.t) (P : Post.t),
    find_post db post_id = Some P ->
    (get_post db post_id principal = Ok P <-> visible principal P)
    /\ (~ visible principal P ->
        get_post db post_id principal
        = HTTPException NotFound "Post not found")
    /\ (forall detail,
         get_post db post_id principal <> HTTPException Forbidden detail).
Proof.
  intros db post_id principal P Hfind.
  rewrite (get_post_canView _ _ _ _ Hfind), <- canView_visible.
  destruct (canView principal P); (split; [|split]).
  - tauto.
  - intros H. now contradiction H.
  - discriminate.
  - split; discriminate.
  - reflexivity.
  - intros detail H. inversion H.
Qed.

Lemma get_post_visible_iff_witness :
  find_post Example.db 1 = Some Example.draft
  /\ get_post Example.db 1 None = HTTPException NotFound "Post not found"
  /\ get_post Example.db 1 (Some Example.bob)
     = HTTPException NotFound "Post not found"
  /\ get_post Example.db 1 (Some Example.alice) = Ok Example.draft.
Proof.
  split; [reflexivity|]. split; [|split].
  - apply (get_post_visible_iff Example.db 1 None Example.draft eq_refl).
    simpl. discriminate.
  - apply (get_post_visible_iff Example.db 1 (Some Example.bob)
             Example.draft eq_refl).
    simpl. intros [H|H]; discriminate.
  - apply (get_post_visible_iff Example.db 1 (Some Example.alice)
             Example.draft eq_refl).
    simpl. now left.
Defined.

(** ** Listing posts *)

Lemma in_search_filter (search : option string) (query : list Post.t)
    (p : Post.t) :
  In p (search_filter search query) -> In p query.
Proof.
  unfold search_filter. destruct (truthy search) as [s|]; [|auto].
  intros H. now apply filter_In in H.
Qed.

Lemma paginate_Ok {A} (query : list A) (page limit_ : Z) (result : Page A) :
  paginate query page limit_ = Ok result ->
  limit_ <> 0
  /\ result = mkPage (limit limit_ (offset ((page - 1) * limit_) query))
                     (count query)
                     ((count query + limit_ - 1) / limit_) page.
Proof.
  unfold paginate, floordiv. destruct (limit_ =? 0) eqn:E; simpl.
  - discriminate.
  - apply Z.eqb_neq in E. intros H. inversion H. auto.
Qed.

Lemma in_paginate {A} (query : list A) (page limit_ : Z) (result : Page A)
    (x : A) :
  paginate query page limit_ = Ok result -> In x (items result) -> In x query.
Proof.
  intros H Hin. apply paginate_Ok in H. destruct H as [_ ->]. simpl in Hin.
  eapply in_offset, in_limit, Hin.
Qed.

(** C2. Every post on a page that [list_posts] returns to an anonymous
    caller is a stored post whose status is published, whatever the search
    string: the page is cut from the search filter applied to the posts the
    visibility filter kept, so a draft whose title or content matches the
    search term is never listed. *)
Theorem list_posts_anonymous_published :
  forall (db : DB) (page limit_ : option Z) (search : option string)
         (result : Page Post.t),
    list_posts db page limit_ search None = Ok result ->
    Forall (fun p =>
              Post.status_id p = Some published
              /\ In p (search_filter search
                         (filter (fun q => eq_nullable (Post.status_id q)
                                                       published)
                                 (posts db))))
           (items result).
Proof.
  intros db page limit_ search result H. unfold list_posts in H.
  destruct (Query 1 0 None "page" page) as [pg| | |]; try discriminate.
  destruct (Query 10 0 (Some 100) "limit" limit_) as [lim| | |];
    try discriminate.
  simpl in H. apply Forall_forall. intros p Hin.
  apply (in_paginate _ _ _ _ _ H) in Hin.
  rewrite in_order_by_created_at_desc in Hin.
  split; [|exact Hin].
  apply in_search_filter, filter_In in Hin.
  now apply eq_nullable_true.
Qed.

Lemma list_posts_anonymous_published_witness :
  list_posts Example.db None None (Some "SECRET") None
  = Ok (mkPage [Example.article] 1 1 1)
  /\ Forall (fun p =>
               Post.status_id p = Some published
               /\ In p (search_filter (Some "SECRET")
                          (filter (fun q => eq_nullable (Post.status_id q)
                                                        published)
                                  (posts Example.db))))
            (items (mkPage [Example.article] 1 1 1)).
Proof.
  split; [reflexivity|].
  apply (list_posts_anonymous_published Example.db None None
           (Some "SECRET")).
  reflexivity.
Defined.

(** ** A post with its like status *)

(** C3. For a post [P] stored under [post_id], [get_post_with_like_status]
    returns [P] with the number of its likes and the requester's like flag
    for every principal, the anonymous one included: neither the status
    nor the author of [P] is looked at, so a draft is returned to whoever
    supplies its id. *)
Theorem get_post_with_like_status_no_visibility_check :
  forall (db : DB) (post_id : Z) (principal : option User.t) (P : Post.t),
    find_post db post_id = Some P ->
    get_post_with_like_status db post_id principal
    = Ok (mkPostWithLikeStatus P
            (match principal with
             | Some user =>
                 existsb (fun l => (Like.post_id l =? post_id)
                                   && (Like.user_id l =? User.id user))
                         (likes db)
             | None => false
             end)
            (count (filter (fun l => Like.post_id l =? post_id)
                           (likes db)))).
Proof.
  intros db post_id principal P Hfind.
  unfold get_post_with_like_status. rewrite Hfind. do 2 f_equal.
  destruct principal as [user|]; [|reflexivity].
  unfold find_like, first.
  induction (likes db) as [|l ls IH]; simpl; [reflexivity|].
  destruct ((Like.post_id l =? post_id) && (Like.user_id l =? User.id user));
    simpl; [reflexivity | exact IH].
Qed.

Lemma get_post_with_like_status_no_visibility_check_witness :
  find_post Example.db 1 = Some Example.draft
  /\ get_post Example.db 1 None = HTTPException NotFound "Post not found"
  /\ get_post_with_like_status Example.db 1 None
     = Ok (mkPostWithLikeStatus Example.draft false 0)
  /\ get_post_with_like_status Example.db 1 (Some Example.bob)
     = Ok (mkPostWithLikeStatus Example.draft false 0).
Proof.
  split; [reflexivity|]. split; [reflexivity|]. split.
  - apply (get_post_with_like_status_no_visibility_check
             Example.db 1 None Example.draft eq_refl).
  - apply (get_post_with_like_status_no_visibility_check
             Example.db 1 (Some Example.bob) Example.draft eq_refl).
Defined.

(** ** Posts by tag *)

Lemma Query_page_Ok (value : option Z) (page : Z) :
  Query 1 0 None "page" value = Ok page -> 0 < page.
Proof.
  unfold Query. destruct value as [v|].
  - destruct (0 <? v) eqn:E; simpl; [|discriminate].
    intros H. inversion H. subst. now apply Z.ltb_lt.
  - intros H. inversion H. lia.
Qed.

Lemma Query_limit_Ok (value : option Z) (limit_ : Z) :
  Query 10 0 (Some 100) "limit" value = Ok limit_ -> 0 < limit_ <= 100.
Proof.
  unfold Query. destruct value as [v|].
  - destruct (0 <? v) eqn:E1; destruct (v <=? 100) eqn:E2; simpl;
      try discriminate.
    intros H. inversion H. subst.
    apply Z.ltb_lt in E1. apply Z.leb_le in E2. lia.
  - intros H. inversion H. lia.
Qed.

Lemma in_join {A B} (on : A -> B -> bool) (l : list A) (r : list B)
    (a : A) (b : B) :
  In (a, b) (join on l r) <-> In a l /\ In b r /\ on a b = true.
Proof.
  unfold join. rewrite in_flat_map. split.
  - intros [a' [Ha H]]. apply in_map_iff in H.
    destruct H as [b' [Heq Hb]]. inversion Heq. subst.
    apply filter_In in Hb. tauto.
  - intros [Ha [Hb Hon]]. exists a. split; [assumption|].
    apply in_map, filter_In. auto.
Qed.

Lemma in_posts_with_tag (db : DB) (tag_id : Z) (P : Post.t) :
  In P (posts_with_tag db tag_id)
  <-> In P (posts db) /\ carries_tag db P tag_id.
Proof.
  unfold posts_with_tag, carries_tag. rewrite in_map_iff. split.
  - intros [[p [pid tid]] [Heq H]]. simpl in Heq. subst p.
    apply filter_In in H. destruct H as [H Htag]. simpl in Htag.
    apply in_join in H. destruct H as [HP [Hrow Hon]]. simpl in Hon.
    apply Z.eqb_eq in Htag, Hon. subst. auto.
  - intros [HP Hrow]. exists (P, (Post.id P, tag_id)). split; [reflexivity|].
    apply filter_In. simpl. split; [|apply Z.eqb_refl].
    apply in_join. simpl. rewrite Z.eqb_refl. auto.
Qed.

Lemma in_with_status_name (db : DB) (name : string) (query : list Post.t)
    (P : Post.t) :
  In P (with_status_name db name query)
  <-> In P query /\ has_status_named db P name.
Proof.
  unfold with_status_name, has_status_named. rewrite in_map_iff. split.
  - intros [[p s] [Heq H]]. simpl in Heq. subst p.
    apply filter_In in H. destruct H as [H Hname]. simpl in Hname.
    apply in_join in H. destruct H as [HP [Hs Hon]].
    apply eq_nullable_true in Hon. apply String.eqb_eq in Hname.
    split; [assumption|]. exists s. auto.
  - intros [HP [s [Hs [Hid Hname]]]]. exists (P, s). split; [reflexivity|].
    apply filter_In. simpl. split; [|now apply String.eqb_eq].
    apply in_join. repeat split; try assumption.
    now apply eq_nullable_true.
Qed.

(** Every row of a query lies on one of its pages. *)
Lemma in_some_page {A} (query : list A) (limit_ : Z) (x : A) :
  0 < limit_ -> In x query ->
  exists page, 0 < page
               /\ In x (limit limit_ (offset ((page - 1) * limit_) query)).
Proof.
  intros Hlim Hin. apply In_nth_error in Hin. destruct Hin as [n Hn].
  set (m := Z.to_nat limit_).
  assert (Hm : (0 < m)%nat) by (unfold m; lia).
  exists (Z.of_nat (n / m) + 1). split; [lia|].
  unfold limit, offset.
  destruct (limit_ <? 0) eqn:E; [apply Z.ltb_lt in E; lia|].
  replace (Z.to_nat ((Z.of_nat (n / m) + 1 - 1) * limit_))
    with (m * (n / m))%nat by (unfold m; nia).
  apply (nth_error_In _ (n mod m)).
  rewrite nth_error_firstn.
  assert (Hmod : (n mod m < m)%nat) by (apply Nat.mod_upper_bound; lia).
  fold m. apply Nat.ltb_lt in Hmod. rewrite Hmod.
  rewrite nth_error_skipn, <- Nat.div_mod_eq. exact Hn.
Qed.

Lemma truthy_Some (s : string) : s <> "" -> truthy (Some s) = Some s.
Proof.
  intros H. unfold truthy. destruct (String.eqb s "") eqn:E; [|reflexivity].
  apply String.eqb_eq in E. contradiction.
Qed.

Lemma get_posts_by_tag_status_Ok (db : DB) (tag_id : Z) (page limit_ : option Z)
    (name : string) (user : User.t) (tag : Tag.t) (pg lim : Z) :
  first (filter (fun t => Tag.id t =? tag_id) (tags db)) = Some tag ->
  Query 1 0 None "page" page = Ok pg ->
  Query 10 0 (Some 100) "limit" limit_ = Ok lim ->
  name <> "" ->
  has_role user ["admin"; "author"] = true ->
  get_posts_by_tag db tag_id page limit_ (Some name) (Some user)
  = paginate (with_status_name db name (posts_with_tag db tag_id)) pg lim.
Proof.
  intros Htag Hpg Hlim Hname Hrole. unfold get_posts_by_tag.
  rewrite Hpg, Hlim. cbn [bind].
  rewrite Htag, (truthy_Some _ Hname), Hrole. reflexivity.
Qed.

(** C4. When the tag exists, a non-empty status filter is supplied and the
    principal's role is admin or author, [get_posts_by_tag] pages through
    exactly the stored posts that carry the tag and reference a status of
    that name: [total] counts them all and each of them is on one of the
    pages.  Neither the author nor the requester decides membership, so
    drafts of other users are listed. *)
Theorem get_posts_by_tag_status_filter_skips_visibility :
  forall (db : DB) (tag_id : Z) (page limit_ : option Z) (name : string)
         (user : User.t) (tag : Tag.t) (pg lim : Z),
    first (filter (fun t => Tag.id t =? tag_id) (tags db)) = Some tag ->
    Query 1 0 None "page" page = Ok pg ->
    Query 10 0 (Some 100) "limit" limit_ = Ok lim ->
    name <> "" ->
    has_role user ["admin"; "author"] = true ->
    get_posts_by_tag db tag_id page limit_ (Some name) (Some user)
    = Ok (mkPage
            (limit lim (offset ((pg - 1) * lim)
               (with_status_name db name (posts_with_tag db tag_id))))
            (count (with_status_name db name (posts_with_tag db tag_id)))
            ((count (with_status_name db name (posts_with_tag db tag_id))
              + lim - 1) / lim)
            pg)
    /\ (forall P,
         In P (with_status_name db name (posts_with_tag db tag_id))
         <-> In P (posts db) /\ carries_tag db P tag_id
             /\ has_status_named db P name)
    /\ (forall P,
         In P (posts db) -> carries_tag db P tag_id ->
         has_status_named db P name ->
         exists k result,
           0 < k
           /\ get_posts_by_tag db tag_id (Some k) limit_ (Some name)
                               (Some user) = Ok result
           /\ In P (items result)).
Proof.
  intros db tag_id page limit_ name user tag pg lim Htag Hpg Hlim Hname Hrole.
  pose proof (Query_limit_Ok _ _ Hlim) as Hbound.
  assert (Hmem : forall P,
             In P (with_status_name db name (posts_with_tag db tag_id))
             <-> In P (posts db) /\ carries_tag db P tag_id
                 /\ has_status_named db P name).
  { intros P. rewrite in_with_status_name, in_posts_with_tag. tauto. }
  assert (Hpage : forall k, 0 < k ->
             get_posts_by_tag db tag_id (Some k) limit_ (Some name) (Some user)
             = Ok (mkPage
                  (limit lim (offset ((k - 1) * lim)
                     (with_status_name db name (posts_with_tag db tag_id))))
                  (count (with_status_name db name (posts_with_tag db tag_id)))
                  ((count (with_status_name db name (posts_with_tag db tag_id))
                    + lim - 1) / lim)
                  k)).
  { intros k Hk.
    rewrite (get_posts_by_tag_status_Ok db tag_id (Some k) limit_ name user
               tag k lim Htag); try assumption.
    - unfold paginate, floordiv.
      destruct (lim =? 0) eqn:E; [apply Z.eqb_eq in E; lia | reflexivity].
    - unfold Query. apply Z.ltb_lt in Hk. now rewrite Hk. }
  split; [|split].
  - rewrite (get_posts_by_tag_status_Ok db tag_id page limit_ name user
               tag pg lim); try assumption.
    unfold paginate, floordiv.
    destruct (lim =? 0) eqn:E; [apply Z.eqb_eq in E; lia | reflexivity].
  - exact Hmem.
  - intros P HP Hcarries Hstatus.
    assert (Hin : In P (with_status_name db name (posts_with_tag db tag_id)))
      by (apply Hmem; auto).
    destruct (in_some_page _ lim P (proj1 Hbound) Hin) as [k [Hk Hink]].
    exists k. eexists. split; [exact Hk|]. split; [apply (Hpage k Hk)|].
    exact Hink.
Qed.

Lemma get_posts_by_tag_status_filter_skips_visibility_witness :
  Post.author_id Example.draft <> User.id Example.carol
  /\ get_post Example.db 1 (Some Example.carol)
     = HTTPException NotFound "Post not found"
  /\ get_posts_by_tag Example.db 1 None None (Some "draft")
                      (Some Example.carol)
     = Ok (mkPage [Example.draft] 1 1 1).
Proof.
  split; [discriminate|]. split; [reflexivity|].
  apply (get_posts_by_tag_status_filter_skips_visibility
           Example.db 1 None None "draft" Example.carol (Tag.mk 1 "news")
           1 10 eq_refl eq_refl eq_refl).
  - discriminate.
  - reflexivity.
Defined.

Lemma first_filter_tag (db : DB) (tag_id : Z) :
  match first (filter (fun t => Tag.id t =? tag_id) (tags db)) with
  | Some _ => tag_exists db tag_id
  | None => ~ tag_exists db tag_id
  end.
Proof.
  destruct (first _) as [t|] eqn:E.
  - apply first_filter_Some in E. destruct E as [Hin Hid].
    exists t. split; [assumption | now apply Z.eqb_eq].
  - intros [t [Hin Hid]].
    pose proof (proj1 (first_filter_None _ _) E t Hin) as H.
    apply Z.eqb_neq in H. contradiction.
Qed.

(** C5, as the code has it.  A request with valid paging parameters is
    answered 403 exactly when the tag exists, a non-empty status filter is
    supplied and the principal is anonymous or has a role other than admin
    and author.  On an existing tag a request without a status filter
    succeeds for every principal, and a request for a tag that does not
    exist is answered 404 before the status filter is looked at. *)
Theorem get_posts_by_tag_forbidden_iff :
  forall (db : DB) (tag_id : Z) (page limit_ : option Z)
         (status_ : option string) (principal : option User.t) (pg lim : Z),
    Query 1 0 None "page" page = Ok pg ->
    Query 10 0 (Some 100) "limit" limit_ = Ok lim ->
    ((exists detail,
        get_posts_by_tag db tag_id page limit_ status_ principal
        = HTTPException Forbidden detail)
     <-> tag_exists db tag_id /\ status_filter_refused status_ principal)
    /\ (tag_exists db tag_id -> truthy status_ = None ->
        exists result,
          get_posts_by_tag db tag_id page limit_ status_ principal
          = Ok result
          /\ total result
             = count (filter_published_posts (posts_with_tag db tag_id)
                                             principal))
    /\ (~ tag_exists db tag_id ->
        get_posts_by_tag db tag_id page limit_ status_ principal
        = HTTPException NotFound "Tag not found").
Proof.
  intros db tag_id page limit_ status_ principal pg lim Hpg Hlim.
  pose proof (Query_limit_Ok _ _ Hlim) as Hbound.
  assert (Hdiv : forall a, floordiv a lim = Ok (a / lim)).
  { intros a. unfold floordiv.
    destruct (lim =? 0) eqn:E; [apply Z.eqb_eq in E; lia | reflexivity]. }
  pose proof (first_filter_tag db tag_id) as Htag.
  unfold get_posts_by_tag, status_filter_refused.
  rewrite Hpg, Hlim. cbn [bind].
  destruct (first (filter (fun t => Tag.id t =? tag_id) (tags db))) as [t|].
  - destruct (truthy status_) as [s|].
    + destruct principal as [user|].
      * destruct (has_role user ["admin"; "author"]) eqn:Hrole;
          cbn [negb bind]; try rewrite Hdiv; cbn [bind].
        -- split; [|split].
           ++ split; [intros [d H]; discriminate|].
              intros [_ [_ H]]. discriminate.
           ++ discriminate.
           ++ contradiction.
        -- split; [|split].
           ++ split; [|intros _; eexists; reflexivity].
              intros _. split; [exact Htag|]. split; [discriminate|].
              reflexivity.
           ++ discriminate.
           ++ contradiction.
      * cbn [bind]. split; [|split].
        -- split; [|intros _; eexists; reflexivity].
           intros _. split; [exact Htag|]. split; [discriminate | exact I].
        -- discriminate.
        -- contradiction.
    + cbn [bind]. rewrite Hdiv. cbn [bind]. split; [|split].
      * split; [intros [d H]; discriminate|].
        intros [_ [H _]]. now contradiction H.
      * intros _ _. eexists. split; reflexivity.
      * contradiction.
  - split; [|split].
    + split; [intros [d H]; discriminate | tauto].
    + contradiction.
    + reflexivity.
Qed.

Lemma get_posts_by_tag_forbidden_iff_witness :
  (exists detail,
     get_posts_by_tag Example.db 1 None None (Some "draft")
                      (Some Example.bob)
     = HTTPException Forbidden detail)
  /\ (exists result,
        get_posts_by_tag Example.db 1 None None None (Some Example.bob)
        = Ok result
        /\ total result
           = count (filter_published_posts (posts_with_tag Example.db 1)
                                           (Some Example.bob))).
Proof.
  assert (Htag : tag_exists Example.db 1).
  { exists (Tag.mk 1 "news"). split; [now left | reflexivity]. }
  split.
  - apply (get_posts_by_tag_forbidden_iff Example.db 1 None None
             (Some "draft") (Some Example.bob) 1 10 eq_refl eq_refl).
    split; [exact Htag|]. split; [discriminate | reflexivity].
  - apply (get_posts_by_tag_forbidden_iff Example.db 1 None None
             None (Some Example.bob) 1 10 eq_refl eq_refl).
    + exact Htag.
    + reflexivity.
Defined.

(** C5 as stated fails where the tag does not exist: an anonymous request
    with a status filter is then answered 404, not 403. *)
Lemma get_posts_by_tag_forbidden_iff_counterexample :
  status_filter_refused (Some "draft") None
  /\ get_posts_by_tag Example.db 7 None None (Some "draft") None
     = HTTPException NotFound "Tag not found"
  /\ ~ (exists detail,
          get_posts_by_tag Example.db 7 None None (Some "draft") None
          = HTTPException Forbidden detail).
Proof.
  split; [split; [discriminate | exact I]|].
  split; [reflexivity|].
  intros [detail H]. discriminate.
Qed.

(** ** Pagination *)

Lemma floordiv_ceil (a b : Z) :
  0 < b ->
  (a + b - 1) / b = ceil_div a b
  /\ (ceil_div a b - 1) * b < a <= ceil_div a b * b.
Proof.
  intros Hb. unfold ceil_div.
  pose proof (Z.div_mod (a + b - 1) b ltac:(lia)) as H1.
  pose proof (Z.mod_pos_bound (a + b - 1) b Hb) as H2.
  pose proof (Z.div_mod (- a) b ltac:(lia)) as H3.
  pose proof (Z.mod_pos_bound (- a) b Hb) as H4.
  split; nia.
Qed.

Lemma Query_Some (default gt : Z) (le : option Z) (loc : string) (v : Z) :
  gt < v -> match le with Some m => v <= m | None => True end ->
  Query default gt le loc (Some v) = Ok v.
Proof.
  intros Hgt Hle. unfold Query. apply Z.ltb_lt in Hgt. rewrite Hgt.
  destruct le as [m|]; [|reflexivity].
  apply Z.leb_le in Hle. now rewrite Hle.
Qed.


Lemma list_posts_visibility (db : DB) (page limit_ : option Z)
    (search : option string) (principal : option User.t) :
  list_posts db page limit_ search principal
  = (page <- Query 1 0 None "page" page ;;
     limit_ <- Query 10 0 (Some 100) "limit" limit_ ;;
     paginate (order_by_created_at_desc
                 (search_filter search
                    (filter_published_posts (posts db) principal)))
              page limit_).
Proof.
  unfold list_posts, filter_published_posts.
  destruct principal as [user|]; [destruct (is_admin user)|]; reflexivity.
Qed.






(** ** Likes *)

Lemma next_id_fresh (ids : list Z) (x : Z) : In x ids -> x < next_id ids.
Proof.
  unfold next_id.
  induction ids as [|y ids IH]; cbn [fold_right In]; [contradiction|].
  intros [->|H]; [lia|]. specialize (IH H). lia.
Qed.

Lemma find_like_liked (db : DB) (post_id user_id : Z) :
  match find_like db post_id user_id with
  | Some l => In l (likes db)
              /\ Like.post_id l = post_id /\ Like.user_id l = user_id
  | None => ~ liked db post_id user_id
  end.
Proof.
  unfold find_like. destruct (first _) as [l|] eqn:E.
  - apply first_filter_Some in E. destruct E as [Hin H].
    apply andb_true_iff in H. rewrite !Z.eqb_eq in H. tauto.
  - intros [l [Hin [H1 H2]]].
    pose proof (proj1 (first_filter_None _ _) E l Hin) as H.
    subst. rewrite !Z.eqb_refl in H. discriminate.
Qed.

Lemma set_likes_same (db : DB) : set_likes db (likes db) = db.
Proof. now destruct db. Qed.

Lemma filter_all_true {A} (f : A -> bool) (l : list A) :
  (forall x, In x l -> f x = true) -> filter f l = l.
Proof.
  induction l as [|a l IH]; simpl; intros H; [reflexivity|].
  rewrite (H a (or_introl eq_refl)), IH; auto.
Qed.

Lemma filter_all_false {A} (f : A -> bool) (l : list A) :
  (forall x, In x l -> f x = false) -> filter f l = [].
Proof.
  induction l as [|a l IH]; simpl; intros H; [reflexivity|].
  rewrite (H a (or_introl eq_refl)), IH; auto.
Qed.

(** Unliking right after a like that went through restores the table. *)
Lemma unlike_after_like (db : DB) (post_id : Z) (user : User.t) (now : Z) :
  ~ liked db post_id (User.id user) ->
  let like := Like.mk (next_id (map Like.id (likes db))) post_id
                      (User.id user) now in
  unlike_post (set_likes db (likes db ++ [like])) post_id user true
  = (Ok "Post unliked successfully", db).
Proof.
  intros Hnot like.
  assert (Hnone : forall l, In l (likes db) ->
             (Like.post_id l =? post_id) && (Like.user_id l =? User.id user)
             = false).
  { intros l Hin.
    destruct ((Like.post_id l =? post_id)
              && (Like.user_id l =? User.id user)) eqn:E; [|reflexivity].
    apply andb_true_iff in E. rewrite !Z.eqb_eq in E.
    exfalso. apply Hnot. exists l. tauto. }
  unfold unlike_post, find_like. cbn [likes set_likes].
  rewrite filter_app, (filter_all_false _ _ Hnone). cbn [filter app].
  cbn [Like.post_id Like.user_id like]. rewrite !Z.eqb_refl.
  cbn [andb first hd_error commit likes set_likes].
  rewrite filter_app. cbn [filter Like.id like].
  rewrite Z.eqb_refl. cbn [negb]. rewrite app_nil_r, filter_all_true.
  - unfold commit. f_equal. destruct db; reflexivity.
  - intros l Hin.
    assert (Like.id l < next_id (map Like.id (likes db)))
      by (apply next_id_fresh, in_map, Hin).
    apply negb_true_iff, Z.eqb_neq. lia.
Qed.

(** C6. On a stored post: [like_post] answers 409 exactly when a Like of
    the pair is stored, and leaves the table alone then; otherwise, the
    store permitting, it appends one Like of the pair and nothing else.
    [unlike_post] answers 404 exactly when no Like of the pair is stored;
    otherwise it deletes the Like it found and keeps every row with
    another id.  From a state without a Like of the pair, like, unlike and
    like again all succeed, and the state after the unlike is the state
    before the first like. *)
Theorem like_unlike_conflict_notfound :
  forall (db : DB) (post_id : Z) (user : User.t) (now : Z) (P : Post.t),
    find_post db post_id = Some P ->
    (forall storage_ok,
        (exists detail,
            fst (like_post db post_id user now storage_ok)
            = HTTPException Conflict detail)
        <-> liked db post_id (User.id user))
    /\ (liked db post_id (User.id user) ->
        forall storage_ok,
          like_post db post_id user now storage_ok
          = (HTTPException Conflict "Post already liked", db))
    /\ (~ liked db post_id (User.id user) ->
        exists like,
          like_post db post_id user now true
          = (Ok "Post liked successfully",
             set_likes db (likes db ++ [like]))
          /\ Like.post_id like = post_id
          /\ Like.user_id like = User.id user
          /\ ~ In like (likes db))
    /\ (forall storage_ok,
          (exists detail,
              fst (unlike_post db post_id user storage_ok)
              = HTTPException NotFound detail)
          <-> ~ liked db post_id (User.id user))
    /\ (liked db post_id (User.id user) ->
        exists like,
          In like (likes db)
          /\ Like.post_id like = post_id
          /\ Like.user_id like = User.id user
          /\ unlike_post db post_id user true
             = (Ok "Post unliked successfully",
                set_likes db
                  (filter (fun l => negb (Like.id l =? Like.id like))
                          (likes db)))
          /\ ~ In like (likes (snd (unlike_post db post_id user true)))
          /\ (forall l, In l (likes db) -> Like.id l <> Like.id like ->
                In l (likes (snd (unlike_post db post_id user true)))))
    /\ (~ liked db post_id (User.id user) ->
        exists db1 db3,
          like_post db post_id user now true
          = (Ok "Post liked successfully", db1)
          /\ unlike_post db1 post_id user true
             = (Ok "Post unliked successfully", db)
          /\ like_post db post_id user now true
             = (Ok "Post liked successfully", db3)).
Proof.
  intros db post_id user now P Hpost.
  pose proof (find_like_liked db post_id (User.id user)) as Hlike.
  unfold like_post, unlike_post. rewrite Hpost.
  destruct (find_like db post_id (User.id user)) as [l|].
  - destruct Hlike as [Hin [Hp Hu]].
    assert (Hl : liked db post_id (User.id user)) by (exists l; auto).
    split; [|split; [|split; [|split; [|split]]]].
    + intros ok. split; [auto|]. intros _. eexists. reflexivity.
    + reflexivity.
    + contradiction.
    + intros ok. unfold commit. destruct ok; cbn [fst]; split.
      * intros [d H]; discriminate.
      * contradiction.
      * intros [d H]; discriminate.
      * contradiction.
    + intros _. exists l. cbn [commit snd likes set_likes].
      repeat (split; [assumption|]). split; [reflexivity|]. split.
      * intros H. apply filter_In in H. destruct H as [_ H].
        rewrite Z.eqb_refl in H. discriminate.
      * intros l' Hin' Hne. apply filter_In. split; [assumption|].
        now apply negb_true_iff, Z.eqb_neq.
    + contradiction.
  - split; [|split; [|split; [|split; [|split]]]].
    + intros ok. unfold commit. destruct ok; cbn [fst]; split.
      * intros [d H]; discriminate.
      * contradiction.
      * intros [d H]; discriminate.
      * contradiction.
    + contradiction.
    + intros _. eexists. cbn [commit]. split; [reflexivity|].
      cbn [Like.post_id Like.user_id]. split; [reflexivity|].
      split; [reflexivity|].
      intros Hin. apply (in_map Like.id), next_id_fresh in Hin.
      cbn [Like.id] in Hin. lia.
    + intros ok. cbn [fst]. split; [auto|]. intros _. eexists. reflexivity.
    + contradiction.
    + intros _. eexists. eexists. cbn [commit].
      split; [reflexivity|]. split; [|reflexivity].
      apply (unlike_after_like db post_id user now Hlike).
Qed.

Lemma like_unlike_conflict_notfound_witness :
  find_post Example.db 2 = Some Example.article
  /\ ~ liked Example.db 2 (User.id Example.bob)
  /\ exists db1 db3,
       like_post Example.db 2 Example.bob 300 true
       = (Ok "Post liked successfully", db1)
       /\ unlike_post db1 2 Example.bob true
          = (Ok "Post unliked successfully", Example.db)
       /\ like_post Example.db 2 Example.bob 300 true
          = (Ok "Post liked successfully", db3).
Proof.
  assert (Hnot : ~ liked Example.db 2 (User.id Example.bob)).
  { intros [l [Hin [_ Hu]]]. simpl in Hin.
    destruct Hin as [<-|[]]. discriminate. }
  split; [reflexivity|]. split; [exact Hnot|].
  apply (like_unlike_conflict_notfound Example.db 2 Example.bob 300
           Example.article eq_refl).
  exact Hnot.
Defined.

(** ** Registration *)

Lemma UserCreate_model_validate_Ok (EmailStr : string -> option string)
    (body user : schemas.UserCreate) :
  schemas.UserCreate_model_validate EmailStr body = Ok user ->
  schemas.username user = schemas.username body
  /\ EmailStr (schemas.email body) = Some (schemas.email user)
  /\ schemas.password user = schemas.password body
  /\ schemas.role user = schemas.role body
  /\ schemas.Field 3 (Some 50) (schemas.username body) = true
  /\ schemas.Field 8 None (schemas.password body) = true
  /\ match schemas.role body with
     | Some value => schemas.UserRole value = true
     | None => True
     end.
Proof.
  unfold schemas.UserCreate_model_validate.
  destruct (schemas.Field 3 _ _); [|discriminate]. cbn [negb].
  destruct (EmailStr _) as [email_|]; [|discriminate].
  destruct (schemas.Field 8 _ _); [|discriminate]. cbn [negb].
  destruct (schemas.role body) as [value|].
  - destruct (schemas.UserRole value); [|discriminate]. cbn [negb].
    intros H. inversion H. cbn. auto 10.
  - cbn [negb]. intros H. inversion H. cbn. auto 10.
Qed.

(** A body is refused by the framework or handed to the handler. *)
Lemma UserCreate_model_validate_cases (EmailStr : string -> option string)
    (body : schemas.UserCreate) :
  (exists loc,
      schemas.UserCreate_model_validate EmailStr body
      = RequestValidationError loc)
  \/ exists user, schemas.UserCreate_model_validate EmailStr body = Ok user.
Proof.
  unfold schemas.UserCreate_model_validate.
  destruct (negb (schemas.Field 3 _ _)); [left; eauto|].
  destruct (EmailStr _); [|left; eauto].
  destruct (negb (schemas.Field 8 _ _)); [left; eauto|].
  destruct (negb _); [left; eauto | right; eauto].
Qed.

Section RegistrationFacts.

Variable EmailStr : string -> option string.
Variable get_password_hash : string -> string.

Lemma register_user_taken (db : DB) (body user : schemas.UserCreate)
    (storage_ok : bool) :
  schemas.UserCreate_model_validate EmailStr body = Ok user ->
  username_taken db (schemas.username body) ->
  register_user EmailStr get_password_hash db body storage_ok
  = (HTTPException BadRequest "Username already registered", db).
Proof.
  intros Hvalid [u [Hin Hname]]. unfold register_user. rewrite Hvalid.
  apply UserCreate_model_validate_Ok in Hvalid.
  destruct Hvalid as [Huser _].
  destruct (first (filter _ (users db))) as [u'|] eqn:E; [reflexivity|].
  pose proof (proj1 (first_filter_None _ _) E u Hin) as H.
  cbv beta in H. rewrite Huser, Hname, String.eqb_refl in H. discriminate.
Qed.

Lemma register_user_Ok (db db1 : DB) (user : schemas.UserCreate)
    (storage_ok : bool) (u : User.t) :
  register_user EmailStr get_password_hash db user storage_ok = (Ok u, db1) ->
  ~ username_taken db (schemas.username user)
  /\ User.username u = schemas.username user
  /\ users db1 = users db ++ [u].
Proof.
  unfold register_user.
  destruct (schemas.UserCreate_model_validate EmailStr user)
    as [valid| | |] eqn:Hvalid; try discriminate.
  apply UserCreate_model_validate_Ok in Hvalid.
  destruct Hvalid as [Huser _]. rewrite <- Huser.
  destruct (first (filter _ (users db))) as [u'|] eqn:E; [discriminate|].
  match goal with
  | |- context [first (filter ?f (users db))] =>
      destruct (first (filter f (users db))) as [u'|]; [discriminate|]
  end.
  destruct (negb (validate_password _)); [discriminate|]. cbv zeta.
  destruct (negb (validate_role _)); [discriminate|].
  unfold commit. destruct storage_ok; [|discriminate].
  intros H. inversion H. subst. cbn [users User.username].
  split; [|split; reflexivity].
  intros [u0 [Hin Hname]].
  pose proof (proj1 (first_filter_None _ _) E u0 Hin) as H0.
  cbv beta in H0. rewrite Hname, String.eqb_refl in H0. discriminate.
Qed.

(** A registration that is not answered with a user writes nothing. *)
Lemma register_user_refused (db : DB) (user : schemas.UserCreate)
    (storage_ok : bool) :
  (forall u, fst (register_user EmailStr get_password_hash db user
                                storage_ok) <> Ok u) ->
  snd (register_user EmailStr get_password_hash db user storage_ok) = db.
Proof.
  unfold register_user.
  destruct (schemas.UserCreate_model_validate EmailStr user);
    try reflexivity.
  destruct (first (filter _ (users db))); [reflexivity|].
  match goal with
  | |- context [first (filter ?f (users db))] =>
      destruct (first (filter f (users db))); [reflexivity|]
  end.
  destruct (negb (validate_password _)); [reflexivity|]. cbv zeta.
  destruct (negb (validate_role _)); [reflexivity|].
  unfold commit. destruct storage_ok; [|reflexivity].
  cbn [fst snd]. intros H. exfalso. eapply H. reflexivity.
Qed.

(** C9.  When a registration went through, every later registration under
    the same username is refused and writes nothing, so that the users
    table holds one row of that username, the one the first request
    made.  A second body that the handler gets to see, whatever its
    email address, password and role, is answered with the error of a
    uniqueness violation, "Username already registered"; a second body
    that the schema refuses never reaches the handler and is answered
    with the validation error of the framework. *)
Theorem register_user_duplicate_username :
  forall (db db1 : DB) (first_ second : schemas.UserCreate) (u : User.t)
         (storage_ok1 storage_ok : bool),
    register_user EmailStr get_password_hash db first_ storage_ok1
    = (Ok u, db1) ->
    schemas.username second = schemas.username first_ ->
    (forall user,
        schemas.UserCreate_model_validate EmailStr second = Ok user ->
        register_user EmailStr get_password_hash db1 second storage_ok
        = (HTTPException BadRequest "Username already registered", db1)
        /\ already_registered
             (fst (register_user EmailStr get_password_hash db1 second
                                 storage_ok)))
    /\ ((forall user,
           schemas.UserCreate_model_validate EmailStr second <> Ok user) ->
        exists loc,
          register_user EmailStr get_password_hash db1 second storage_ok
          = (RequestValidationError loc, db1))
    /\ (forall u',
          fst (register_user EmailStr get_password_hash db1 second
                             storage_ok) <> Ok u')
    /\ snd (register_user EmailStr get_password_hash db1 second storage_ok)
       = db1
    /\ filter (fun x => String.eqb (User.username x)
                                   (schemas.username first_))
              (users db1) = [u].
Proof.
  intros db db1 first_ second u storage_ok1 storage_ok H1 Hname.
  apply register_user_Ok in H1. destruct H1 as [Hfree [Hu Husers]].
  assert (Htaken : username_taken db1 (schemas.username second)).
  { exists u. rewrite Husers, Hname.
    split; [apply in_or_app; right; now left | assumption]. }
  assert (Hvalid : forall user,
             schemas.UserCreate_model_validate EmailStr second = Ok user ->
             register_user EmailStr get_password_hash db1 second storage_ok
             = (HTTPException BadRequest "Username already registered",
                db1)).
  { intros user Hv. now apply (register_user_taken db1 second user). }
  assert (Hinvalid : (forall user,
             schemas.UserCreate_model_validate EmailStr second <> Ok user) ->
             exists loc,
               register_user EmailStr get_password_hash db1 second
                             storage_ok
               = (RequestValidationError loc, db1)).
  { intros Hno.
    destruct (UserCreate_model_validate_cases EmailStr second)
      as [[loc Hloc]|[user Hv]]; [|now apply Hno in Hv].
    exists loc. unfold register_user. now rewrite Hloc. }
  assert (Hrefused : forall u',
             fst (register_user EmailStr get_password_hash db1 second
                                storage_ok) <> Ok u').
  { intros u'.
    destruct (UserCreate_model_validate_cases EmailStr second)
      as [[loc Hloc]|[user Hv]].
    - unfold register_user. rewrite Hloc. discriminate.
    - rewrite (Hvalid user Hv). discriminate. }
  split; [|split; [|split; [|split]]].
  - intros user Hv. split; [now apply (Hvalid user)|].
    rewrite (Hvalid user Hv). cbn [fst].
    exists BadRequest, "Username already registered".
    split; [reflexivity|]. split; [unfold BadRequest; lia|].
    exists (list_ascii_of_string "Username "), []. reflexivity.
  - exact Hinvalid.
  - exact Hrefused.
  - now apply register_user_refused.
  - rewrite Husers, filter_app, filter_all_false.
    + cbn [filter app]. rewrite Hu, String.eqb_refl. reflexivity.
    + intros x Hin.
      destruct (String.eqb (User.username x) (schemas.username first_))
        eqn:E; [|reflexivity].
      apply String.eqb_eq in E. exfalso. apply Hfree. exists x. auto.
Qed.

End RegistrationFacts.

Lemma register_user_duplicate_username_witness :
  register_user Example.EmailStr Example.get_password_hash Example.db
                Example.dave true
  = (Ok (User.mk 5 "dave" "dave@example.com" "$2b$Passw0rd" "reader"),
     snd (register_user Example.EmailStr Example.get_password_hash
                        Example.db Example.dave true))
  /\ register_user Example.EmailStr Example.get_password_hash
       (snd (register_user Example.EmailStr Example.get_password_hash
                           Example.db Example.dave true))
       Example.dave_again true
     = (HTTPException BadRequest "Username already registered",
        snd (register_user Example.EmailStr Example.get_password_hash
                           Example.db Example.dave true))
  /\ exists loc,
       register_user Example.EmailStr Example.get_password_hash
         (snd (register_user Example.EmailStr Example.get_password_hash
                             Example.db Example.dave true))
         Example.dave_malformed true
       = (RequestValidationError loc,
          snd (register_user Example.EmailStr Example.get_password_hash
                             Example.db Example.dave true)).
Proof.
  split; [reflexivity|].
  pose proof (register_user_duplicate_username Example.EmailStr
                Example.get_password_hash Example.db _ Example.dave
                Example.dave_again _ true true eq_refl eq_refl) as Hagain.
  pose proof (register_user_duplicate_username Example.EmailStr
                Example.get_password_hash Example.db _ Example.dave
                Example.dave_malformed _ true true eq_refl eq_refl)
    as Hmalformed.
  split.
  - exact (proj1 (proj1 Hagain _ eq_refl)).
  - apply (proj1 (proj2 Hmalformed)). intros user. discriminate.
Defined.

(** ** Tags of a post *)

Lemma tag_named_app (l l' : list Tag.t) (name : string) :
  tag_named (l ++ l') name
  = match tag_named l name with
    | Some t => Some t
    | None => tag_named l' name
    end.
Proof.
  unfold tag_named, first. rewrite filter_app.
  now destruct (filter _ l).
Qed.

Lemma tag_named_name (l : list Tag.t) (name : string) (t : Tag.t) :
  tag_named l name = Some t -> In t l /\ Tag.name t = name.
Proof.
  intros H. apply first_filter_Some in H.
  now rewrite String.eqb_eq in H.
Qed.

Lemma get_or_create_tag_spec (tags_ : list Tag.t) (name : string) :
  match tag_named tags_ name with
  | Some t => get_or_create_tag tags_ name = (t, tags_)
  | None =>
      get_or_create_tag tags_ name
      = (Tag.mk (next_id (map Tag.id tags_)) name,
         tags_ ++ [Tag.mk (next_id (map Tag.id tags_)) name])
  end.
Proof.
  unfold get_or_create_tag, tag_named. now destruct (first _).
Qed.

(** What the loop over the tag names leaves: the stored tags followed by
    the tags it created, each created for a name of the request that no
    stored tag had and each the tag its name resolves to afterwards; and
    the collection extended by the tags the names resolve to, in order. *)
Lemma attach_tags_spec (tag_names : list string) :
  forall (tags_ collection tags' collection' : list Tag.t),
    attach_tags tag_names tags_ collection = (tags', collection') ->
    exists created resolved,
      tags' = tags_ ++ created
      /\ collection' = collection ++ resolved
      /\ map Some resolved = map (tag_named tags') tag_names
      /\ (forall t, In t created ->
            In (Tag.name t) tag_names
            /\ tag_named tags_ (Tag.name t) = None
            /\ tag_named tags' (Tag.name t) = Some t).
Proof.
  induction tag_names as [|name rest IH];
    intros tags_ collection tags' collection' H.
  - inversion H. subst. exists [], []. rewrite !app_nil_r.
    repeat split; contradiction.
  - cbn [attach_tags] in H.
    pose proof (get_or_create_tag_spec tags_ name) as Hget.
    destruct (tag_named tags_ name) as [t|] eqn:Hnamed.
    + rewrite Hget in H. apply IH in H.
      destruct H as [created [resolved [Ht [Hc [Hr Hnew]]]]].
      exists created, (t :: resolved). split; [exact Ht|]. split.
      * rewrite Hc, <- app_assoc. reflexivity.
      * split.
        -- cbn [map]. rewrite Hr. f_equal.
           now rewrite Ht, tag_named_app, Hnamed.
        -- intros t' Hin. destruct (Hnew t' Hin) as [H1 [H2 H3]].
           split; [now right | auto].
    + rewrite Hget in H. apply IH in H.
      destruct H as [created [resolved [Ht [Hc [Hr Hnew]]]]].
      set (new := Tag.mk (next_id (map Tag.id tags_)) name) in *.
      assert (Hfirst : tag_named tags' name = Some new).
      { rewrite Ht, <- app_assoc, tag_named_app, Hnamed.
        unfold tag_named. cbn [app filter Tag.name new].
        now rewrite String.eqb_refl. }
      exists (new :: created), (new :: resolved). split.
      * rewrite Ht, <- app_assoc. reflexivity.
      * split; [rewrite Hc, <- app_assoc; reflexivity|]. split.
        -- cbn [map]. rewrite Hr, Hfirst. reflexivity.
        -- intros t' [<-|Hin].
           ++ cbn [Tag.name new]. split; [now left | auto].
           ++ destruct (Hnew t' Hin) as [H1 [H2 H3]].
              split; [now right|]. split; [|exact H3].
              rewrite tag_named_app in H2.
              now destruct (tag_named tags_ (Tag.name t')).
Qed.

Lemma attach_tags_nil (tags_ collection : list Tag.t) :
  attach_tags [] tags_ collection = (tags_, collection).
Proof. reflexivity. Qed.

Lemma status_lookup (db : DB) (status_id : option Z) :
  match first (filter (fun s => eq_value (Status.id s) status_id)
                      (status db)) with
  | Some _ => status_exists db status_id
  | None => ~ status_exists db status_id
  end.
Proof.
  destruct (first _) as [s|] eqn:E.
  - apply first_filter_Some in E. destruct E as [Hin H].
    exists s. split; [assumption|]. destruct status_id as [v|]; [|discriminate].
    simpl in H. apply Z.eqb_eq in H. now subst.
  - intros [s [Hin ->]].
    pose proof (proj1 (first_filter_None _ _) E s Hin) as H.
    simpl in H. rewrite Z.eqb_refl in H. discriminate.
Qed.

(** C7. [create_post] with a [status_id] that references no stored Status,
    a missing one included, is answered 404 "Status not found" and the
    database is left as it was, so neither a Post nor a Tag row is added.
    With a stored status and a store that takes the writes, the post is
    appended with the fields of the request; the tags table keeps its rows
    and gains one row for each distinct name of the request that no stored
    tag had, and none else; each name of the request resolves, by exact
    match of the name, to one tag, and the post's rows in the association
    table are those tags, one per name.  When the store refuses, the answer
    is 500 and the database is left as it was: no tag is attached. *)
Theorem create_post_status_and_tags :
  forall (db : DB) (post : schemas.PostCreate) (user : User.t) (now : Z),
    (~ status_exists db (schemas.status_id post) ->
     forall storage_ok,
       create_post db post user now storage_ok
       = (HTTPException NotFound "Status not found", db))
    /\ (status_exists db (schemas.status_id post) ->
        exists created resolved,
          create_post db post user now true
          = (Ok (Post.mk (next_id (map Post.id (posts db)))
                         (schemas.title post) (schemas.content post)
                         (User.id user) (schemas.status_id post) now now),
             mkDB (users db) (status db)
                  (posts db
                   ++ [Post.mk (next_id (map Post.id (posts db)))
                               (schemas.title post) (schemas.content post)
                               (User.id user) (schemas.status_id post)
                               now now])
                  (tags db ++ created)
                  (post_tags db
                   ++ association_rows (next_id (map Post.id (posts db)))
                                       resolved)
                  (likes db) (comments db))
          /\ map Some resolved
             = map (tag_named (tags db ++ created)) (schemas.tags post)
          /\ map Tag.name resolved = schemas.tags post
          /\ (forall t, In t created ->
                In (Tag.name t) (schemas.tags post)
                /\ tag_named (tags db) (Tag.name t) = None
                /\ tag_named (tags db ++ created) (Tag.name t) = Some t)
          /\ (forall name, In name (schemas.tags post) ->
                tag_named (tags db) name = None ->
                exists t, In t created /\ Tag.name t = name)
          /\ create_post db post user now false
             = (HTTPException InternalError "Could not create post", db)).
Proof.
  intros db post user now.
  pose proof (status_lookup db (schemas.status_id post)) as Hstatus.
  unfold create_post.
  destruct (first (filter _ (status db))) as [s|].
  - split; [contradiction|]. intros _.
    destruct (attach_tags (schemas.tags post) (tags db) [])
      as [tags' collection] eqn:Hattach.
    apply attach_tags_spec in Hattach.
    destruct Hattach as [created [resolved [Ht [Hc [Hr Hnew]]]]].
    cbn [app] in Hc. subst tags' collection.
    assert (Hnames : map Tag.name resolved = schemas.tags post).
    { clear Hnew. revert resolved Hr.
      induction (schemas.tags post) as [|name names IH];
        intros [|t resolved] Hr; try discriminate; [reflexivity|].
      cbn [map] in *. inversion Hr as [[H1 H2]].
      symmetry in H1. apply tag_named_name in H1.
      f_equal; [apply H1 | apply IH, H2]. }
    exists created, resolved. cbn [commit Post.id].
    split; [reflexivity|]. split; [exact Hr|]. split; [exact Hnames|].
    split; [exact Hnew|]. split; [|reflexivity].
    intros name Hin Hnone.
    assert (Hsome : exists t, tag_named (tags db ++ created) name = Some t).
    { apply (in_map (tag_named (tags db ++ created))) in Hin.
      rewrite <- Hr in Hin. apply in_map_iff in Hin.
      destruct Hin as [t [Heq _]]. now exists t. }
    destruct Hsome as [t Hsome]. exists t.
    rewrite tag_named_app, Hnone in Hsome.
    now apply tag_named_name in Hsome.
  - split; [reflexivity | contradiction].
Qed.

Lemma create_post_status_and_tags_witness :
  create_post Example.db
    (schemas.mkPostCreate "Title" "Body" (Some 999) ["news"])
    Example.bob 300 true
  = (HTTPException NotFound "Status not found", Example.db)
  /\ tags (snd (create_post Example.db
                  (schemas.mkPostCreate "Title" "Body" (Some 1)
                                        ["rocq"; "news"; "rocq"])
                  Example.bob 300 true))
     = [Tag.mk 1 "news"; Tag.mk 2 "rocq"]
  /\ tag_ids_of (snd (create_post Example.db
                        (schemas.mkPostCreate "Title" "Body" (Some 1)
                                              ["rocq"; "news"; "rocq"])
                        Example.bob 300 true)) 3
     = [2; 1; 2].
Proof.
  split; [|split; reflexivity].
  apply (create_post_status_and_tags Example.db
           (schemas.mkPostCreate "Title" "Body" (Some 999) ["news"])
           Example.bob 300).
  intros [s [Hin H]]. simpl in Hin.
  destruct Hin as [<-|[<-|[]]]; discriminate.
Defined.

(** ** Updating a post *)

Lemma updated_row_fields (P row : Post.t) (post_update : schemas.PostUpdate)
    (now : Z) :
  updated_row P post_update now = Some row ->
  Post.id row = Post.id P
  /\ Post.author_id row = Post.author_id P
  /\ Post.created_at row = Post.created_at P
  /\ Some (Post.title row)
     = setattr (Some (Post.title P)) (schemas.update_title post_update)
  /\ Some (Post.content row)
     = setattr (Some (Post.content P)) (schemas.update_content post_update)
  /\ Post.status_id row
     = setattr (Post.status_id P) (schemas.update_status_id post_update)
  /\ (Post.updated_at row = Post.updated_at P
      \/ Post.updated_at row = now).
Proof.
  unfold updated_row.
  destruct (setattr (Some (Post.title P)) _) as [title|]; [|discriminate].
  destruct (setattr (Some (Post.content P)) _) as [content|];
    [|discriminate].
  intros H. inversion H. cbn.
  repeat (split; [reflexivity|]).
  match goal with |- context [if ?b then _ else _] => destruct b end; auto.
Qed.

Lemma updated_row_Some (P : Post.t) (post_update : schemas.PostUpdate)
    (now : Z) :
  schemas.update_title post_update <> schemas.Sent None ->
  schemas.update_content post_update <> schemas.Sent None ->
  exists row, updated_row P post_update now = Some row.
Proof.
  intros Ht Hc. unfold updated_row.
  destruct (schemas.update_title post_update) as [|[t|]];
    destruct (schemas.update_content post_update) as [|[c|]];
    try congruence; cbn [setattr]; eexists; reflexivity.
Qed.

Lemma tag_ids_of_replaced (db : DB) (post_id : Z) (rows : list post_tags_row)
    (collection : list Tag.t) (users' : list User.t)
    (posts' : list Post.t) (tags' : list Tag.t) :
  tag_ids_of
    (mkDB users' (status db) posts' tags'
          (filter (fun r => negb (fst r =? post_id)) rows
           ++ association_rows post_id collection)
          (likes db) (comments db))
    post_id
  = map Tag.id collection.
Proof.
  unfold tag_ids_of. cbn [post_tags]. rewrite filter_app, map_app.
  rewrite filter_all_false.
  - cbn [map app]. unfold association_rows.
    induction collection as [|t c IH]; cbn [map filter fst snd];
      [reflexivity|].
    rewrite Z.eqb_refl. cbn [map snd]. now rewrite IH.
  - intros r Hin. apply filter_In in Hin. destruct Hin as [_ H].
    now apply negb_true_iff in H.
Qed.

Lemma resolved_names (tags_ resolved : list Tag.t) (names : list string) :
  map Some resolved = map (tag_named tags_) names ->
  map Tag.name resolved = names.
Proof.
  revert resolved. induction names as [|name names IH];
    intros [|t resolved] H; try discriminate; [reflexivity|].
  cbn [map] in *. inversion H as [[H1 H2]].
  symmetry in H1. apply tag_named_name in H1.
  f_equal; [apply H1 | apply IH, H2].
Qed.

(** C8. An update of a stored post by its author or an admin either is
    answered 500 and leaves the database as it was, or succeeds, and it
    succeeds whenever the store takes the writes and neither title nor
    content is sent as null.  On success the row keeps its id, author and
    creation time; title, content and status_id each keep their value when
    the field was not sent and take the value sent otherwise, and
    [updated_at] is either kept or set to the time of the request; the
    other posts, the users, statuses, likes and comments are as before.  When
    [tags] is omitted (or null) the tags table and the association table
    are exactly as before.  When [tags] is sent, the tags table gains only
    tags created for the names sent, and the post's rows in the association
    table are replaced by the tags those names resolve to, so an empty
    list leaves the post with no tag. *)
Theorem update_post_partial :
  forall (db : DB) (post_id : Z) (post_update : schemas.PostUpdate)
         (user : User.t) (now : Z) (P : Post.t),
    find_post db post_id = Some P ->
    check_resource_permission user (Post.author_id P) "edit" = true ->
    (forall storage_ok,
        update_post db post_id post_update user now storage_ok
        = (HTTPException InternalError "Could not update post", db)
        \/ exists row db',
            update_post db post_id post_update user now storage_ok
            = (Ok row, db')
            /\ Post.id row = Post.id P
            /\ Post.author_id row = Post.author_id P
            /\ Post.created_at row = Post.created_at P
            /\ Some (Post.title row)
               = setattr (Some (Post.title P))
                         (schemas.update_title post_update)
            /\ Some (Post.content row)
               = setattr (Some (Post.content P))
                         (schemas.update_content post_update)
            /\ Post.status_id row
               = setattr (Post.status_id P)
                         (schemas.update_status_id post_update)
            /\ (Post.updated_at row = Post.updated_at P
                \/ Post.updated_at row = now)
            /\ posts db'
               = map (fun p => if Post.id p =? post_id then row else p)
                     (posts db)
            /\ users db' = users db /\ status db' = status db
            /\ likes db' = likes db /\ comments db' = comments db
            /\ match schemas.update_tags post_update with
               | None =>
                   tags db' = tags db /\ post_tags db' = post_tags db
               | Some tag_names =>
                   exists created resolved,
                     tags db' = tags db ++ created
                     /\ (forall t, In t created ->
                           In (Tag.name t) tag_names
                           /\ tag_named (tags db) (Tag.name t) = None)
                     /\ map Some resolved
                        = map (tag_named (tags db')) tag_names
                     /\ map Tag.name resolved = tag_names
                     /\ post_tags db'
                        = filter (fun r => negb (fst r =? post_id))
                                 (post_tags db)
                          ++ association_rows post_id resolved
                     /\ tag_ids_of db' post_id = map Tag.id resolved
               end)
    /\ (schemas.update_title post_update <> schemas.Sent None ->
        schemas.update_content post_update <> schemas.Sent None ->
        exists row db',
          update_post db post_id post_update user now true = (Ok row, db')).
Proof.
  intros db post_id post_update user now P Hfind Hperm.
  unfold update_post. rewrite Hfind, Hperm. cbn [negb].
  split.
  - intros storage_ok.
    destruct (updated_row P post_update now) as [row|] eqn:Hrow;
      [|now left].
    destruct storage_ok; [right | left].
    + apply updated_row_fields in Hrow.
      destruct Hrow as [H1 [H2 [H3 [H4 [H5 [H6 H7]]]]]].
      destruct (schemas.update_tags post_update) as [tag_names|].
      * destruct (attach_tags tag_names (tags db) [])
          as [tags' collection] eqn:Hattach.
        apply attach_tags_spec in Hattach.
        destruct Hattach as [created [resolved [Ht [Hc [Hr Hnew]]]]].
        cbn [app] in Hc. subst tags' collection.
        eexists. eexists. cbn [commit]. split; [reflexivity|].
        cbn [posts users status likes comments tags post_tags].
        repeat (split; [assumption || reflexivity|]).
        exists created, resolved. split; [reflexivity|]. split.
        { intros t Hin. destruct (Hnew t Hin) as [Ha [Hb _]]. auto. }
        split; [exact Hr|]. split; [apply (resolved_names _ _ _ Hr)|].
        split; [reflexivity|]. apply tag_ids_of_replaced.
      * eexists. eexists. cbn [commit]. split; [reflexivity|].
        cbn [posts users status likes comments tags post_tags].
        repeat (split; [assumption || reflexivity|]).
        split; reflexivity.
    + destruct (schemas.update_tags post_update) as [tag_names|];
        [destruct (attach_tags tag_names (tags db) [])|]; reflexivity.
  - intros Ht Hc.
    destruct (updated_row_Some P post_update now Ht Hc) as [row ->].
    destruct (schemas.update_tags post_update) as [tag_names|];
      [destruct (attach_tags tag_names (tags db) [])|];
      eexists; eexists; reflexivity.
Qed.

Lemma update_post_partial_witness :
  find_post Example.db 1 = Some Example.draft
  /\ check_resource_permission Example.alice
       (Post.author_id Example.draft) "edit" = true
  /\ (exists row db',
        update_post Example.db 1
          (schemas.mkPostUpdate (schemas.Sent (Some "Plans")) schemas.Unset
                                schemas.Unset None)
          Example.alice 300 true
        = (Ok row, db'))
  /\ update_post Example.db 1
       (schemas.mkPostUpdate (schemas.Sent (Some "Plans")) schemas.Unset
                             schemas.Unset None)
       Example.alice 300 true
     = (Ok (Post.mk 1 "Plans" "not ready yet" 1 (Some 1) 100 300),
        mkDB (users Example.db) (status Example.db)
             [Post.mk 1 "Plans" "not ready yet" 1 (Some 1) 100 300;
              Example.article]
             (tags Example.db) (post_tags Example.db) (likes Example.db)
             (comments Example.db))
  /\ tag_ids_of
       (snd (update_post Example.db 1
               (schemas.mkPostUpdate schemas.Unset schemas.Unset
                                     schemas.Unset (Some []))
               Example.alice 300 true)) 1
     = [].
Proof.
  split; [reflexivity|]. split; [reflexivity|].
  split; [|split; reflexivity].
  apply (update_post_partial Example.db 1
           (schemas.mkPostUpdate (schemas.Sent (Some "Plans")) schemas.Unset
                                 schemas.Unset None)
           Example.alice 300 Example.draft eq_refl eq_refl);
    discriminate.
Defined.

(** * Further properties of the handlers *)

(** ** Lookups after a write *)

Lemma first_filter_app {A} (f : A -> bool) (l l' : list A) :
  first (filter f (l ++ l'))
  = match first (filter f l) with
    | Some x => Some x
    | None => first (filter f l')
    end.
Proof.
  unfold first. rewrite filter_app. now destruct (filter f l).
Qed.

Lemma find_fresh {A} (key : A -> Z) (l : list A) (k : Z) :
  next_id (map key l) <= k -> first (filter (fun x => key x =? k) l) = None.
Proof.
  intros Hk. apply first_filter_None. intros x Hin.
  apply (in_map key), next_id_fresh in Hin. apply Z.eqb_neq. lia.
Qed.

Lemma find_post_In (db : DB) (post_id : Z) (P : Post.t) :
  find_post db post_id = Some P -> In P (posts db) /\ Post.id P = post_id.
Proof.
  intros H. apply first_filter_Some in H. now rewrite Z.eqb_eq in H.
Qed.

(** Replacing the rows of a key replaces the row a lookup of that key
    finds and no other. *)
Lemma first_filter_replace {A} (key : A -> Z) (l : list A) (k : Z)
    (old new : A) :
  key new = k ->
  first (filter (fun x => key x =? k) l) = Some old ->
  forall k',
    first (filter (fun x => key x =? k')
             (map (fun x => if key x =? k then new else x) l))
    = if k' =? k then Some new
      else first (filter (fun x => key x =? k') l).
Proof.
  intros Hnew Hold k'. induction l as [|a l IH]; [discriminate|].
  cbn [map filter] in *. destruct (key a =? k) eqn:Ea.
  - apply Z.eqb_eq in Ea. rewrite Hnew.
    destruct (k' =? k) eqn:Ek.
    + apply Z.eqb_eq in Ek. subst k'. rewrite Z.eqb_refl. reflexivity.
    + rewrite (Z.eqb_sym k k'), Ek.
      assert (Ha : (key a =? k') = false)
        by (apply Z.eqb_neq in Ek; apply Z.eqb_neq; lia).
      rewrite Ha.
      clear IH Hold. induction l as [|b l IH]; [reflexivity|].
      cbn [map filter]. destruct (key b =? k) eqn:Eb.
      * apply Z.eqb_eq in Eb. rewrite Hnew, (Z.eqb_sym k k'), Ek.
        assert (Hb : (key b =? k') = false)
          by (apply Z.eqb_neq in Ek; apply Z.eqb_neq; lia).
        rewrite Hb. exact IH.
      * destruct (key b =? k'); [reflexivity | exact IH].
  - specialize (IH Hold). destruct (key a =? k') eqn:Ea'.
    + apply Z.eqb_eq in Ea'. subst k'. rewrite Ea. reflexivity.
    + exact IH.
Qed.

Lemma create_post_Ok (db db' : DB) (post : schemas.PostCreate)
    (user : User.t) (now : Z) (storage_ok : bool) (P : Post.t) :
  create_post db post user now storage_ok = (Ok P, db') ->
  P = Post.mk (next_id (map Post.id (posts db))) (schemas.title post)
              (schemas.content post) (User.id user)
              (schemas.status_id post) now now
  /\ status_exists db (schemas.status_id post)
  /\ users db' = users db /\ status db' = status db
  /\ posts db' = posts db ++ [P]
  /\ likes db' = likes db /\ comments db' = comments db
  /\ exists tags' collection,
       attach_tags (schemas.tags post) (tags db) [] = (tags', collection)
       /\ tags db' = tags'
       /\ post_tags db'
          = post_tags db ++ association_rows (Post.id P) collection.
Proof.
  pose proof (status_lookup db (schemas.status_id post)) as Hstatus.
  unfold create_post.
  destruct (first (filter _ (status db))); [|discriminate].
  destruct (attach_tags (schemas.tags post) (tags db) [])
    as [tags' collection] eqn:Hattach.
  unfold commit. destruct storage_ok; [|discriminate].
  intros H. inversion H. subst. cbn.
  repeat (split; [reflexivity || assumption|]).
  exists tags', collection. auto.
Qed.

(** X1. A post that [create_post] stored is found under the id it was
    given: its author gets it back from [get_post], an anonymous caller
    gets it exactly when it was created with the published status, and
    every post that was stored before is still found under its id. *)
Theorem create_post_then_get_post :
  forall (db db' : DB) (post : schemas.PostCreate) (user : User.t)
         (now : Z) (storage_ok : bool) (P : Post.t),
    create_post db post user now storage_ok = (Ok P, db') ->
    find_post db (Post.id P) = None
    /\ get_post db' (Post.id P) (Some user) = Ok P
    /\ (get_post db' (Post.id P) None = Ok P
        <-> schemas.status_id post = Some published)
    /\ (forall post_id Q,
          find_post db post_id = Some Q -> find_post db' post_id = Some Q).
Proof.
  intros db db' post user now storage_ok P H.
  apply create_post_Ok in H.
  destruct H as [HP [_ [_ [_ [Hposts _]]]]].
  assert (Hnew : find_post db (Post.id P) = None).
  { apply find_fresh. rewrite HP. cbn. lia. }
  assert (Hfind : find_post db' (Post.id P) = Some P).
  { unfold find_post in *. rewrite Hposts, first_filter_app, Hnew.
    cbn [filter]. now rewrite Z.eqb_refl. }
  split; [exact Hnew|]. split; [|split].
  - rewrite (get_post_canView _ _ _ _ Hfind). unfold canView.
    replace (Post.author_id P) with (User.id user)
      by (rewrite HP; reflexivity).
    now rewrite Z.eqb_refl, orb_true_r.
  - rewrite (get_post_canView _ _ _ _ Hfind). unfold canView.
    rewrite <- eq_nullable_true.
    replace (Post.status_id P) with (schemas.status_id post)
      by (rewrite HP; reflexivity).
    destruct (eq_nullable (schemas.status_id post) published);
      split; congruence.
  - intros post_id Q HQ. unfold find_post in *.
    now rewrite Hposts, first_filter_app, HQ.
Qed.

Lemma create_post_then_get_post_witness :
  create_post Example.db
    (schemas.mkPostCreate "Title" "Body" (Some 2) ["news"])
    Example.bob 300 true
  = (Ok (Post.mk 3 "Title" "Body" 2 (Some 2) 300 300),
     snd (create_post Example.db
            (schemas.mkPostCreate "Title" "Body" (Some 2) ["news"])
            Example.bob 300 true))
  /\ get_post
       (snd (create_post Example.db
               (schemas.mkPostCreate "Title" "Body" (Some 2) ["news"])
               Example.bob 300 true))
       3 (Some Example.bob)
     = Ok (Post.mk 3 "Title" "Body" 2 (Some 2) 300 300).
Proof.
  split; [reflexivity|].
  exact (proj1 (proj2
           (create_post_then_get_post Example.db _
              (schemas.mkPostCreate "Title" "Body" (Some 2) ["news"])
              Example.bob 300 true
              (Post.mk 3 "Title" "Body" 2 (Some 2) 300 300) eq_refl))).
Defined.

Lemma update_post_Ok (db db' : DB) (post_id : Z)
    (post_update : schemas.PostUpdate) (user : User.t) (now : Z)
    (storage_ok : bool) (row : Post.t) :
  update_post db post_id post_update user now storage_ok = (Ok row, db') ->
  exists P,
    find_post db post_id = Some P
    /\ check_resource_permission user (Post.author_id P) "edit" = true
    /\ updated_row P post_update now = Some row
    /\ posts db'
       = map (fun p => if Post.id p =? post_id then row else p) (posts db)
    /\ users db' = users db /\ status db' = status db
    /\ likes db' = likes db /\ comments db' = comments db
    /\ match schemas.update_tags post_update with
       | None => tags db' = tags db /\ post_tags db' = post_tags db
       | Some tag_names =>
           exists tags' collection,
             attach_tags tag_names (tags db) [] = (tags', collection)
             /\ tags db' = tags'
             /\ post_tags db'
                = filter (fun r => negb (fst r =? post_id)) (post_tags db)
                  ++ association_rows post_id collection
       end.
Proof.
  unfold update_post.
  destruct (find_post db post_id) as [P|]; [|discriminate].
  destruct (check_resource_permission user (Post.author_id P) "edit")
    eqn:Hperm; [|discriminate].
  cbn [negb]. destruct (updated_row P post_update now) as [row'|] eqn:Hrow;
    [|discriminate].
  destruct (schemas.update_tags post_update) as [tag_names|].
  - destruct (attach_tags tag_names (tags db) []) as [tags' collection].
    unfold commit. destruct storage_ok; [|discriminate].
    intros H. inversion H. subst. exists P. cbn.
    do 8 (split; [reflexivity || assumption|]).
    exists tags', collection. auto.
  - unfold commit. destruct storage_ok; [|discriminate].
    intros H. inversion H. subst. exists P. cbn.
    do 8 (split; [reflexivity || assumption|]). auto.
Qed.

(** X2. After an update that went through, the post is found under the
    same id with the updated row, the user who made the update gets that
    row from [get_post], and under every other id [get_post] answers
    every principal as before. *)
Theorem update_post_then_get_post :
  forall (db db' : DB) (post_id : Z) (post_update : schemas.PostUpdate)
         (user : User.t) (now : Z) (storage_ok : bool) (row : Post.t),
    update_post db post_id post_update user now storage_ok = (Ok row, db') ->
    find_post db' post_id = Some row
    /\ get_post db' post_id (Some user) = Ok row
    /\ (forall other principal,
          other <> post_id ->
          get_post db' other principal = get_post db other principal).
Proof.
  intros db db' post_id post_update user now storage_ok row H.
  apply update_post_Ok in H.
  destruct H as [P [Hfind [Hperm [Hrow [Hposts _]]]]].
  apply updated_row_fields in Hrow.
  destruct Hrow as [Hid [Hauthor _]].
  pose proof (find_post_In _ _ _ Hfind) as [_ HidP].
  assert (Hlookup : forall k,
             find_post db' k
             = if k =? post_id then Some row else find_post db k).
  { intros k. unfold find_post. rewrite Hposts.
    apply (first_filter_replace Post.id (posts db) post_id P row);
      [congruence | exact Hfind]. }
  assert (Hnew : find_post db' post_id = Some row)
    by (rewrite Hlookup, Z.eqb_refl; reflexivity).
  split; [exact Hnew|]. split.
  - rewrite (get_post_canView _ _ _ _ Hnew). unfold canView.
    rewrite Hauthor. unfold check_resource_permission in Hperm.
    destruct (is_admin user); [reflexivity|]. cbn [orb].
    now rewrite (Z.eqb_sym (Post.author_id P)), Hperm.
  - intros other principal Hother. unfold get_post.
    rewrite Hlookup. apply Z.eqb_neq in Hother. now rewrite Hother.
Qed.

Lemma update_post_then_get_post_witness :
  update_post Example.db 1
    (schemas.mkPostUpdate schemas.Unset (schemas.Sent (Some "ready"))
                          (schemas.Sent (Some 2)) None)
    Example.root 300 true
  = (Ok (Post.mk 1 "Secret plans" "ready" 1 (Some 2) 100 300),
     snd (update_post Example.db 1
            (schemas.mkPostUpdate schemas.Unset
                                  (schemas.Sent (Some "ready"))
                                  (schemas.Sent (Some 2)) None)
            Example.root 300 true))
  /\ get_post
       (snd (update_post Example.db 1
               (schemas.mkPostUpdate schemas.Unset
                                     (schemas.Sent (Some "ready"))
                                     (schemas.Sent (Some 2)) None)
               Example.root 300 true))
       1 (Some Example.root)
     = Ok (Post.mk 1 "Secret plans" "ready" 1 (Some 2) 100 300).
Proof.
  split; [reflexivity|].
  exact (proj1 (proj2
           (update_post_then_get_post Example.db _ 1
              (schemas.mkPostUpdate schemas.Unset
                                    (schemas.Sent (Some "ready"))
                                    (schemas.Sent (Some 2)) None)
              Example.root 300 true
              (Post.mk 1 "Secret plans" "ready" 1 (Some 2) 100 300)
              eq_refl))).
Defined.

(** ** Deleting a post *)

Lemma delete_post_Ok (db db' : DB) (post_id : Z) (user : User.t)
    (storage_ok : bool) (message : string) :
  delete_post db post_id user storage_ok = (Ok message, db') ->
  exists P,
    find_post db post_id = Some P
    /\ check_resource_permission user (Post.author_id P) "delete" = true
    /\ db' = mkDB (users db) (status db)
               (filter (fun p => negb (Post.id p =? post_id)) (posts db))
               (tags db)
               (filter (fun r => negb (fst r =? post_id)) (post_tags db))
               (filter (fun l => negb (Like.post_id l =? post_id))
                       (likes db))
               (filter (fun c => negb (Comment.post_id c =? post_id))
                       (comments db)).
Proof.
  unfold delete_post.
  destruct (find_post db post_id) as [P|] eqn:Hfind; [|discriminate].
  destruct (check_resource_permission user (Post.author_id P) "delete")
    eqn:Hperm; [|discriminate].
  cbn [negb]. unfold commit. destruct storage_ok; [|discriminate].
  intros H. inversion H. subst. exists P.
  apply find_post_In in Hfind. destruct Hfind as [_ ->].
  split; [reflexivity|]. split; [assumption | reflexivity].
Qed.

(** X3. After a delete that went through, nothing of the post is left:
    no post row, comment, like or association row carries its id, and
    [get_post], [get_post_with_like_status], [get_post_likes] and
    [list_post_comments] answer 404 for it to everyone.  Users, statuses
    and tags are as before, every row of another post is kept, and posts
    under other ids are found as before. *)
Theorem delete_post_cascade :
  forall (db db' : DB) (post_id : Z) (user : User.t) (storage_ok : bool)
         (message : string),
    delete_post db post_id user storage_ok = (Ok message, db') ->
    (forall P, In P (posts db') <-> In P (posts db) /\ Post.id P <> post_id)
    /\ (forall c, In c (comments db')
                  <-> In c (comments db) /\ Comment.post_id c <> post_id)
    /\ (forall l, In l (likes db')
                  <-> In l (likes db) /\ Like.post_id l <> post_id)
    /\ (forall r, In r (post_tags db')
                  <-> In r (post_tags db) /\ fst r <> post_id)
    /\ users db' = users db /\ status db' = status db
    /\ tags db' = tags db
    /\ (forall principal,
          get_post db' post_id principal
          = HTTPException NotFound "Post not found"
          /\ get_post_with_like_status db' post_id principal
             = HTTPException NotFound "Post not found")
    /\ get_post_likes db' post_id = HTTPException NotFound "Post not found"
    /\ list_post_comments db' post_id
       = HTTPException NotFound "Post not found"
    /\ (forall other, other <> post_id ->
          find_post db' other = find_post db other).
Proof.
  intros db db' post_id user storage_ok message H.
  apply delete_post_Ok in H. destruct H as [P [Hfind [Hperm ->]]].
  cbn [posts comments likes post_tags users status tags].
  assert (Hgone : find_post
                    (mkDB (users db) (status db)
                       (filter (fun p => negb (Post.id p =? post_id))
                               (posts db))
                       (tags db)
                       (filter (fun r => negb (fst r =? post_id))
                               (post_tags db))
                       (filter (fun l => negb (Like.post_id l =? post_id))
                               (likes db))
                       (filter (fun c => negb (Comment.post_id c =? post_id))
                               (comments db)))
                    post_id = None).
  { unfold find_post. cbn [posts]. apply first_filter_None.
    intros x Hin. apply filter_In in Hin. destruct Hin as [_ Hx].
    now apply negb_true_iff in Hx. }
  assert (Hfilter : forall A (key : A -> Z) (l : list A) (x : A),
             In x (filter (fun y => negb (key y =? post_id)) l)
             <-> In x l /\ key x <> post_id).
  { intros A key l x. rewrite filter_In, negb_true_iff, Z.eqb_neq.
    reflexivity. }
  repeat (split; [solve [intros; apply Hfilter | reflexivity]|]).
  split; [|split; [|split]].
  - intros principal. unfold get_post, get_post_with_like_status.
    rewrite Hgone. split; reflexivity.
  - unfold get_post_likes. now rewrite Hgone.
  - unfold list_post_comments. now rewrite Hgone.
  - intros other Hother. unfold find_post. cbn [posts]. clear Hgone.
    induction (posts db) as [|p l IH]; [reflexivity|].
    cbn [filter]. destruct (Post.id p =? post_id) eqn:E; cbn [negb filter].
    + apply Z.eqb_eq in E.
      assert (Hp : (Post.id p =? other) = false) by (apply Z.eqb_neq; lia).
      rewrite Hp. exact IH.
    + destruct (Post.id p =? other); [reflexivity | exact IH].
Qed.

Lemma delete_post_cascade_witness :
  delete_post Example.db 2 Example.alice true
  = (Ok "Post deleted successfully",
     mkDB (users Example.db) (status Example.db) [Example.draft]
          (tags Example.db) [(1, 1)] [] [])
  /\ get_post
       (mkDB (users Example.db) (status Example.db) [Example.draft]
             (tags Example.db) [(1, 1)] [] [])
       2 (Some Example.root)
     = HTTPException NotFound "Post not found".
Proof.
  split; [reflexivity|].
  apply (delete_post_cascade Example.db _ 2 Example.alice true
           "Post deleted successfully" eq_refl).
Defined.

(** ** Comments *)

Lemma list_post_comments_found (db : DB) (post_id : Z) (P : Post.t) :
  find_post db post_id = Some P ->
  list_post_comments db post_id
  = if eq_nullable (Post.status_id P) published
    then Ok (filter (fun c => Comment.post_id c =? post_id) (comments db))
    else HTTPException NotFound "Post not found".
Proof.
  intros H. unfold list_post_comments. rewrite H.
  apply find_post_In in H. destruct H as [_ ->].
  now destruct (eq_nullable (Post.status_id P) published).
Qed.

(** X4. Every authenticated user can comment on every stored post: the
    status and the author of the post are not looked at.  The comment is
    appended to the comments table with the content sent, the id of the
    post and the id of the user.  On a published post [list_post_comments]
    then lists it after the comments it listed before; on a post of any
    other status the comment is stored but [list_post_comments] keeps
    answering 404.  When the store refuses, nothing is written. *)
Theorem create_comment_then_list_post_comments :
  forall (db : DB) (post_id : Z) (comment : CommentCreate.t) (user : User.t)
         (now : Z) (P : Post.t),
    find_post db post_id = Some P ->
    create_comment db post_id comment user now false
    = (HTTPException InternalError "Could not create comment", db)
    /\ exists c,
         create_comment db post_id comment user now true
         = (Ok c, set_comments db (comments db ++ [c]))
         /\ Comment.content c = CommentCreate.content comment
         /\ Comment.post_id c = post_id
         /\ Comment.author_id c = User.id user
         /\ ~ In (Comment.id c) (map Comment.id (comments db))
         /\ (Post.status_id P = Some published ->
             exists before,
               list_post_comments db post_id = Ok before
               /\ list_post_comments
                    (set_comments db (comments db ++ [c])) post_id
                  = Ok (before ++ [c]))
         /\ (Post.status_id P <> Some published ->
             list_post_comments (set_comments db (comments db ++ [c]))
                                post_id
             = HTTPException NotFound "Post not found").
Proof.
  intros db post_id comment user now P Hfind.
  unfold create_comment. rewrite Hfind. cbn [commit].
  split; [reflexivity|]. eexists. split; [reflexivity|].
  cbn [Comment.content Comment.post_id Comment.author_id Comment.id].
  do 3 (split; [reflexivity|]). split.
  { intros Hin. apply next_id_fresh in Hin. lia. }
  assert (Hfind' : forall cs, find_post (set_comments db cs) post_id = Some P)
    by (intros cs; exact Hfind).
  split.
  - intros Hpub. apply eq_nullable_true in Hpub.
    rewrite (list_post_comments_found _ _ _ Hfind),
      (list_post_comments_found _ _ _ (Hfind' _)), Hpub.
    eexists. split; [reflexivity|]. cbn [comments set_comments].
    rewrite filter_app. cbn [filter Comment.post_id].
    now rewrite Z.eqb_refl.
  - intros Hdraft. rewrite (list_post_comments_found _ _ _ (Hfind' _)).
    destruct (eq_nullable (Post.status_id P) published) eqn:E;
      [|reflexivity].
    apply eq_nullable_true in E. contradiction.
Qed.

Lemma create_comment_then_list_post_comments_witness :
  find_post Example.db 1 = Some Example.draft
  /\ exists c,
       create_comment Example.db 1 (CommentCreate.mk "First") Example.bob
                      300 true
       = (Ok c, set_comments Example.db (comments Example.db ++ [c]))
       /\ Comment.content c = "First"
       /\ Comment.post_id c = 1
       /\ Comment.author_id c = User.id Example.bob
       /\ ~ In (Comment.id c) (map Comment.id (comments Example.db))
       /\ (Post.status_id Example.draft = Some published ->
           exists before,
             list_post_comments Example.db 1 = Ok before
             /\ list_post_comments
                  (set_comments Example.db (comments Example.db ++ [c])) 1
                = Ok (before ++ [c]))
       /\ (Post.status_id Example.draft <> Some published ->
           list_post_comments
             (set_comments Example.db (comments Example.db ++ [c])) 1
           = HTTPException NotFound "Post not found").
Proof.
  split; [reflexivity|].
  exact (proj2 (create_comment_then_list_post_comments Example.db 1
                  (CommentCreate.mk "First") Example.bob 300 Example.draft
                  eq_refl)).
Defined.

Lemma find_comment_In (db : DB) (post_id comment_id : Z) (c : Comment.t) :
  find_comment db post_id comment_id = Some c ->
  In c (comments db)
  /\ Comment.id c = comment_id /\ Comment.post_id c = post_id.
Proof.
  intros H. apply first_filter_Some in H.
  rewrite andb_true_iff, !Z.eqb_eq in H. tauto.
Qed.

Lemma update_comment_Ok (db db' : DB) (post_id comment_id : Z)
    (comment_update : CommentUpdate.t) (user : User.t) (storage_ok : bool)
    (row : Comment.t) :
  update_comment db post_id comment_id comment_update user storage_ok
  = (Ok row, db') ->
  exists c,
    find_comment db post_id comment_id = Some c
    /\ check_resource_permission user (Comment.author_id c) "edit" = true
    /\ row = Comment.mk comment_id (CommentUpdate.content comment_update)
                        post_id (Comment.author_id c)
                        (Comment.created_at c)
    /\ db' = set_comments db
               (map (fun x => if Comment.id x =? comment_id then row else x)
                    (comments db)).
Proof.
  unfold update_comment.
  destruct (find_post db post_id); [|discriminate].
  destruct (find_comment db post_id comment_id) as [c|] eqn:Hc;
    [|discriminate].
  destruct (check_resource_permission user (Comment.author_id c) "edit")
    eqn:Hperm; [|discriminate].
  cbn [negb]. unfold commit. destruct storage_ok; [|discriminate].
  apply find_comment_In in Hc. destruct Hc as [_ [Hid Hpost]].
  rewrite Hid, Hpost. intros H. inversion H. subst. exists c.
  split; [reflexivity|]. split; [assumption|]. split; reflexivity.
Qed.

Lemma delete_comment_Ok (db db' : DB) (post_id comment_id : Z)
    (user : User.t) (storage_ok : bool) (message : string) :
  delete_comment db post_id comment_id user storage_ok
  = (Ok message, db') ->
  exists c,
    find_comment db post_id comment_id = Some c
    /\ check_resource_permission user (Comment.author_id c) "delete" = true
    /\ db' = set_comments db
               (filter (fun x => negb (Comment.id x =? comment_id))
                       (comments db)).
Proof.
  unfold delete_comment.
  destruct (find_post db post_id); [|discriminate].
  destruct (find_comment db post_id comment_id) as [c|] eqn:Hc;
    [|discriminate].
  destruct (check_resource_permission user (Comment.author_id c) "delete")
    eqn:Hperm; [|discriminate].
  cbn [negb]. unfold commit. destruct storage_ok; [|discriminate].
  apply find_comment_In in Hc. destruct Hc as [_ [Hid Hpost]].
  rewrite Hid. intros H. inversion H. subst. exists c.
  split; [reflexivity|]. split; [assumption | reflexivity].
Qed.

(** X5. An edit of a comment that went through changes the content of the
    comment and nothing else: the row keeps its id, post, author and
    creation time, the comments under other ids are the same rows as
    before, and no other table changes.  A delete that went through
    removes the comment, so that it can be neither edited nor deleted
    again, and keeps every comment under another id. *)
Theorem update_and_delete_comment_frame :
  forall (db db' : DB) (post_id comment_id : Z) (user : User.t)
         (storage_ok : bool),
    (forall comment_update row,
        update_comment db post_id comment_id comment_update user storage_ok
        = (Ok row, db') ->
        exists c,
          find_comment db post_id comment_id = Some c
          /\ row = Comment.mk (Comment.id c)
                     (CommentUpdate.content comment_update)
                     (Comment.post_id c) (Comment.author_id c)
                     (Comment.created_at c)
          /\ In row (comments db')
          /\ (forall x, Comment.id x <> comment_id ->
                (In x (comments db') <-> In x (comments db)))
          /\ db' = set_comments db (comments db'))
    /\ (forall message,
          delete_comment db post_id comment_id user storage_ok
          = (Ok message, db') ->
          (forall x, In x (comments db')
                     <-> In x (comments db) /\ Comment.id x <> comment_id)
          /\ db' = set_comments db (comments db')
          /\ (forall user' comment_update ok',
                update_comment db' post_id comment_id comment_update user'
                               ok'
                = (HTTPException NotFound "Comment not found", db')
                /\ delete_comment db' post_id comment_id user' ok'
                   = (HTTPException NotFound "Comment not found", db'))).
Proof.
  intros db db' post_id comment_id user storage_ok. split.
  - intros comment_update row H. apply update_comment_Ok in H.
    destruct H as [c [Hc [_ [Hrow ->]]]]. exists c.
    pose proof (find_comment_In _ _ _ _ Hc) as [Hin [Hid Hpost]].
    split; [exact Hc|]. split; [now rewrite Hid, Hpost|].
    cbn [comments set_comments]. split; [|split; [|reflexivity]].
    + apply in_map_iff. exists c. rewrite Hid, Z.eqb_refl. auto.
    + intros x Hx. rewrite in_map_iff. split.
      * intros [y [Hy Hiny]].
        destruct (Comment.id y =? comment_id) eqn:E.
        -- subst x. rewrite Hrow in Hx. cbn in Hx. contradiction.
        -- now subst y.
      * intros Hinx. exists x. split; [|assumption].
        apply Z.eqb_neq in Hx. now rewrite Hx.
  - intros message H. pose proof H as H0. apply delete_comment_Ok in H.
    destruct H as [c [Hc [_ ->]]]. cbn [comments set_comments].
    split; [|split; [reflexivity|]].
    + intros x. rewrite filter_In, negb_true_iff, Z.eqb_neq. reflexivity.
    + intros user' comment_update ok'.
      assert (Hpost : find_post
                        (set_comments db
                           (filter (fun x => negb (Comment.id x =? comment_id))
                                   (comments db)))
                        post_id = find_post db post_id) by reflexivity.
      assert (Hgone : find_comment
                        (set_comments db
                           (filter (fun x => negb (Comment.id x =? comment_id))
                                   (comments db)))
                        post_id comment_id = None).
      { apply first_filter_None. intros x Hin. cbn [comments set_comments] in Hin.
        apply filter_In in Hin. destruct Hin as [_ Hx].
        apply negb_true_iff in Hx. now rewrite Hx. }
      unfold update_comment, delete_comment. rewrite Hpost, Hgone.
      unfold delete_comment in H0.
      destruct (find_post db post_id); [|discriminate]. split; reflexivity.
Qed.

Lemma update_and_delete_comment_frame_witness :
  update_comment Example.db 2 1 (CommentUpdate.mk "Edited") Example.bob true
  = (Ok (Comment.mk 1 "Edited" 2 2 250),
     set_comments Example.db [Comment.mk 1 "Edited" 2 2 250])
  /\ exists c,
       find_comment Example.db 2 1 = Some c
       /\ Comment.mk 1 "Edited" 2 2 250
          = Comment.mk (Comment.id c) "Edited" (Comment.post_id c)
                       (Comment.author_id c) (Comment.created_at c)
       /\ In (Comment.mk 1 "Edited" 2 2 250)
             (comments (set_comments Example.db
                          [Comment.mk 1 "Edited" 2 2 250]))
       /\ (forall x, Comment.id x <> 1 ->
             (In x (comments (set_comments Example.db
                                [Comment.mk 1 "Edited" 2 2 250]))
              <-> In x (comments Example.db)))
       /\ set_comments Example.db [Comment.mk 1 "Edited" 2 2 250]
          = set_comments Example.db
              (comments (set_comments Example.db
                           [Comment.mk 1 "Edited" 2 2 250])).
Proof.
  split; [reflexivity|].
  exact (proj1 (update_and_delete_comment_frame Example.db _ 2 1
                  Example.bob true)
               (CommentUpdate.mk "Edited") _ eq_refl).
Defined.

(** ** Who may change what *)

(** X6. A user who is neither an admin nor the owner cannot change or
    remove a stored post or comment: [update_post], [delete_post],
    [update_comment] and [delete_comment] answer 403 and write nothing.
    The owner of a comment is its author, so the author of a post has no
    say over the comments others left on it. *)
Theorem mutation_needs_owner_or_admin :
  forall (db : DB) (user : User.t) (post_id : Z) (P : Post.t),
    is_admin user = false ->
    find_post db post_id = Some P ->
    (Post.author_id P <> User.id user ->
     forall post_update now storage_ok,
       update_post db post_id post_update user now storage_ok
       = (HTTPException Forbidden "Not authorized to edit this resource",
          db)
       /\ delete_post db post_id user storage_ok
          = (HTTPException Forbidden
               "Not authorized to delete this resource", db))
    /\ (forall comment_id c,
          find_comment db post_id comment_id = Some c ->
          Comment.author_id c <> User.id user ->
          forall comment_update storage_ok,
            update_comment db post_id comment_id comment_update user
                           storage_ok
            = (HTTPException Forbidden
                 "Not authorized to edit this resource", db)
            /\ delete_comment db post_id comment_id user storage_ok
               = (HTTPException Forbidden
                    "Not authorized to delete this resource", db)).
Proof.
  intros db user post_id P Hadmin Hfind.
  assert (Hperm : forall owner action,
             owner <> User.id user ->
             check_resource_permission user owner action = false).
  { intros owner action Howner. unfold check_resource_permission.
    rewrite Hadmin. apply Z.eqb_neq. congruence. }
  split.
  - intros Hauthor post_update now storage_ok.
    unfold update_post, delete_post. rewrite Hfind, !Hperm by assumption.
    split; reflexivity.
  - intros comment_id c Hc Hauthor comment_update storage_ok.
    unfold update_comment, delete_comment.
    rewrite Hfind, Hc, !Hperm by assumption. split; reflexivity.
Qed.

Lemma mutation_needs_owner_or_admin_witness :
  is_admin Example.carol = false
  /\ find_post Example.db 2 = Some Example.article
  /\ delete_post Example.db 2 Example.carol true
     = (HTTPException Forbidden "Not authorized to delete this resource",
        Example.db)
  /\ delete_comment Example.db 2 1 Example.alice true
     = (HTTPException Forbidden "Not authorized to delete this resource",
        Example.db).
Proof.
  split; [reflexivity|]. split; [reflexivity|]. split.
  - apply (proj1 (mutation_needs_owner_or_admin Example.db Example.carol 2
                    Example.article eq_refl eq_refl));
      [discriminate | exact (schemas.mkPostUpdate schemas.Unset
                               schemas.Unset schemas.Unset None)
       | exact 0].
  - apply (proj2 (mutation_needs_owner_or_admin Example.db Example.alice 2
                    Example.article eq_refl eq_refl) 1
                 (Comment.mk 1 "Welcome" 2 2 250) eq_refl);
      [discriminate | exact (CommentUpdate.mk "x")].
Defined.

(** ** All or nothing *)

Ltac break_match :=
  match goal with
  | |- context [match ?x with _ => _ end] =>
      lazymatch x with
      | context [match _ with _ => _ end] => fail
      | _ => destruct x eqn:?
      end
  end.

Section RouterFacts.

Variable EmailStr : string -> option string.
Variable get_password_hash : string -> string.

Lemma updated_profile_id_role (db : DB) (user_update : UserUpdate.t)
    (current_user user : User.t) :
  updated_profile get_password_hash db user_update current_user = Ok user ->
  User.id user = User.id current_user
  /\ User.role user = User.role current_user.
Proof.
  unfold updated_profile, bind.
  repeat break_match; intros H; inversion H; subst; try discriminate;
    repeat match goal with
           | E : Ok _ = Ok _ |- _ => inversion E; clear E; subst
           end; auto.
Qed.

Lemma handle_failure (db : DB) (req : request) (now : Z)
    (storage_ok : bool) :
  fst (handle EmailStr get_password_hash db req now storage_ok) <> Ok tt ->
  snd (handle EmailStr get_password_hash db req now storage_ok) = db.
Proof.
  destruct req; unfold handle, outcome, register_user, update_user_profile,
    create_post, update_post, delete_post, create_comment, update_comment,
    delete_comment, like_post, unlike_post, create_tag, create_status,
    commit, NotAuthorizedError;
    repeat break_match; cbn [fst snd bind]; intros H;
    try reflexivity; try (exfalso; apply H; reflexivity);
    try congruence.
Qed.

(** X7. A request that writes is all or nothing: whenever one of the
    twelve writing handlers answers with anything but success, an error
    of its own or an exception of the store alike, the database is exactly
    what it was before the request; and when the store refuses the
    writes, no handler leaves any of them behind. *)
Theorem handle_failure_writes_nothing :
  forall (db : DB) (req : request) (now : Z) (storage_ok : bool),
    (fst (handle EmailStr get_password_hash db req now storage_ok) <> Ok tt ->
     snd (handle EmailStr get_password_hash db req now storage_ok) = db)
    /\ snd (handle EmailStr get_password_hash db req now false) = db.
Proof.
  intros db req now storage_ok.
  split.
  - apply handle_failure.
  - destruct req; unfold handle, outcome, register_user, update_user_profile,
      create_post, update_post, delete_post, create_comment, update_comment,
      delete_comment, like_post, unlike_post, create_tag, create_status,
      commit, NotAuthorizedError;
      repeat break_match; cbn [fst snd bind]; try reflexivity;
      try congruence.
Qed.

End RouterFacts.

(** ** What a request that went through wrote *)

Lemma like_post_Ok (db db' : DB) (post_id : Z) (user : User.t) (now : Z)
    (storage_ok : bool) (message : string) :
  like_post db post_id user now storage_ok = (Ok message, db') ->
  (exists P, find_post db post_id = Some P)
  /\ find_like db post_id (User.id user) = None
  /\ db' = set_likes db
             (likes db ++ [Like.mk (next_id (map Like.id (likes db)))
                                   post_id (User.id user) now]).
Proof.
  unfold like_post.
  destruct (find_post db post_id) as [P|]; [|discriminate].
  destruct (find_like db post_id (User.id user)); [discriminate|].
  unfold commit. destruct storage_ok; [|discriminate].
  intros H. inversion H. split; [now exists P | auto].
Qed.

Lemma unlike_post_Ok (db db' : DB) (post_id : Z) (user : User.t)
    (storage_ok : bool) (message : string) :
  unlike_post db post_id user storage_ok = (Ok message, db') ->
  exists like,
    find_like db post_id (User.id user) = Some like
    /\ db' = set_likes db
               (filter (fun l => negb (Like.id l =? Like.id like))
                       (likes db)).
Proof.
  unfold unlike_post.
  destruct (find_like db post_id (User.id user)) as [like|];
    [|discriminate].
  unfold commit. destruct storage_ok; [|discriminate].
  intros H. inversion H. now exists like.
Qed.

Lemma create_comment_Ok (db db' : DB) (post_id : Z)
    (comment : CommentCreate.t) (user : User.t) (now : Z)
    (storage_ok : bool) (c : Comment.t) :
  create_comment db post_id comment user now storage_ok = (Ok c, db') ->
  (exists P, find_post db post_id = Some P)
  /\ c = Comment.mk (next_id (map Comment.id (comments db)))
                    (CommentCreate.content comment) post_id (User.id user)
                    now
  /\ db' = set_comments db (comments db ++ [c]).
Proof.
  unfold create_comment.
  destruct (find_post db post_id) as [P|]; [|discriminate].
  unfold commit. destruct storage_ok; [|discriminate].
  intros H. inversion H. split; [now exists P | auto].
Qed.

Lemma create_tag_Ok (db db' : DB) (tag : TagBase.t) (user : User.t)
    (storage_ok : bool) (t : Tag.t) :
  create_tag db tag user storage_ok = (Ok t, db') ->
  tag_named (tags db) (TagBase.name tag) = None
  /\ t = Tag.mk (next_id (map Tag.id (tags db))) (TagBase.name tag)
  /\ db' = mkDB (users db) (status db) (posts db) (tags db ++ [t])
                (post_tags db) (likes db) (comments db).
Proof.
  unfold create_tag, tag_named.
  destruct (first (filter _ (tags db))); [discriminate|].
  unfold commit. destruct storage_ok; [|discriminate].
  intros H. inversion H. auto.
Qed.

Lemma create_status_Ok (db db' : DB) (status_ : StatusCreate.t)
    (user : User.t) (storage_ok : bool) (s : Status.t) :
  create_status db status_ user storage_ok = (Ok s, db') ->
  is_admin user = true
  /\ ~ In (StatusCreate.name status_) (map Status.name (status db))
  /\ s = Status.mk (next_id (map Status.id (status db)))
                   (StatusCreate.name status_)
                   (StatusCreate.description status_)
  /\ db' = mkDB (users db) (status db ++ [s]) (posts db) (tags db)
                (post_tags db) (likes db) (comments db).
Proof.
  unfold create_status.
  destruct (is_admin user); [|discriminate]. cbn [negb].
  destruct (existsb _ (status db)) eqn:E; [discriminate|].
  destruct storage_ok; [|discriminate].
  intros H. inversion H. split; [reflexivity|]. split; [|auto].
  intros Hin. apply in_map_iff in Hin. destruct Hin as [x [Hx Hin]].
  assert (Hex : existsb (fun s0 => String.eqb (Status.name s0)
                                              (StatusCreate.name status_))
                        (status db) = true).
  { apply existsb_exists. exists x. split; [assumption|].
    now apply String.eqb_eq. }
  congruence.
Qed.

Section RequestFacts.

Variable EmailStr : string -> option string.
Variable get_password_hash : string -> string.

Lemma register_user_Ok_db (db db' : DB) (user : schemas.UserCreate)
    (storage_ok : bool) (u : User.t) :
  register_user EmailStr get_password_hash db user storage_ok = (Ok u, db') ->
  ~ In (schemas.username user) (map User.username (users db))
  /\ ~ In (User.email u) (map User.email (users db))
  /\ validate_password (schemas.password user) = true
  /\ validate_role (User.role u) = true
  /\ User.id u = next_id (map User.id (users db))
  /\ User.username u = schemas.username user
  /\ EmailStr (schemas.email user) = Some (User.email u)
  /\ User.password u = get_password_hash (schemas.password user)
  /\ db' = set_users db (users db ++ [u]).
Proof.
  unfold register_user.
  destruct (schemas.UserCreate_model_validate EmailStr user)
    as [valid| | |] eqn:Hvalid; try discriminate.
  apply UserCreate_model_validate_Ok in Hvalid.
  destruct Hvalid as [Huser [Hemail [Hpassword _]]].
  rewrite <- Huser, <- Hpassword, Hemail.
  destruct (first (filter _ (users db))) eqn:E1; [discriminate|].
  match goal with
  | |- context [first (filter ?f (users db))] =>
      destruct (first (filter f (users db))) eqn:E2; [discriminate|]
  end.
  destruct (validate_password _) eqn:Hpw; [|discriminate]. cbn [negb].
  cbv zeta. destruct (validate_role _) eqn:Hrole; [|discriminate].
  cbn [negb]. unfold commit. destruct storage_ok; [|discriminate].
  intros H. inversion H. subst. cbn.
  assert (Hnot : forall (f : User.t -> string) v,
             first (filter (fun x => String.eqb (f x) v) (users db)) = None ->
             ~ In v (map f (users db))).
  { intros f v Hnone Hin. apply in_map_iff in Hin.
    destruct Hin as [x [Hx Hin]].
    pose proof (proj1 (first_filter_None _ _) Hnone x Hin) as H0.
    cbv beta in H0. rewrite Hx, String.eqb_refl in H0. discriminate. }
  split; [now apply Hnot|]. split; [now apply Hnot|].
  repeat (split; [reflexivity || assumption|]). reflexivity.
Qed.

Lemma updated_profile_names (db : DB) (user_update : UserUpdate.t)
    (current_user user : User.t) :
  updated_profile get_password_hash db user_update current_user = Ok user ->
  (User.username user = User.username current_user
   \/ ~ In (User.username user) (map User.username (users db)))
  /\ (User.email user = User.email current_user
      \/ ~ In (User.email user) (map User.email (users db))).
Proof.
  assert (Hnot : forall (f : User.t -> string) v,
             first (filter (fun x => String.eqb (f x) v) (users db)) = None ->
             ~ In v (map f (users db))).
  { intros f v Hnone Hin. apply in_map_iff in Hin.
    destruct Hin as [x [Hx Hin]].
    pose proof (proj1 (first_filter_None _ _) Hnone x Hin) as H0.
    cbv beta in H0. rewrite Hx, String.eqb_refl in H0. discriminate. }
  unfold updated_profile, bind.
  repeat break_match; intros H; inversion H; subst; try discriminate;
    repeat match goal with
           | E : Ok _ = Ok _ |- _ => inversion E; clear E; subst
           end; cbn [User.username User.email];
    split; auto; right; now apply Hnot.
Qed.

Lemma update_user_profile_Ok (db db' : DB) (user_update : UserUpdate.t)
    (current_user user : User.t) (storage_ok : bool) :
  update_user_profile EmailStr get_password_hash db user_update current_user
                      storage_ok = (Ok user, db') ->
  exists validated,
    UserUpdate.model_validate EmailStr user_update = Ok validated
    /\ updated_profile get_password_hash db validated current_user = Ok user
    /\ db' = set_users db
               (map (fun u => if User.id u =? User.id current_user
                              then user else u)
                    (users db)).
Proof.
  unfold update_user_profile.
  destruct (UserUpdate.model_validate EmailStr user_update)
    as [validated| | |] eqn:Hv; cbn [bind]; try discriminate.
  destruct (updated_profile get_password_hash db validated current_user)
    eqn:Hup; try discriminate.
  unfold commit. destruct storage_ok; [|discriminate].
  intros H. inversion H. subst. exists validated.
  split; [reflexivity|]. split; [exact Hup | reflexivity].
Qed.

(** A request leaves the database alone or is one of the writes below. *)
Lemma handle_cases (db : DB) (req : request) (now : Z) (storage_ok : bool) :
  snd (handle EmailStr get_password_hash db req now storage_ok) = db
  \/ exists db',
       snd (handle EmailStr get_password_hash db req now storage_ok) = db'
       /\ match req with
          | POST_auth_register user =>
              exists u, register_user EmailStr get_password_hash db user storage_ok
                        = (Ok u, db')
          | PUT_me user_update current_user =>
              exists u, update_user_profile EmailStr get_password_hash db user_update
                          current_user storage_ok = (Ok u, db')
          | POST_posts post current_user =>
              exists P, create_post db post current_user now storage_ok
                        = (Ok P, db')
          | PUT_posts post_id post_update current_user =>
              exists P, update_post db post_id post_update current_user now
                          storage_ok = (Ok P, db')
          | DELETE_posts post_id current_user =>
              exists m, delete_post db post_id current_user storage_ok
                        = (Ok m, db')
          | POST_posts_comments post_id comment current_user =>
              exists c, create_comment db post_id comment current_user now
                          storage_ok = (Ok c, db')
          | PUT_posts_comments post_id comment_id comment_update
                               current_user =>
              exists c, update_comment db post_id comment_id comment_update
                          current_user storage_ok = (Ok c, db')
          | DELETE_posts_comments post_id comment_id current_user =>
              exists m, delete_comment db post_id comment_id current_user
                          storage_ok = (Ok m, db')
          | POST_posts_like post_id current_user =>
              exists m, like_post db post_id current_user now storage_ok
                        = (Ok m, db')
          | DELETE_posts_like post_id current_user =>
              exists m, unlike_post db post_id current_user storage_ok
                        = (Ok m, db')
          | POST_tags tag current_user =>
              exists t, create_tag db tag current_user storage_ok
                        = (Ok t, db')
          | POST_status status_ current_user =>
              exists s, create_status db status_ current_user storage_ok
                        = (Ok s, db')
          end.
Proof.
  pose proof (handle_failure EmailStr get_password_hash db req now storage_ok) as Hfail.
  destruct req; unfold handle, outcome in *; cbn [fst snd] in *;
    match goal with
    | |- snd ?r = _ \/ _ =>
        destruct r as [[x| | |] db'] eqn:E; cbn [fst snd bind] in *;
        [right; exists db'; split; [reflexivity | now exists x]
        | left; apply Hfail; discriminate ..]
    end.
Qed.

End RequestFacts.

(** ** Invariants of the tables *)

Lemma NoDup_map_app_new {A B} (f : A -> B) (l : list A) (x : A) :
  NoDup (map f l) -> ~ In (f x) (map f l) -> NoDup (map f (l ++ [x])).
Proof.
  intros Hl Hx. rewrite map_app. cbn [map].
  apply NoDup_app; [assumption | repeat constructor; auto |].
  intros b Hb [<-|[]]. contradiction.
Qed.

Lemma NoDup_map_app_fresh {A} (key : A -> Z) (l : list A) (x : A) :
  NoDup (map key l) -> key x = next_id (map key l) ->
  NoDup (map key (l ++ [x])).
Proof.
  intros Hl Hx. apply NoDup_map_app_new; [assumption|].
  intros Hin. apply next_id_fresh in Hin. lia.
Qed.

Lemma NoDup_map_filter {A B} (f : A -> B) (g : A -> bool) (l : list A) :
  NoDup (map f l) -> NoDup (map f (filter g l)).
Proof.
  induction l as [|a l IH]; cbn [map filter]; intros H; [constructor|].
  inversion H as [|? ? Ha Hl]. subst.
  destruct (g a); [|auto]. cbn [map]. constructor; [|auto].
  intros Hin. apply Ha. apply in_map_iff in Hin.
  destruct Hin as [x [Hx Hin]]. apply filter_In in Hin.
  apply in_map_iff. exists x. tauto.
Qed.

Lemma map_replace_key {A} (key : A -> Z) (l : list A) (k : Z) (new : A) :
  key new = k ->
  map key (map (fun x => if key x =? k then new else x) l) = map key l.
Proof.
  intros Hnew. rewrite map_map. apply map_ext. intros a.
  destruct (key a =? k) eqn:E; [|reflexivity].
  apply Z.eqb_eq in E. congruence.
Qed.

Lemma replace_other {A} (key : A -> Z) (l : list A) (k : Z) (new : A) :
  ~ In k (map key l) ->
  map (fun x => if key x =? k then new else x) l = l.
Proof.
  induction l as [|a l IH]; cbn [map]; intros H; [reflexivity|].
  destruct (key a =? k) eqn:E.
  - apply Z.eqb_eq in E. exfalso. apply H. now left.
  - f_equal. apply IH. intros Hin. apply H. now right.
Qed.

(** Replacing the row of a key by one whose value of a unique column is
    the old one or a new one keeps the column unique. *)
Lemma NoDup_map_replace {A B} (key : A -> Z) (f : A -> B) (l : list A)
    (a a' : A) :
  NoDup (map key l) -> NoDup (map f l) -> In a l ->
  f a' = f a \/ ~ In (f a') (map f l) ->
  NoDup (map f (map (fun x => if key x =? key a then a' else x) l)).
Proof.
  induction l as [|x l IH]; intros Hkey Hf Hin Hnew; [contradiction|].
  cbn [map] in *. inversion Hkey as [|? ? Hkx Hkl]. subst.
  inversion Hf as [|? ? Hfx Hfl]. subst.
  destruct (key x =? key a) eqn:E.
  - apply Z.eqb_eq in E. rewrite replace_other by (rewrite <- E; exact Hkx).
    constructor; [|assumption].
    assert (Hxa : x = a).
    { destruct Hin as [Hxa|Hin]; [exact Hxa|].
      exfalso. apply Hkx. rewrite E. now apply in_map. }
    subst x. destruct Hnew as [->|Hnew]; [exact Hfx|].
    intros Hin'. apply Hnew. now right.
  - apply Z.eqb_neq in E. destruct Hin as [->|Hin]; [contradiction|].
    constructor.
    + intros Hin'. apply in_map_iff in Hin'.
      destruct Hin' as [y [Hy Hin']]. apply in_map_iff in Hin'.
      destruct Hin' as [z [Hz Hinz]].
      destruct (key z =? key a).
      * subst y. destruct Hnew as [Hsame|Hnew].
        -- apply Hfx. rewrite <- Hy, Hsame. now apply in_map.
        -- apply Hnew. left. congruence.
      * subst z. apply Hfx. rewrite <- Hy. now apply in_map.
    + apply IH; try assumption.
      destruct Hnew as [Hsame|Hnew]; [now left|].
      right. intros Hin'. apply Hnew. now right.
Qed.

Lemma tag_named_None (tags_ : list Tag.t) (name : string) :
  tag_named tags_ name = None <-> ~ In name (map Tag.name tags_).
Proof.
  unfold tag_named. rewrite first_filter_None. split.
  - intros H Hin. apply in_map_iff in Hin. destruct Hin as [t [Ht Hin]].
    specialize (H t Hin). cbv beta in H.
    rewrite Ht, String.eqb_refl in H. discriminate.
  - intros H t Hin. destruct (String.eqb (Tag.name t) name) eqn:E;
      [|reflexivity].
    apply String.eqb_eq in E. exfalso. apply H. rewrite <- E.
    now apply in_map.
Qed.

Lemma attach_tags_unique (tag_names : list string) :
  forall (tags_ collection tags' collection' : list Tag.t),
    attach_tags tag_names tags_ collection = (tags', collection') ->
    (NoDup (map Tag.id tags_) -> NoDup (map Tag.id tags'))
    /\ (NoDup (map Tag.name tags_) -> NoDup (map Tag.name tags'))
    /\ ((forall t, In t collection -> In t tags_) ->
        forall t, In t collection' -> In t tags').
Proof.
  induction tag_names as [|name rest IH];
    intros tags_ collection tags' collection' H.
  - inversion H. subst. auto.
  - cbn [attach_tags] in H.
    pose proof (get_or_create_tag_spec tags_ name) as Hget.
    destruct (tag_named tags_ name) as [t|] eqn:Hnamed; rewrite Hget in H;
      apply IH in H; destruct H as [Hid [Hname Hcoll]].
    + split; [assumption|]. split; [assumption|].
      intros Hc. apply Hcoll. intros t' Hin. apply in_app_or in Hin.
      destruct Hin as [Hin|[<-|[]]]; [auto|].
      now apply tag_named_name in Hnamed.
    + split; [|split].
      * intros Hnd. apply Hid. now apply NoDup_map_app_fresh.
      * intros Hnd. apply Hname. apply NoDup_map_app_new; [assumption|].
        now apply tag_named_None.
      * intros Hc. apply Hcoll. intros t' Hin. apply in_app_or in Hin.
        apply in_or_app. destruct Hin as [Hin|[<-|[]]]; [left; auto|].
        right. now left.
Qed.

Section Invariants.

Variable EmailStr : string -> option string.
Variable get_password_hash : string -> string.

Lemma handle_unique_keys (db : DB) (req : request) (now : Z)
    (storage_ok : bool) :
  unique_keys db ->
  unique_keys (snd (handle EmailStr get_password_hash db req now storage_ok)).
Proof.
  intros Hdb.
  destruct (handle_cases EmailStr get_password_hash db req now storage_ok)
    as [->|[db' [-> H]]]; [exact Hdb|].
  destruct Hdb as [Hu [Hs [Hp [Ht [Hl Hc]]]]].
  destruct req.
  - destruct H as [u H]. apply register_user_Ok_db in H.
    destruct H as [_ [_ [_ [_ [Hid [_ [_ [_ ->]]]]]]]].
    repeat split; try assumption. cbn [users set_users].
    now apply NoDup_map_app_fresh.
  - destruct H as [u H]. apply update_user_profile_Ok in H.
    destruct H as [validated [_ [Hup ->]]]. apply updated_profile_id_role in Hup.
    repeat split; try assumption. cbn [users set_users].
    rewrite map_replace_key; [assumption | apply Hup].
  - destruct H as [P H]. apply create_post_Ok in H.
    destruct H as [HP [_ [Hu' [Hs' [Hp' [Hl' [Hc' Htags]]]]]]].
    destruct Htags as [tags' [collection [Hattach [Ht' _]]]].
    unfold unique_keys. rewrite Hu', Hs', Hp', Hl', Hc', Ht'.
    repeat split; try assumption.
    + apply NoDup_map_app_fresh; [assumption | now rewrite HP].
    + now apply (attach_tags_unique _ _ _ _ _ Hattach).
  - destruct H as [P H]. apply update_post_Ok in H.
    destruct H as [P0 [Hfind [_ [Hrow [Hp' [Hu' [Hs' [Hl' [Hc' Htags]]]]]]]]].
    unfold unique_keys. rewrite Hu', Hs', Hp', Hl', Hc'.
    apply updated_row_fields in Hrow. destruct Hrow as [Hid _].
    apply find_post_In in Hfind. destruct Hfind as [_ HidP].
    rewrite map_replace_key by congruence.
    repeat split; try assumption.
    destruct (schemas.update_tags post_update) as [names|].
    + destruct Htags as [tags' [collection [Hattach [-> _]]]].
      now apply (attach_tags_unique _ _ _ _ _ Hattach).
    + destruct Htags as [-> _]. assumption.
  - destruct H as [m H]. apply delete_post_Ok in H.
    destruct H as [P [_ [_ ->]]].
    repeat split; try assumption; cbn [posts likes comments];
      now apply NoDup_map_filter.
  - destruct H as [c H]. apply create_comment_Ok in H.
    destruct H as [_ [Hc' ->]].
    repeat split; try assumption. cbn [comments set_comments].
    apply NoDup_map_app_fresh; [assumption | now rewrite Hc'].
  - destruct H as [c H]. apply update_comment_Ok in H.
    destruct H as [c0 [_ [_ [Hrow ->]]]].
    repeat split; try assumption. cbn [comments set_comments].
    rewrite map_replace_key; [assumption | now rewrite Hrow].
  - destruct H as [m H]. apply delete_comment_Ok in H.
    destruct H as [c [_ [_ ->]]].
    repeat split; try assumption. cbn [comments set_comments].
    now apply NoDup_map_filter.
  - destruct H as [m H]. apply like_post_Ok in H.
    destruct H as [_ [_ ->]].
    repeat split; try assumption. cbn [likes set_likes].
    now apply NoDup_map_app_fresh.
  - destruct H as [m H]. apply unlike_post_Ok in H.
    destruct H as [l [_ ->]].
    repeat split; try assumption. cbn [likes set_likes].
    now apply NoDup_map_filter.
  - destruct H as [t H]. apply create_tag_Ok in H.
    destruct H as [_ [Ht' ->]].
    repeat split; try assumption. cbn [tags].
    apply NoDup_map_app_fresh; [assumption | now rewrite Ht'].
  - destruct H as [s H]. apply create_status_Ok in H.
    destruct H as [_ [_ [Hs' ->]]].
    repeat split; try assumption. cbn [status].
    apply NoDup_map_app_fresh; [assumption | now rewrite Hs'].
Qed.

End Invariants.

Lemma extends_refl {A} (l : list A) : extends l l.
Proof. exists []. now rewrite app_nil_r. Qed.

Lemma extends_trans {A} (l1 l2 l3 : list A) :
  extends l1 l2 -> extends l2 l3 -> extends l1 l3.
Proof.
  intros [m1 ->] [m2 ->]. exists (m1 ++ m2). now rewrite app_assoc.
Qed.

Lemma extends_app {A} (l more : list A) : extends l (l ++ more).
Proof. now exists more. Qed.

Lemma attach_tags_extends (tag_names : list string)
    (tags_ collection tags' collection' : list Tag.t) :
  attach_tags tag_names tags_ collection = (tags', collection') ->
  extends tags_ tags'.
Proof.
  intros H. apply attach_tags_spec in H.
  destruct H as [created [resolved [-> _]]]. apply extends_app.
Qed.

Lemma in_map_filter_key {A} (key : A -> Z) (l : list A) (k gone : Z) :
  In k (map key l) -> k <> gone ->
  In k (map key (filter (fun x => negb (key x =? gone)) l)).
Proof.
  intros Hin Hk. apply in_map_iff in Hin. destruct Hin as [x [Hx Hin]].
  apply in_map_iff. exists x. split; [assumption|].
  apply filter_In. split; [assumption|].
  apply negb_true_iff, Z.eqb_neq. congruence.
Qed.

Section MoreInvariants.

Variable EmailStr : string -> option string.
Variable get_password_hash : string -> string.

Lemma handle_unique_names (db : DB) (req : request) (now : Z)
    (storage_ok : bool) :
  unique_keys db -> authenticated db req -> unique_names db ->
  unique_names (snd (handle EmailStr get_password_hash db req now storage_ok)).
Proof.
  intros Hkeys Hauth Hdb.
  destruct (handle_cases EmailStr get_password_hash db req now storage_ok)
    as [->|[db' [-> H]]]; [exact Hdb|].
  destruct Hdb as [Hn [He [Ht Hs]]].
  destruct req.
  - destruct H as [u H]. apply register_user_Ok_db in H.
    destruct H as [Hname [Hemail [_ [_ [_ [Hun [Hue [_ ->]]]]]]]].
    repeat split; try assumption; cbn [users set_users];
      (apply NoDup_map_app_new; [assumption | congruence]).
  - destruct H as [u H]. apply update_user_profile_Ok in H.
    destruct H as [validated [_ [Hup ->]]]. apply updated_profile_names in Hup.
    destruct Hup as [Hun Hue]. cbn in Hauth.
    repeat split; try assumption; cbn [users set_users];
      (apply NoDup_map_replace; [apply Hkeys | assumption ..]).
  - destruct H as [P H]. apply create_post_Ok in H.
    destruct H as [_ [_ [Hu' [Hs' [_ [_ [_ Htags]]]]]]].
    destruct Htags as [tags' [collection [Hattach [Ht' _]]]].
    unfold unique_names. rewrite Hu', Hs', Ht'.
    repeat split; try assumption.
    now apply (attach_tags_unique _ _ _ _ _ Hattach).
  - destruct H as [P H]. apply update_post_Ok in H.
    destruct H as [P0 [_ [_ [_ [_ [Hu' [Hs' [_ [_ Htags]]]]]]]]].
    unfold unique_names. rewrite Hu', Hs'.
    repeat split; try assumption.
    destruct (schemas.update_tags post_update) as [names|].
    + destruct Htags as [tags' [collection [Hattach [-> _]]]].
      now apply (attach_tags_unique _ _ _ _ _ Hattach).
    + destruct Htags as [-> _]. assumption.
  - destruct H as [m H]. apply delete_post_Ok in H.
    destruct H as [P [_ [_ ->]]]. repeat split; assumption.
  - destruct H as [c H]. apply create_comment_Ok in H.
    destruct H as [_ [_ ->]]. repeat split; assumption.
  - destruct H as [c H]. apply update_comment_Ok in H.
    destruct H as [c0 [_ [_ [_ ->]]]]. repeat split; assumption.
  - destruct H as [m H]. apply delete_comment_Ok in H.
    destruct H as [c [_ [_ ->]]]. repeat split; assumption.
  - destruct H as [m H]. apply like_post_Ok in H.
    destruct H as [_ [_ ->]]. repeat split; assumption.
  - destruct H as [m H]. apply unlike_post_Ok in H.
    destruct H as [l [_ ->]]. repeat split; assumption.
  - destruct H as [t H]. apply create_tag_Ok in H.
    destruct H as [Hnone [Ht' ->]].
    repeat split; try assumption. cbn [tags].
    apply NoDup_map_app_new; [assumption|].
    rewrite Ht'. now apply tag_named_None.
  - destruct H as [s H]. apply create_status_Ok in H.
    destruct H as [_ [Hnew [Hs' ->]]].
    repeat split; try assumption. cbn [status].
    apply NoDup_map_app_new; [assumption | now rewrite Hs'].
Qed.

Lemma handle_unique_likes (db : DB) (req : request) (now : Z)
    (storage_ok : bool) :
  unique_likes db ->
  unique_likes (snd (handle EmailStr get_password_hash db req now storage_ok)).
Proof.
  intros Hdb.
  destruct (handle_cases EmailStr get_password_hash db req now storage_ok)
    as [->|[db' [-> H]]]; [exact Hdb|].
  unfold unique_likes in *.
  destruct req.
  - destruct H as [u H]. apply register_user_Ok_db in H.
    destruct H as [_ [_ [_ [_ [_ [_ [_ [_ ->]]]]]]]]. assumption.
  - destruct H as [u H]. apply update_user_profile_Ok in H.
    destruct H as [validated [_ [_ ->]]]. assumption.
  - destruct H as [P H]. apply create_post_Ok in H.
    destruct H as [_ [_ [_ [_ [_ [-> _]]]]]]. assumption.
  - destruct H as [P H]. apply update_post_Ok in H.
    destruct H as [P0 [_ [_ [_ [_ [_ [_ [-> _]]]]]]]]. assumption.
  - destruct H as [m H]. apply delete_post_Ok in H.
    destruct H as [P [_ [_ ->]]]. cbn [likes]. now apply NoDup_map_filter.
  - destruct H as [c H]. apply create_comment_Ok in H.
    destruct H as [_ [_ ->]]. assumption.
  - destruct H as [c H]. apply update_comment_Ok in H.
    destruct H as [c0 [_ [_ [_ ->]]]]. assumption.
  - destruct H as [m H]. apply delete_comment_Ok in H.
    destruct H as [c [_ [_ ->]]]. assumption.
  - destruct H as [m H]. apply like_post_Ok in H.
    destruct H as [_ [Hnone ->]]. cbn [likes set_likes].
    apply NoDup_map_app_new; [assumption|].
    cbn [Like.post_id Like.user_id]. intros Hin.
    apply in_map_iff in Hin. destruct Hin as [l [Hl Hin]].
    inversion Hl as [[Hp Hu]].
    pose proof (find_like_liked db post_id (User.id current_user)) as Hl'.
    rewrite Hnone in Hl'. apply Hl'. exists l. auto.
  - destruct H as [m H]. apply unlike_post_Ok in H.
    destruct H as [l [_ ->]]. cbn [likes set_likes].
    now apply NoDup_map_filter.
  - destruct H as [t H]. apply create_tag_Ok in H.
    destruct H as [_ [_ ->]]. assumption.
  - destruct H as [s H]. apply create_status_Ok in H.
    destruct H as [_ [_ [_ ->]]]. assumption.
Qed.

Lemma handle_no_orphans (db : DB) (req : request) (now : Z)
    (storage_ok : bool) :
  authenticated db req -> no_orphans db ->
  no_orphans (snd (handle EmailStr get_password_hash db req now storage_ok)).
Proof.
  intros Hauth Hdb.
  destruct (handle_cases EmailStr get_password_hash db req now storage_ok)
    as [->|[db' [-> H]]]; [exact Hdb|].
  destruct Hdb as [Hp [Hc [Hl Hr]]].
  destruct req; cbn in Hauth.
  - destruct H as [u H]. apply register_user_Ok_db in H.
    destruct H as [_ [_ [_ [_ [_ [_ [_ [_ ->]]]]]]]].
    unfold no_orphans. cbn [users posts comments likes post_tags tags
                                set_users].
    rewrite map_app.
    repeat split; intros; try (apply in_or_app; left);
      solve [now apply Hp | now apply Hc | now apply Hl | now apply Hr].
  - destruct H as [u H]. apply update_user_profile_Ok in H.
    destruct H as [validated [_ [Hup ->]]]. apply updated_profile_id_role in Hup.
    unfold no_orphans. cbn [users posts comments likes post_tags tags
                                set_users].
    rewrite map_replace_key by apply Hup.
    repeat split; intros;
      solve [now apply Hp | now apply Hc | now apply Hl | now apply Hr].
  - destruct H as [P H]. apply create_post_Ok in H.
    destruct H as [HP [_ [Hu' [_ [Hp' [Hl' [Hc' Htags]]]]]]].
    destruct Htags as [tags' [collection [Hattach [Ht' Hrows]]]].
    pose proof (attach_tags_extends _ _ _ _ _ Hattach) as [more Hmore].
    destruct (attach_tags_unique _ _ _ _ _ Hattach) as [_ [_ Hcoll]].
    unfold no_orphans. rewrite Hu', Hp', Hl', Hc', Ht', Hrows, Hmore.
    rewrite !map_app. split; [|split; [|split]].
    + intros p Hin. apply in_app_or in Hin.
      destruct Hin as [Hin|[<-|[]]]; [now apply Hp|].
      rewrite HP. cbn [Post.author_id]. now apply in_map.
    + intros c Hin. split; [apply in_or_app; left|]; now apply Hc.
    + intros l Hin. split; [apply in_or_app; left|]; now apply Hl.
    + intros r Hin. apply in_app_or in Hin. destruct Hin as [Hin|Hin].
      * split; apply in_or_app; left; now apply Hr.
      * unfold association_rows in Hin. apply in_map_iff in Hin.
        destruct Hin as [t [<- Hin]]. cbn [fst snd]. split.
        -- apply in_or_app. right. now left.
        -- rewrite <- map_app, <- Hmore. apply in_map.
           apply Hcoll; [contradiction | assumption].
  - destruct H as [P H]. apply update_post_Ok in H.
    destruct H as [P0 [Hfind [_ [Hrow [Hp' [Hu' [_ [Hl' [Hc' Htags]]]]]]]]].
    apply updated_row_fields in Hrow. destruct Hrow as [Hid [Hauthor _]].
    apply find_post_In in Hfind. destruct Hfind as [HinP HidP].
    assert (Hids : map Post.id
                     (map (fun p => if Post.id p =? post_id then P else p)
                          (posts db)) = map Post.id (posts db))
      by (apply map_replace_key; congruence).
    unfold no_orphans. rewrite Hu', Hp', Hl', Hc', Hids.
    split; [|split; [|split]].
    + intros p Hin. apply in_map_iff in Hin. destruct Hin as [q [Hq Hin]].
      destruct (Post.id q =? post_id); subst p.
      * rewrite Hauthor. now apply Hp.
      * now apply Hp.
    + exact Hc.
    + exact Hl.
    + destruct (schemas.update_tags post_update) as [names|].
      * destruct Htags as [tags' [collection [Hattach [-> ->]]]].
        pose proof (attach_tags_extends _ _ _ _ _ Hattach) as [more Hmore].
        destruct (attach_tags_unique _ _ _ _ _ Hattach) as [_ [_ Hcoll]].
        intros r Hin. apply in_app_or in Hin. destruct Hin as [Hin|Hin].
        -- apply filter_In in Hin. destruct Hin as [Hin _].
           split; [now apply Hr|]. rewrite Hmore, map_app.
           apply in_or_app. left. now apply Hr.
        -- unfold association_rows in Hin. apply in_map_iff in Hin.
           destruct Hin as [t [<- Hin]]. cbn [fst snd]. split.
           ++ rewrite <- HidP. now apply in_map.
           ++ apply in_map. apply Hcoll; [contradiction | assumption].
      * destruct Htags as [-> ->]. exact Hr.
  - destruct H as [m H]. apply delete_post_Ok in H.
    destruct H as [P [_ [_ ->]]].
    unfold no_orphans. cbn [users posts comments likes post_tags tags].
    split; [|split; [|split]].
    + intros p Hin. apply filter_In in Hin. now apply Hp.
    + intros c Hin. apply filter_In in Hin. destruct Hin as [Hin Hne].
      apply negb_true_iff, Z.eqb_neq in Hne.
      split; [apply in_map_filter_key; [now apply Hc | assumption]
             | now apply Hc].
    + intros l Hin. apply filter_In in Hin. destruct Hin as [Hin Hne].
      apply negb_true_iff, Z.eqb_neq in Hne.
      split; [apply in_map_filter_key; [now apply Hl | assumption]
             | now apply Hl].
    + intros r Hin. apply filter_In in Hin. destruct Hin as [Hin Hne].
      apply negb_true_iff, Z.eqb_neq in Hne.
      split; [apply in_map_filter_key; [now apply Hr | assumption]
             | now apply Hr].
  - destruct H as [c H]. apply create_comment_Ok in H.
    destruct H as [[P HP] [Hc' ->]].
    apply find_post_In in HP. destruct HP as [HinP HidP].
    unfold no_orphans. cbn [users posts comments likes post_tags tags
                                set_comments].
    repeat split; try (intros;
      solve [now apply Hp | now apply Hc | now apply Hl | now apply Hr]).
    + apply in_app_or in H. destruct H as [H|[<-|[]]]; [now apply Hc|].
      rewrite Hc'. cbn [Comment.post_id]. rewrite <- HidP. now apply in_map.
    + apply in_app_or in H. destruct H as [H|[<-|[]]]; [now apply Hc|].
      rewrite Hc'. cbn [Comment.author_id]. now apply in_map.
  - destruct H as [c H]. apply update_comment_Ok in H.
    destruct H as [c0 [Hfc [_ [Hrow ->]]]].
    apply find_comment_In in Hfc. destruct Hfc as [Hin0 [Hid0 Hpost0]].
    unfold no_orphans. cbn [users posts comments likes post_tags tags
                                set_comments].
    repeat split; try (intros;
      solve [now apply Hp | now apply Hc | now apply Hl | now apply Hr]).
    + apply in_map_iff in H. destruct H as [y [Hy Hin]].
      destruct (Comment.id y =? comment_id); subst c1.
      * rewrite Hrow. cbn [Comment.post_id]. rewrite <- Hpost0.
        now apply Hc.
      * now apply Hc.
    + apply in_map_iff in H. destruct H as [y [Hy Hin]].
      destruct (Comment.id y =? comment_id); subst c1.
      * rewrite Hrow. cbn [Comment.author_id]. now apply Hc.
      * now apply Hc.
  - destruct H as [m H]. apply delete_comment_Ok in H.
    destruct H as [c [_ [_ ->]]].
    unfold no_orphans. cbn [users posts comments likes post_tags tags
                                set_comments].
    repeat split; try (intros;
      solve [now apply Hp | now apply Hc | now apply Hl | now apply Hr]);
      apply filter_In in H; now apply Hc.
  - destruct H as [m H]. apply like_post_Ok in H.
    destruct H as [[P HP] [_ ->]].
    apply find_post_In in HP. destruct HP as [HinP HidP].
    unfold no_orphans. cbn [users posts comments likes post_tags tags
                                set_likes].
    repeat split; try (intros;
      solve [now apply Hp | now apply Hc | now apply Hl | now apply Hr]).
    + apply in_app_or in H. destruct H as [H|[<-|[]]]; [now apply Hl|].
      cbn [Like.post_id]. rewrite <- HidP. now apply in_map.
    + apply in_app_or in H. destruct H as [H|[<-|[]]]; [now apply Hl|].
      cbn [Like.user_id]. now apply in_map.
  - destruct H as [m H]. apply unlike_post_Ok in H.
    destruct H as [l [_ ->]].
    unfold no_orphans. cbn [users posts comments likes post_tags tags
                                set_likes].
    repeat split; try (intros;
      solve [now apply Hp | now apply Hc | now apply Hl | now apply Hr]);
      apply filter_In in H; now apply Hl.
  - destruct H as [t H]. apply create_tag_Ok in H.
    destruct H as [_ [_ ->]].
    unfold no_orphans. cbn [users posts comments likes post_tags tags].
    rewrite map_app.
    repeat split; try (intros;
      solve [now apply Hp | now apply Hc | now apply Hl | now apply Hr]).
    apply in_or_app. left. now apply Hr.
  - destruct H as [s H]. apply create_status_Ok in H.
    destruct H as [_ [_ [_ ->]]]. exact (conj Hp (conj Hc (conj Hl Hr))).
Qed.

End MoreInvariants.

Section Reachable.

Variable EmailStr : string -> option string.
Variable get_password_hash : string -> string.

Lemma reachable_unique_keys (db db' : DB) :
  reachable EmailStr get_password_hash db db' -> unique_keys db -> unique_keys db'.
Proof.
  intros Hreach Hdb. induction Hreach as [|db' req now ok _ IH _];
    [exact Hdb | now apply handle_unique_keys].
Qed.

(** X8. Primary keys stay unique: from a database in which no two rows
    of a table share an id, no run of requests reaches one in which two
    do, whatever the requests are and whether or not they succeed. *)
Theorem requests_keep_keys_unique :
  forall (db db' : DB),
    reachable EmailStr get_password_hash db db' -> unique_keys db -> unique_keys db'.
Proof.
  intros db db' Hreach Hdb. induction Hreach as [|db' req now ok _ IH _].
  - exact Hdb.
  - apply handle_unique_keys, IH.
Qed.

(** X9. The columns declared unique stay unique: from a database with
    unique ids in which no two users share a username or an email
    address and no two tags or statuses share a name, no run of requests
    by its users reaches one in which two do.  For users and tags the
    lookups of the handlers see to it; [create_status] makes no lookup,
    and for statuses the unique constraint of the store does. *)
Theorem requests_keep_names_unique :
  forall (db db' : DB),
    reachable EmailStr get_password_hash db db' ->
    unique_keys db -> unique_names db -> unique_names db'.
Proof.
  intros db db' Hreach Hkeys Hdb.
  induction Hreach as [|db' req now ok Hreach IH Hauth].
  - exact Hdb.
  - apply handle_unique_names; [|exact Hauth | exact IH].
    now apply (reachable_unique_keys db).
Qed.

(** X10. No user ever holds two likes of one post: [models.Like] declares
    no unique constraint on (post_id, user_id), and the check in
    [like_post] alone keeps the pairs unique along every run of
    requests. *)
Theorem requests_keep_likes_unique :
  forall (db db' : DB),
    reachable EmailStr get_password_hash db db' -> unique_likes db -> unique_likes db'.
Proof.
  intros db db' Hreach Hdb. induction Hreach as [|db' req now ok _ IH _].
  - exact Hdb.
  - apply handle_unique_likes, IH.
Qed.

(** X11. No request leaves an orphan: from a database in which every
    post has a stored author, every comment and like a stored post and a
    stored user, and every association row a stored post and a stored tag,
    every run of requests by its users leads to such a database, although
    the store enforces no foreign key. *)
Theorem requests_leave_no_orphans :
  forall (db db' : DB),
    reachable EmailStr get_password_hash db db' -> no_orphans db -> no_orphans db'.
Proof.
  intros db db' Hreach Hdb.
  induction Hreach as [|db' req now ok _ IH Hauth].
  - exact Hdb.
  - apply handle_no_orphans; [exact Hauth | exact IH].
Qed.

Lemma handle_extends (db : DB) (req : request) (now : Z)
    (storage_ok : bool) :
  unique_keys db -> authenticated db req ->
  extends (accounts db)
          (accounts (snd (handle EmailStr get_password_hash db req now storage_ok)))
  /\ extends (tags db)
             (tags (snd (handle EmailStr get_password_hash db req now storage_ok)))
  /\ extends (status db)
             (status (snd (handle EmailStr get_password_hash db req now storage_ok))).
Proof.
  intros Hkeys Hauth.
  destruct (handle_cases EmailStr get_password_hash db req now storage_ok)
    as [->|[db' [-> H]]]; [repeat split; apply extends_refl|].
  destruct req; cbn in Hauth.
  - destruct H as [u H]. apply register_user_Ok_db in H.
    destruct H as [_ [_ [_ [_ [_ [_ [_ [_ ->]]]]]]]].
    unfold accounts. cbn [users tags status set_users]. rewrite map_app.
    repeat split; try apply extends_refl. apply extends_app.
  - destruct H as [u H]. apply update_user_profile_Ok in H.
    destruct H as [validated [_ [Hup ->]]]. apply updated_profile_id_role in Hup.
    destruct Hup as [Hid Hrole].
    unfold accounts. cbn [users tags status set_users].
    repeat split; try apply extends_refl.
    rewrite map_map.
    replace (map (fun x => (User.id (if User.id x =? User.id current_user
                                     then u else x),
                            User.role (if User.id x =? User.id current_user
                                       then u else x)))
                 (users db))
      with (map (fun x => (User.id x, User.role x)) (users db));
      [apply extends_refl|].
    apply map_ext_in. intros x Hin.
    destruct (User.id x =? User.id current_user) eqn:E; [|reflexivity].
    apply Z.eqb_eq in E.
    assert (Hx : x = current_user).
    { destruct Hkeys as [Hu _]. clear - Hu Hin Hauth E.
      induction (users db) as [|y l IH]; [contradiction|].
      cbn [map] in Hu. inversion Hu as [|? ? Hy Hl]. subst.
      destruct Hin as [->|Hin], Hauth as [->|Hauth]; auto.
      - exfalso. apply Hy. rewrite E. now apply in_map.
      - exfalso. apply Hy. rewrite <- E. now apply in_map. }
    subst x. now rewrite Hid, Hrole.
  - destruct H as [P H]. apply create_post_Ok in H.
    destruct H as [_ [_ [Hu' [Hs' [_ [_ [_ Htags]]]]]]].
    destruct Htags as [tags' [collection [Hattach [Ht' _]]]].
    unfold accounts. rewrite Hu', Hs', Ht'.
    repeat split; try apply extends_refl.
    now apply (attach_tags_extends _ _ _ _ _ Hattach).
  - destruct H as [P H]. apply update_post_Ok in H.
    destruct H as [P0 [_ [_ [_ [_ [Hu' [Hs' [_ [_ Htags]]]]]]]]].
    unfold accounts. rewrite Hu', Hs'.
    repeat split; try apply extends_refl.
    destruct (schemas.update_tags post_update) as [names|].
    + destruct Htags as [tags' [collection [Hattach [-> _]]]].
      now apply (attach_tags_extends _ _ _ _ _ Hattach).
    + destruct Htags as [-> _]. apply extends_refl.
  - destruct H as [m H]. apply delete_post_Ok in H.
    destruct H as [P [_ [_ ->]]]. repeat split; apply extends_refl.
  - destruct H as [c H]. apply create_comment_Ok in H.
    destruct H as [_ [_ ->]]. repeat split; apply extends_refl.
  - destruct H as [c H]. apply update_comment_Ok in H.
    destruct H as [c0 [_ [_ [_ ->]]]]. repeat split; apply extends_refl.
  - destruct H as [m H]. apply delete_comment_Ok in H.
    destruct H as [c [_ [_ ->]]]. repeat split; apply extends_refl.
  - destruct H as [m H]. apply like_post_Ok in H.
    destruct H as [_ [_ ->]]. repeat split; apply extends_refl.
  - destruct H as [m H]. apply unlike_post_Ok in H.
    destruct H as [l [_ ->]]. repeat split; apply extends_refl.
  - destruct H as [t H]. apply create_tag_Ok in H.
    destruct H as [_ [_ ->]].
    repeat split; try apply extends_refl. apply extends_app.
  - destruct H as [s H]. apply create_status_Ok in H.
    destruct H as [_ [_ [_ ->]]].
    repeat split; try apply extends_refl. apply extends_app.
Qed.

(** X12. No request removes a user, a tag or a status, and none changes
    the id or the role of an account: along every run of requests by the
    users of a database with unique ids, the accounts (id and role), the
    tags and the statuses of the database stay what and where they were,
    and new ones are only added after them. *)
Theorem requests_only_add_accounts_tags_statuses :
  forall (db db' : DB),
    reachable EmailStr get_password_hash db db' ->
    unique_keys db ->
    extends (accounts db) (accounts db')
    /\ extends (tags db) (tags db')
    /\ extends (status db) (status db').
Proof.
  intros db db' Hreach Hkeys.
  induction Hreach as [|db' req now ok Hreach IH Hauth].
  - repeat split; apply extends_refl.
  - destruct IH as [Ha [Ht Hs]].
    destruct (handle_extends db' req now ok) as [Ha' [Ht' Hs']];
      [now apply (reachable_unique_keys db) | exact Hauth |].
    repeat split; eapply extends_trans; eassumption.
Qed.

End Reachable.

(** ** The example database and a run from it *)

Lemma Example_unique_keys : unique_keys Example.db.
Proof.
  unfold unique_keys. cbn.
  repeat split; repeat constructor; cbn; intuition discriminate.
Qed.

Lemma Example_unique_names : unique_names Example.db.
Proof.
  unfold unique_names. cbn.
  repeat split; repeat constructor; cbn; intuition discriminate.
Qed.

Lemma Example_unique_likes : unique_likes Example.db.
Proof.
  unfold unique_likes. cbn. repeat constructor. cbn. tauto.
Qed.

Lemma Example_no_orphans : no_orphans Example.db.
Proof.
  unfold no_orphans.
  split; [|split; [|split]]; intros x Hx; cbn in Hx;
    repeat (destruct Hx as [<-|Hx]); try contradiction; cbn;
    try split; auto 10.
Qed.

(** Dave registers, then Bob likes the published post. *)
Lemma Example_run :
  reachable Example.EmailStr Example.get_password_hash Example.db
    (snd (handle Example.EmailStr Example.get_password_hash
            (snd (handle Example.EmailStr Example.get_password_hash Example.db
                    (POST_auth_register Example.dave) 300 true))
            (POST_posts_like 2 Example.bob) 310 true)).
Proof.
  apply reachable_step; [apply reachable_step; [constructor | exact I]|].
  cbn. auto.
Qed.

Lemma requests_keep_keys_unique_witness :
  unique_keys Example.db
  /\ unique_keys
       (snd (handle Example.EmailStr Example.get_password_hash
               (snd (handle Example.EmailStr Example.get_password_hash Example.db
                       (POST_auth_register Example.dave) 300 true))
               (POST_posts_like 2 Example.bob) 310 true)).
Proof.
  split; [exact Example_unique_keys|].
  exact (requests_keep_keys_unique Example.EmailStr Example.get_password_hash _ _
           Example_run Example_unique_keys).
Defined.

Lemma requests_keep_names_unique_witness :
  unique_names Example.db
  /\ unique_names
       (snd (handle Example.EmailStr Example.get_password_hash
               (snd (handle Example.EmailStr Example.get_password_hash Example.db
                       (POST_auth_register Example.dave) 300 true))
               (POST_posts_like 2 Example.bob) 310 true)).
Proof.
  split; [exact Example_unique_names|].
  exact (requests_keep_names_unique Example.EmailStr Example.get_password_hash _ _
           Example_run Example_unique_keys Example_unique_names).
Defined.

Lemma requests_keep_likes_unique_witness :
  unique_likes Example.db
  /\ unique_likes
       (snd (handle Example.EmailStr Example.get_password_hash
               (snd (handle Example.EmailStr Example.get_password_hash Example.db
                       (POST_auth_register Example.dave) 300 true))
               (POST_posts_like 2 Example.bob) 310 true)).
Proof.
  split; [exact Example_unique_likes|].
  exact (requests_keep_likes_unique Example.EmailStr Example.get_password_hash _ _
           Example_run Example_unique_likes).
Defined.

Lemma requests_leave_no_orphans_witness :
  no_orphans Example.db
  /\ no_orphans
       (snd (handle Example.EmailStr Example.get_password_hash
               (snd (handle Example.EmailStr Example.get_password_hash Example.db
                       (POST_auth_register Example.dave) 300 true))
               (POST_posts_like 2 Example.bob) 310 true)).
Proof.
  split; [exact Example_no_orphans|].
  exact (requests_leave_no_orphans Example.EmailStr Example.get_password_hash _ _
           Example_run Example_no_orphans).
Defined.

Lemma requests_only_add_accounts_tags_statuses_witness :
  extends (accounts Example.db)
    (accounts
       (snd (handle Example.EmailStr Example.get_password_hash
               (snd (handle Example.EmailStr Example.get_password_hash Example.db
                       (POST_auth_register Example.dave) 300 true))
               (POST_posts_like 2 Example.bob) 310 true)))
  /\ accounts
       (snd (handle Example.EmailStr Example.get_password_hash
               (snd (handle Example.EmailStr Example.get_password_hash Example.db
                       (POST_auth_register Example.dave) 300 true))
               (POST_posts_like 2 Example.bob) 310 true))
     = accounts Example.db ++ [(5, "reader")].
Proof.
  split; [|reflexivity].
  exact (proj1 (requests_only_add_accounts_tags_statuses
                  Example.EmailStr Example.get_password_hash _ _
                  Example_run
                  Example_unique_keys)).
Defined.

(** ** Counting likes *)

Lemma count_filter_app {A} (f : A -> bool) (l : list A) (x : A) :
  count (filter f (l ++ [x]))
  = count (filter f l) + (if f x then 1 else 0).
Proof.
  unfold count. rewrite filter_app, length_app. cbn [filter].
  destruct (f x); cbn [List.length]; lia.
Qed.

Lemma NoDup_map_In_eq {A B} (f : A -> B) (l : list A) (a b : A) :
  NoDup (map f l) -> In a l -> In b l -> f a = f b -> a = b.
Proof.
  induction l as [|x l IH]; cbn [map]; intros Hnd Ha Hb Hf;
    [contradiction|].
  inversion Hnd as [|? ? Hx Hl]. subst.
  destruct Ha as [->|Ha], Hb as [->|Hb]; auto.
  - exfalso. apply Hx. rewrite Hf. now apply in_map.
  - exfalso. apply Hx. rewrite <- Hf. now apply in_map.
Qed.

(** Deleting by a unique key removes one row. *)
Lemma count_filter_remove {A} (key : A -> Z) (f : A -> bool) (l : list A)
    (a : A) :
  NoDup (map key l) -> In a l ->
  count (filter f (filter (fun x => negb (key x =? key a)) l))
  = count (filter f l) - (if f a then 1 else 0).
Proof.
  unfold count. induction l as [|x l IH]; intros Hnd Hin; [contradiction|].
  cbn [map] in Hnd. inversion Hnd as [|? ? Hx Hl]. subst.
  cbn [filter]. destruct (key x =? key a) eqn:E; cbn [negb].
  - apply Z.eqb_eq in E.
    assert (Hxa : x = a).
    { destruct Hin as [Hxa|Hin]; [exact Hxa|].
      exfalso. apply Hx. rewrite E. now apply in_map. }
    subst x.
    rewrite (filter_all_true (fun x => negb (key x =? key a)) l).
    + destruct (f a); cbn [List.length]; lia.
    + intros y Hy. apply negb_true_iff, Z.eqb_neq. intros Heq.
      apply Hx. rewrite <- Heq. now apply in_map.
  - apply Z.eqb_neq in E. destruct Hin as [->|Hin]; [contradiction|].
    cbn [filter]. specialize (IH Hl Hin).
    destruct (f x); cbn [List.length]; lia.
Qed.

(** X13. The like count follows the likes: [get_post_likes] and the
    [likes_count] of [get_post_with_like_status] are the same number; a
    like that went through raises the count of the post by one, turns
    the user's like flag on and leaves the counts of other posts alone;
    and in a database with unique like ids and at most one like per post
    and user, an unlike that went through lowers the count by one and
    turns the flag off. *)
Theorem like_count_follows_likes :
  forall (db db' : DB) (post_id : Z) (user : User.t) (P : Post.t)
         (storage_ok : bool) (message : string),
    find_post db post_id = Some P ->
    (forall principal,
        exists flag n,
          get_post_likes db post_id = Ok n
          /\ get_post_with_like_status db post_id principal
             = Ok (mkPostWithLikeStatus P flag n))
    /\ (forall now,
          like_post db post_id user now storage_ok = (Ok message, db') ->
          exists n,
            get_post_likes db post_id = Ok n
            /\ get_post_likes db' post_id = Ok (n + 1)
            /\ get_post_with_like_status db post_id (Some user)
               = Ok (mkPostWithLikeStatus P false n)
            /\ get_post_with_like_status db' post_id (Some user)
               = Ok (mkPostWithLikeStatus P true (n + 1))
            /\ (forall other, other <> post_id ->
                  get_post_likes db' other = get_post_likes db other))
    /\ (unique_keys db -> unique_likes db ->
        unlike_post db post_id user storage_ok = (Ok message, db') ->
        exists n,
          get_post_likes db post_id = Ok n
          /\ get_post_likes db' post_id = Ok (n - 1)
          /\ get_post_with_like_status db post_id (Some user)
             = Ok (mkPostWithLikeStatus P true n)
          /\ get_post_with_like_status db' post_id (Some user)
             = Ok (mkPostWithLikeStatus P false (n - 1))).
Proof.
  intros db db' post_id user P storage_ok message Hfind.
  split; [|split].
  - intros principal. unfold get_post_likes, get_post_with_like_status.
    rewrite Hfind. eexists. eexists. split; reflexivity.
  - intros now H. apply like_post_Ok in H. destruct H as [_ [Hnone ->]].
    assert (Hfind' : forall ls, find_post (set_likes db ls) post_id = Some P)
      by (intros ls; exact Hfind).
    unfold get_post_likes, get_post_with_like_status.
    rewrite Hfind, Hfind', Hnone. cbn [likes set_likes].
    exists (count (filter (fun l => Like.post_id l =? post_id) (likes db))).
    rewrite count_filter_app. cbn [Like.post_id]. rewrite Z.eqb_refl.
    split; [reflexivity|]. split; [reflexivity|]. split; [reflexivity|].
    split.
    + unfold find_like. cbn [likes set_likes].
      unfold find_like in Hnone. rewrite first_filter_app, Hnone.
      cbn [filter Like.post_id Like.user_id]. now rewrite !Z.eqb_refl.
    + intros other Hother.
      assert (Hposts : forall ls, find_post (set_likes db ls) other
                                  = find_post db other) by reflexivity.
      rewrite Hposts. destruct (find_post db other); [|reflexivity].
      rewrite count_filter_app. cbn [Like.post_id].
      assert (Hne : (post_id =? other) = false)
        by (apply Z.eqb_neq; congruence).
      rewrite Hne. f_equal. lia.
  - intros Hkeys Hlikes H. apply unlike_post_Ok in H.
    destruct H as [like [Hlike ->]].
    assert (Hfind' : forall ls, find_post (set_likes db ls) post_id = Some P)
      by (intros ls; exact Hfind).
    pose proof (find_like_liked db post_id (User.id user)) as Hl.
    rewrite Hlike in Hl. destruct Hl as [Hin [Hp Hu]].
    unfold get_post_likes, get_post_with_like_status.
    rewrite Hfind, Hfind', Hlike. cbn [likes set_likes].
    exists (count (filter (fun l => Like.post_id l =? post_id) (likes db))).
    destruct Hkeys as [_ [_ [_ [_ [Hids _]]]]].
    rewrite (count_filter_remove Like.id _ _ like Hids Hin), Hp,
      Z.eqb_refl.
    split; [reflexivity|]. split; [reflexivity|]. split; [reflexivity|].
    assert (Hgone : find_like
                      (set_likes db
                         (filter (fun l => negb (Like.id l =? Like.id like))
                                 (likes db)))
                      post_id (User.id user) = None).
    { apply first_filter_None. intros l Hl. cbn [likes set_likes] in Hl.
      apply filter_In in Hl. destruct Hl as [Hl Hne].
      destruct ((Like.post_id l =? post_id)
                && (Like.user_id l =? User.id user)) eqn:E; [|reflexivity].
      apply andb_true_iff in E. rewrite !Z.eqb_eq in E.
      assert (l = like).
      { apply (NoDup_map_In_eq _ _ _ _ Hlikes Hl Hin).
        destruct E as [-> ->]. now rewrite Hp, Hu. }
      subst l. rewrite Z.eqb_refl in Hne. discriminate. }
    now rewrite Hgone.
Qed.

Lemma like_count_follows_likes_witness :
  find_post Example.db 2 = Some Example.article
  /\ like_post Example.db 2 Example.bob 300 true
     = (Ok "Post liked successfully",
        set_likes Example.db
          (likes Example.db ++ [Like.mk 2 2 2 300]))
  /\ exists n,
       get_post_likes Example.db 2 = Ok n
       /\ get_post_likes
            (set_likes Example.db (likes Example.db ++ [Like.mk 2 2 2 300]))
            2 = Ok (n + 1)
       /\ get_post_with_like_status Example.db 2 (Some Example.bob)
          = Ok (mkPostWithLikeStatus Example.article false n)
       /\ get_post_with_like_status
            (set_likes Example.db (likes Example.db ++ [Like.mk 2 2 2 300]))
            2 (Some Example.bob)
          = Ok (mkPostWithLikeStatus Example.article true (n + 1))
       /\ (forall other, other <> 2 ->
             get_post_likes
               (set_likes Example.db
                  (likes Example.db ++ [Like.mk 2 2 2 300])) other
             = get_post_likes Example.db other).
Proof.
  split; [reflexivity|]. split; [reflexivity|].
  exact (proj1 (proj2 (like_count_follows_likes Example.db _ 2 Example.bob
                         Example.article true "Post liked successfully"
                         eq_refl))
               300 eq_refl).
Defined.

(** ** The pages of a listing *)

Lemma firstn_plus {A} (a b : nat) (l : list A) :
  firstn (a + b) l = firstn a l ++ firstn b (skipn a l).
Proof.
  revert l. induction a as [|a IH]; intros l; [reflexivity|].
  destruct l as [|x l]; cbn [Nat.add firstn skipn app].
  - now rewrite firstn_nil.
  - now rewrite IH.
Qed.

Lemma windows_concat {A} (m : nat) (l : list A) (n : nat) :
  List.concat (map (fun k => firstn m (skipn ((k - 1) * m) l)) (seq 1 n))
  = firstn (n * m) l.
Proof.
  induction n as [|n IH]; [reflexivity|].
  rewrite seq_S, map_app, concat_app, IH. cbn [map List.concat Nat.add].
  rewrite app_nil_r.
  replace (S n - 1)%nat with n by lia.
  replace (S n * m)%nat with (n * m + m)%nat by lia.
  now rewrite firstn_plus.
Qed.

Lemma paginate_items {A} (query : list A) (page limit_ : Z) :
  0 < page -> 0 < limit_ ->
  page_items (paginate query page limit_)
  = firstn (Z.to_nat limit_)
           (skipn ((Z.to_nat page - 1) * Z.to_nat limit_) query).
Proof.
  intros Hpage Hlim. unfold paginate, floordiv, limit, offset.
  destruct (limit_ =? 0) eqn:E; [apply Z.eqb_eq in E; lia|].
  destruct (limit_ <? 0) eqn:E'; [apply Z.ltb_lt in E'; lia|].
  cbn [bind page_items items]. do 2 f_equal. nia.
Qed.

(** X14. The pages of [paginate] cut the query into consecutive runs:
    for a limit above 0, the items of pages 1, 2, ..., ceil(total / limit)
    put one after the other are the rows of the query, each once and in
    order; every page but the last holds exactly [limit] items, and every
    page after the last is empty. *)
Theorem paginate_pages_partition :
  forall (A : Type) (query : list A) (limit_ : Z),
    0 < limit_ ->
    List.concat (map (fun k => page_items (paginate query (Z.of_nat k) limit_))
                (seq 1 (Z.to_nat (ceil_div (count query) limit_))))
    = query
    /\ (forall page,
          0 < page < ceil_div (count query) limit_ ->
          count (page_items (paginate query page limit_)) = limit_)
    /\ (forall page,
          ceil_div (count query) limit_ < page ->
          page_items (paginate query page limit_) = []).
Proof.
  intros A query limit_ Hlim.
  destruct (floordiv_ceil (count query) limit_ Hlim) as [_ Hceil].
  assert (Hn : 0 <= ceil_div (count query) limit_).
  { unfold count in *. nia. }
  split; [|split].
  - rewrite <- (firstn_all2 query
                  (n := Z.to_nat (ceil_div (count query) limit_)
                        * Z.to_nat limit_)) at 2
      by (unfold count in *; nia).
    rewrite <- windows_concat. f_equal. apply map_ext_in.
    intros k Hk. apply in_seq in Hk.
    rewrite paginate_items by lia. now rewrite Nat2Z.id.
  - intros page Hpage. rewrite paginate_items by lia.
    unfold count in *. rewrite length_firstn, length_skipn. nia.
  - intros page Hpage. rewrite paginate_items by lia.
    rewrite skipn_all2; [now rewrite firstn_nil|].
    unfold count in *. nia.
Qed.

Lemma paginate_pages_partition_witness :
  List.concat (map (fun k => page_items (paginate [10; 20; 30; 40; 50]
                                             (Z.of_nat k) 2))
              (seq 1 (Z.to_nat (ceil_div (count [10; 20; 30; 40; 50]) 2))))
  = [10; 20; 30; 40; 50]
  /\ page_items (paginate [10; 20; 30; 40; 50] 3 2) = [50]
  /\ page_items (paginate [10; 20; 30; 40; 50] 4 2) = [].
Proof.
  assert (H : 0 < 2) by lia.
  split; [|split; [reflexivity|]].
  - exact (proj1 (paginate_pages_partition Z [10; 20; 30; 40; 50] 2 H)).
  - apply (proj2 (proj2 (paginate_pages_partition Z [10; 20; 30; 40; 50]
                           2 H))).
    reflexivity.
Defined.

(** ** What is listed is what can be fetched *)

Lemma list_posts_items (db : DB) (page limit_ : Z)
    (principal : option User.t) :
  0 < page -> 0 < limit_ <= 100 ->
  list_posts db (Some page) (Some limit_) None principal
  = paginate (order_by_created_at_desc
                (filter_published_posts (posts db) principal))
             page limit_.
Proof.
  intros Hpage Hlim. rewrite list_posts_visibility.
  rewrite (Query_Some 1 0 None "page" page) by (lia || exact I).
  rewrite (Query_Some 10 0 (Some 100) "limit" limit_) by lia.
  reflexivity.
Qed.

(** X15. Listing and fetching agree: a stored post can be fetched with
    [get_post] by a principal exactly when it is on one of the pages
    [list_posts] gives that principal.  What an anonymous caller can
    fetch, every user can, and an admin can fetch every stored post. *)
Theorem list_posts_agrees_with_get_post :
  forall (db : DB) (principal : option User.t) (P : Post.t),
    find_post db (Post.id P) = Some P ->
    (get_post db (Post.id P) principal = Ok P
     <-> exists page,
           0 < page
           /\ In P (page_items (list_posts db (Some page) (Some 10) None
                                           principal)))
    /\ (get_post db (Post.id P) None = Ok P ->
        forall user, get_post db (Post.id P) (Some user) = Ok P)
    /\ (forall user, is_admin user = true ->
          get_post db (Post.id P) (Some user) = Ok P).
Proof.
  intros db principal P Hfind.
  pose proof (find_post_In _ _ _ Hfind) as [Hin _].
  assert (Hget : forall pr, get_post db (Post.id P) pr = Ok P
                            <-> canView pr P = true).
  { intros pr. rewrite (get_post_canView _ _ _ _ Hfind).
    destruct (canView pr P); split; congruence. }
  split; [|split].
  - rewrite Hget. split.
    + intros Hview.
      assert (Hq : In P (order_by_created_at_desc
                           (filter_published_posts (posts db) principal))).
      { apply in_order_by_created_at_desc, filter_published_posts_canView.
        auto. }
      destruct (in_some_page _ 10 P ltac:(lia) Hq) as [page [Hpage Hitems]].
      exists page. split; [assumption|].
      rewrite list_posts_items by lia.
      unfold paginate, floordiv. cbn [Z.eqb bind page_items items].
      exact Hitems.
    + intros [page [Hpage Hitems]].
      rewrite list_posts_items in Hitems by lia.
      unfold paginate, floordiv in Hitems.
      cbn [Z.eqb bind page_items items] in Hitems.
      apply in_limit, in_offset, in_order_by_created_at_desc,
        filter_published_posts_canView in Hitems.
      apply Hitems.
  - rewrite Hget. intros Hanon user. apply Hget. unfold canView in *.
    rewrite Hanon. apply orb_true_r.
  - intros user Hadmin. apply Hget. unfold canView. now rewrite Hadmin.
Qed.

Lemma list_posts_agrees_with_get_post_witness :
  find_post Example.db (Post.id Example.draft) = Some Example.draft
  /\ get_post Example.db 1 (Some Example.alice) = Ok Example.draft
  /\ exists page,
       0 < page
       /\ In Example.draft
            (page_items (list_posts Example.db (Some page) (Some 10) None
                                    (Some Example.alice))).
Proof.
  split; [reflexivity|]. split; [reflexivity|].
  apply (proj1 (list_posts_agrees_with_get_post Example.db
                  (Some Example.alice) Example.draft eq_refl)).
  reflexivity.
Defined.

(** ** What the search matches *)

Lemma like_match_literal (p rest s : list ascii) :
  forallb (fun c => negb (wildcard c)) p = true ->
  like_match (p ++ rest) s = true
  <-> exists s', s = p ++ s' /\ like_match rest s' = true.
Proof.
  revert s. induction p as [|c p IH]; intros s Hp.
  - cbn [app]. split; [intros H; now exists s | now intros [s' [-> H]]].
  - cbn [forallb] in Hp. apply andb_true_iff in Hp. destruct Hp as [Hc Hp].
    unfold wildcard in Hc. apply negb_true_iff, orb_false_iff in Hc.
    destruct Hc as [Hc1 Hc2].
    cbn [app like_match]. rewrite Hc1. destruct s as [|d s].
    + split; [discriminate | intros [s' [H _]]; discriminate].
    + rewrite Hc2. cbn [orb]. rewrite andb_true_iff, Ascii.eqb_eq, (IH s Hp).
      split.
      * intros [-> [s' [-> H]]]. now exists s'.
      * intros [s' [Heq H]]. inversion Heq. subst. eauto.
Qed.

Lemma like_match_percent (rest s : list ascii) :
  like_match ("%"%char :: rest) s = true
  <-> exists before s', s = before ++ s' /\ like_match rest s' = true.
Proof.
  cbn [like_match]. rewrite Ascii.eqb_refl.
  induction s as [|d s IH].
  - rewrite orb_false_r. split.
    + intros H. now exists [], [].
    + intros [before [s' [Heq H]]].
      symmetry in Heq. apply app_eq_nil in Heq. destruct Heq as [_ ->].
      exact H.
  - rewrite orb_true_iff, IH. split.
    + intros [H|[before [s' [-> H]]]].
      * now exists [], (d :: s).
      * now exists (d :: before), s'.
    + intros [[|b before] [s' [Heq H]]].
      * left. cbn [app] in Heq. now subst.
      * right. inversion Heq. subst. eauto.
Qed.

Lemma like_match_underscore (rest s : list ascii) (d : ascii) :
  like_match ("_"%char :: rest) (d :: s) = like_match rest s.
Proof.
  cbn [like_match].
  replace (Ascii.eqb "_" "%") with false by reflexivity.
  replace (Ascii.eqb "_" "_") with true by reflexivity.
  reflexivity.
Qed.

Lemma list_ascii_of_string_app (a b : string) :
  list_ascii_of_string (a ++ b)
  = list_ascii_of_string a ++ list_ascii_of_string b.
Proof.
  induction a as [|c a IH]; cbn; [reflexivity | now rewrite IH].
Qed.

Lemma lower_not_wildcard (c : ascii) :
  wildcard c = false -> wildcard (lower c) = false.
Proof.
  destruct c as [[] [] [] [] [] [] [] []]; vm_compute; congruence.
Qed.

(** X16. The search of [list_posts] is a substring search that ignores
    the case of ASCII letters as long as the term holds neither [%] nor
    [_]: a title or content matches exactly when the lower-cased term
    occurs in it, lower-cased.  A [_] in the term is not looked for: it
    stands for any one character, so the search for ["_"] matches every
    text that is not empty. *)
Theorem search_matches_substring :
  forall (term text : string),
    (forallb (fun c => negb (wildcard c)) (list_ascii_of_string term) = true ->
     (ilike text ("%" ++ term ++ "%")%string = true
      <-> contains (map lower (list_ascii_of_string term))
                   (map lower (list_ascii_of_string text))))
    /\ (ilike text "%_%" = true <-> text <> "")
    /\ (term <> "" ->
        forall query p,
          In p (search_filter (Some term) query)
          <-> In p query
              /\ (ilike (Post.title p) ("%" ++ term ++ "%")%string = true
                  \/ ilike (Post.content p) ("%" ++ term ++ "%")%string
                     = true)).
Proof.
  intros term text. split; [|split].
  - intros Hterm. unfold ilike, contains.
    rewrite !list_ascii_of_string_app, !map_app. cbn [list_ascii_of_string map].
    change (lower "%") with "%"%char. cbn [app].
    rewrite like_match_percent.
    assert (Hlow : forallb (fun c => negb (wildcard c))
                           (map lower (list_ascii_of_string term)) = true).
    { rewrite forallb_forall in *. intros c Hc. apply in_map_iff in Hc.
      destruct Hc as [d [<- Hd]]. specialize (Hterm d Hd).
      apply negb_true_iff in Hterm. apply negb_true_iff.
      now apply lower_not_wildcard. }
    split.
    + intros [before [s' [Heq H]]].
      apply (like_match_literal _ _ _ Hlow) in H.
      destruct H as [after [-> _]]. now exists before, after.
    + intros [before [after Heq]].
      exists before, (map lower (list_ascii_of_string term) ++ after).
      split; [exact Heq|]. apply (like_match_literal _ _ _ Hlow).
      exists after. split; [reflexivity|].
      apply like_match_percent. exists after, []. split; [|reflexivity].
      now rewrite app_nil_r.
  - unfold ilike. cbn [list_ascii_of_string map].
    change (lower "%") with "%"%char. change (lower "_") with "_"%char.
    rewrite like_match_percent. split.
    + intros [before [s' [Heq H]]] ->. cbn in Heq.
      symmetry in Heq. apply app_eq_nil in Heq. destruct Heq as [_ ->].
      discriminate.
    + intros Htext. destruct text as [|c text]; [contradiction|].
      cbn [list_ascii_of_string map].
      exists [], (lower c :: map lower (list_ascii_of_string text)).
      split; [reflexivity|]. rewrite like_match_underscore.
      apply like_match_percent.
      exists (map lower (list_ascii_of_string text)), [].
      split; [now rewrite app_nil_r | reflexivity].
  - intros Hterm query p. unfold search_filter.
    rewrite (truthy_Some _ Hterm), filter_In, orb_true_iff. reflexivity.
Qed.

Lemma search_matches_substring_witness :
  ilike "Secret plans" "%CRET p%" = true
  /\ contains (map lower (list_ascii_of_string "CRET p"))
              (map lower (list_ascii_of_string "Secret plans")).
Proof.
  split; [reflexivity|].
  apply (proj1 (search_matches_substring "CRET p" "Secret plans")
               eq_refl).
  reflexivity.
Defined.

(** ** Tokens *)

Lemma first_filter_unique {A} (f : A -> bool) (l : list A) (u : A) :
  In u l -> f u = true ->
  (forall x, In x l -> f x = true -> x = u) ->
  first (filter f l) = Some u.
Proof.
  intros Hin Hu Honly.
  destruct (first (filter f l)) as [x|] eqn:E.
  - apply first_filter_Some in E. destruct E as [Hx Hfx].
    f_equal. now apply Honly.
  - pose proof (proj1 (first_filter_None _ _) E u Hin). congruence.
Qed.

Section TokenFacts.

Variable EmailStr : string -> option string.
Variable get_password_hash : string -> string.
Variable verify_password : string -> string -> bool.
Variable jwt_encode : string -> Z -> string.
Variable jwt_decode : string -> Z -> option (option string).

(** What the handlers expect of the collaborators: a password verifies
    against its own hash, and a token decodes to its subject until it
    expires. *)
Hypothesis verify_hash :
  forall password, verify_password password (get_password_hash password) = true.
Hypothesis decode_encode :
  forall sub exp now,
    now <= exp -> jwt_decode (jwt_encode sub exp) now = Some (Some sub).

(** X17. Registration, login and token resolution fit together: right
    after a registration that went through, a login with the same
    username and password succeeds and returns the new user with a bearer
    token that expires in 1800 seconds; for those 1800 seconds
    [get_current_user] resolves that token to the new user, and a login
    with a password the collaborator does not verify is answered 401. *)
Theorem register_then_login :
  forall (db db' : DB) (user : schemas.UserCreate) (u : User.t)
         (storage_ok : bool) (now : Z),
    register_user EmailStr get_password_hash db user storage_ok = (Ok u, db') ->
    exists token,
      login verify_password jwt_encode db'
            (UserLogin.mk (schemas.username user) (schemas.password user))
            now
      = Ok token
      /\ Token.user token = u
      /\ Token.token_type token = "bearer"
      /\ Token.expires_in token = 1800
      /\ (forall now',
            now' <= now + 1800 ->
            get_current_user jwt_decode db'
                             (Some (Token.access_token token)) now'
            = Ok u)
      /\ (forall password,
            verify_password password (User.password u) = false ->
            login verify_password jwt_encode db'
                  (UserLogin.mk (schemas.username user) password) now
            = HTTPException 401 "Incorrect username or password").
Proof.
  intros db db' user u storage_ok now H.
  apply register_user_Ok_db in H.
  destruct H as [Hname [_ [_ [_ [_ [Hun [_ [Hpw ->]]]]]]]].
  assert (Hfind : find_user (set_users db (users db ++ [u]))
                            (schemas.username user) = Some u).
  { unfold find_user. cbn [users set_users]. rewrite first_filter_app.
    replace (first (filter (fun x => String.eqb (User.username x)
                                                (schemas.username user))
                           (users db))) with (@None User.t).
    - cbn [filter]. now rewrite Hun, String.eqb_refl.
    - symmetry. apply first_filter_None. intros x Hin.
      destruct (String.eqb (User.username x) (schemas.username user))
        eqn:E; [|reflexivity].
      apply String.eqb_eq in E. exfalso. apply Hname. rewrite <- E.
      now apply in_map. }
  unfold login. cbn [UserLogin.username UserLogin.password].
  rewrite Hfind, Hpw, verify_hash. cbn [negb].
  eexists. split; [reflexivity|].
  cbn [Token.user Token.token_type Token.expires_in Token.access_token].
  do 3 (split; [reflexivity|]). split.
  - intros now' Hnow. unfold get_current_user, create_access_token.
    rewrite decode_encode by (unfold settings.ACCESS_TOKEN_EXPIRE_MINUTES; lia).
    now rewrite Hun, Hfind.
  - intros password Hwrong. now rewrite Hwrong.
Qed.

(** X18. Tokens name their user by username: after a profile update that
    changed the username, in a database with unique ids and usernames, a
    token issued for the old username no longer resolves, neither for
    [get_current_user], which answers 401, nor for
    [get_current_user_optional], which gives no user, while a token for
    the new username resolves to the updated row. *)
Theorem rename_invalidates_token :
  forall (db db' : DB) (user_update : UserUpdate.t)
         (current_user u : User.t) (storage_ok : bool)
         (old_token new_token : string) (now : Z),
    unique_keys db -> unique_names db -> In current_user (users db) ->
    update_user_profile EmailStr get_password_hash db user_update current_user
                        storage_ok = (Ok u, db') ->
    User.username u <> User.username current_user ->
    jwt_decode old_token now = Some (Some (User.username current_user)) ->
    jwt_decode new_token now = Some (Some (User.username u)) ->
    get_current_user jwt_decode db' (Some old_token) now
    = HTTPException 401 "Could not validate credentials"
    /\ get_current_user_optional jwt_decode db' (Some old_token) now = None
    /\ get_current_user jwt_decode db' (Some new_token) now = Ok u.
Proof.
  intros db db' user_update cu u storage_ok old_token new_token now
         Hkeys Hnames Hin H Hrename Hold Hnew.
  apply update_user_profile_Ok in H.
  destruct H as [validated [_ [Hup ->]]].
  pose proof (updated_profile_id_role _ _ _ _ _ Hup) as [Hid _].
  apply updated_profile_names in Hup. destruct Hup as [[Hsame|Hfresh] _];
    [contradiction|].
  destruct Hkeys as [Hids _]. destruct Hnames as [Hun _].
  set (users' := map (fun x => if User.id x =? User.id cu then u else x)
                     (users db)).
  assert (Hrows : forall x, In x users' ->
             x = u \/ (In x (users db) /\ User.id x <> User.id cu)).
  { intros x Hx. apply in_map_iff in Hx. destruct Hx as [y [Hy Hiny]].
    destruct (User.id y =? User.id cu) eqn:E; [now left|].
    right. subst y. split; [assumption | now apply Z.eqb_neq]. }
  assert (Hu : In u users').
  { apply in_map_iff. exists cu. now rewrite Z.eqb_refl. }
  assert (Hgone : find_user (set_users db users') (User.username cu) = None).
  { apply first_filter_None. cbn [users set_users]. intros x Hx.
    destruct (String.eqb (User.username x) (User.username cu)) eqn:E;
      [|reflexivity].
    apply String.eqb_eq in E. destruct (Hrows x Hx) as [->|[Hinx Hne]];
      [contradiction|].
    exfalso. apply Hne. f_equal.
    now apply (NoDup_map_In_eq User.username (users db)). }
  assert (Hthere : find_user (set_users db users') (User.username u)
                   = Some u).
  { apply first_filter_unique; cbn [users set_users];
      [exact Hu | apply String.eqb_refl|].
    intros x Hx E. apply String.eqb_eq in E.
    destruct (Hrows x Hx) as [->|[Hinx _]]; [reflexivity|].
    exfalso. apply Hfresh. rewrite <- E. now apply in_map. }
  unfold get_current_user, get_current_user_optional, truthy.
  rewrite Hnew, Hthere.
  destruct (String.eqb old_token ""); rewrite ?Hold, ?Hgone; auto.
Qed.

End TokenFacts.

Lemma Collaborators_verify_hash (password : string) :
  Collaborators.verify_password password
    (Example.get_password_hash password) = true.
Proof. apply String.eqb_refl. Qed.

Lemma Collaborators_decode_encode (sub : string) (exp now : Z) :
  now <= exp ->
  Collaborators.jwt_decode (Collaborators.jwt_encode sub exp) now
  = Some (Some sub).
Proof. reflexivity. Qed.

Lemma register_then_login_witness :
  register_user Example.EmailStr Example.get_password_hash Example.db Example.dave true
  = (Ok (User.mk 5 "dave" "dave@example.com" "$2b$Passw0rd" "reader"),
     set_users Example.db
       (users Example.db
        ++ [User.mk 5 "dave" "dave@example.com" "$2b$Passw0rd" "reader"]))
  /\ exists token,
       login Collaborators.verify_password Collaborators.jwt_encode
             (set_users Example.db
                (users Example.db
                 ++ [User.mk 5 "dave" "dave@example.com" "$2b$Passw0rd"
                             "reader"]))
             (UserLogin.mk "dave" "Passw0rd") 1000
       = Ok token
       /\ Token.user token
          = User.mk 5 "dave" "dave@example.com" "$2b$Passw0rd" "reader".
Proof.
  split; [reflexivity|].
  destruct (register_then_login Example.EmailStr Example.get_password_hash
              Collaborators.verify_password Collaborators.jwt_encode
              Collaborators.jwt_decode Collaborators_verify_hash
              Collaborators_decode_encode Example.db _ Example.dave _ true
              1000 eq_refl) as [token [Hlogin [Huser _]]].
  exists token. split; [exact Hlogin | exact Huser].
Defined.

Lemma rename_invalidates_token_witness :
  update_user_profile Example.EmailStr Example.get_password_hash Example.db
    (UserUpdate.mk (Some "robert") None None (Some "admin")) Example.bob
    true
  = (Ok (User.mk 2 "robert" "bob@example.com" "$2b$bob" "reader"),
     set_users Example.db
       [Example.alice;
        User.mk 2 "robert" "bob@example.com" "$2b$bob" "reader";
        Example.carol; Example.root])
  /\ get_current_user Collaborators.jwt_decode
       (set_users Example.db
          [Example.alice;
           User.mk 2 "robert" "bob@example.com" "$2b$bob" "reader";
           Example.carol; Example.root])
       (Some "bob") 1000
     = HTTPException 401 "Could not validate credentials".
Proof.
  split; [reflexivity|].
  refine (proj1 (rename_invalidates_token Example.EmailStr Example.get_password_hash
                   Collaborators.jwt_decode Example.db _
                   (UserUpdate.mk (Some "robert") None None (Some "admin"))
                   Example.bob _ true "bob" "robert" 1000
                   Example_unique_keys Example_unique_names _ eq_refl _
                   eq_refl eq_refl)).
  - cbn. auto.
  - discriminate.
Defined.

(** ** Initialising the database *)

Lemma init_db_cases (db : DB) (storage_ok : bool) :
  (fst (init_db db storage_ok) <> Ok tt /\ snd (init_db db storage_ok) = db)
  \/ (fst (init_db db storage_ok) = Ok tt
      /\ exists admin draft published,
           snd (init_db db storage_ok)
           = mkDB (users db ++ admin)
                  (status db ++ draft ++ published)
                  (posts db) (tags db) (post_tags db) (likes db)
                  (comments db)
           /\ (admin = []
               /\ (exists a, In a (users db) /\ User.role a = "admin")
               \/ admin = [User.mk (next_id (map User.id (users db)))
                                   "admin" "admin@example.com"
                                   settings.ADMIN_PASSWORD_HASH "admin"]
                  /\ (forall a, In a (users db) -> User.role a <> "admin"))
           /\ (draft = []
               /\ In "draft" (map Status.name (status db))
               \/ draft = [Status.mk (next_id (map Status.id (status db)))
                                     "draft" "Draft post"]
                  /\ ~ In "draft" (map Status.name (status db)))
           /\ (published = []
               /\ In "published" (map Status.name (status db))
               \/ published
                  = [Status.mk (next_id (map Status.id (status db ++ draft)))
                               "published" "Published post"]
                  /\ ~ In "published" (map Status.name (status db)))).
Proof.
  assert (Hlookup : forall name,
             match first (filter (fun s => String.eqb (Status.name s) name)
                                 (status db)) with
             | Some _ => In name (map Status.name (status db))
             | None => ~ In name (map Status.name (status db))
             end).
  { intros name. destruct (first _) as [s|] eqn:E.
    - apply first_filter_Some in E. destruct E as [Hin Hs].
      apply String.eqb_eq in Hs. rewrite <- Hs. now apply in_map.
    - intros Hin. apply in_map_iff in Hin. destruct Hin as [s [Hs Hin]].
      pose proof (proj1 (first_filter_None _ _) E s Hin) as H.
      cbv beta in H. rewrite Hs, String.eqb_refl in H. discriminate. }
  assert (Hadmin :
             match first (filter (fun u => String.eqb (User.role u) "admin")
                                 (users db)) with
             | Some _ => exists a, In a (users db) /\ User.role a = "admin"
             | None => forall a, In a (users db) -> User.role a <> "admin"
             end).
  { destruct (first _) as [a|] eqn:E.
    - apply first_filter_Some in E. destruct E as [Hin Ha].
      apply String.eqb_eq in Ha. eauto.
    - intros a Hin Ha.
      pose proof (proj1 (first_filter_None _ _) E a Hin) as H.
      cbv beta in H. rewrite Ha in H. discriminate. }
  pose proof (Hlookup "draft") as Hd. pose proof (Hlookup "published") as Hp.
  unfold init_db, default_statuses. cbn [fold_left fst snd].
  destruct (first (filter (fun u => String.eqb (User.role u) "admin")
                          (users db)));
    destruct (first (filter (fun s => String.eqb (Status.name s) "draft")
                            (status db)));
    destruct (first (filter (fun s => String.eqb (Status.name s) "published")
                            (status db)));
    match goal with
    | |- context [if existsb ?f ?l then _ else _] =>
        destruct (existsb f l);
        [left; split; [discriminate | reflexivity]|]
    end;
    (destruct storage_ok;
     [right | left; split; [discriminate | reflexivity]]);
    (split; [reflexivity|]).
  - exists [], [], [].
    split; [|split; [|split]];
      [cbn [snd app]; rewrite ?app_nil_r; reflexivity
      | left; split; [reflexivity | assumption] ..].
  - exists [], [], [Status.mk (next_id (map Status.id (status db)))
                              "published" "Published post"].
    split; [|split; [|split]];
      [cbn [snd app]; rewrite ?app_nil_r; reflexivity
      | left; split; [reflexivity | assumption]
      | left; split; [reflexivity | assumption]
      | right; split; [now rewrite app_nil_r | assumption]].
  - exists [], [Status.mk (next_id (map Status.id (status db)))
                          "draft" "Draft post"], [].
    split; [|split; [|split]];
      [cbn [snd app]; rewrite ?app_nil_r; reflexivity
      | left; split; [reflexivity | assumption]
      | right; split; [reflexivity | assumption]
      | left; split; [reflexivity | assumption]].
  - exists [], [Status.mk (next_id (map Status.id (status db)))
                          "draft" "Draft post"],
      [Status.mk (next_id (map Status.id
                             (status db
                              ++ [Status.mk
                                    (next_id (map Status.id (status db)))
                                    "draft" "Draft post"])))
                 "published" "Published post"].
    split; [|split; [|split]];
      [cbn [snd app]; rewrite ?app_nil_r, <- ?app_assoc; reflexivity
      | left; split; [reflexivity | assumption]
      | right; split; [reflexivity | assumption]
      | right; split; [reflexivity | assumption]].
  - exists [User.mk (next_id (map User.id (users db))) "admin"
                    "admin@example.com" settings.ADMIN_PASSWORD_HASH
                    "admin"].
    exists [], [].
    split; [|split; [|split]];
      [cbn [snd app]; rewrite ?app_nil_r; reflexivity
      | right; split; [reflexivity | assumption]
      | left; split; [reflexivity | assumption]
      | left; split; [reflexivity | assumption]].
  - exists [User.mk (next_id (map User.id (users db))) "admin"
                    "admin@example.com" settings.ADMIN_PASSWORD_HASH
                    "admin"].
    exists [], [Status.mk (next_id (map Status.id (status db)))
                                   "published" "Published post"].
    split; [|split; [|split]];
      [cbn [snd app]; rewrite ?app_nil_r; reflexivity
      | right; split; [reflexivity | assumption]
      | left; split; [reflexivity | assumption]
      | right; split; [now rewrite app_nil_r | assumption]].
  - exists [User.mk (next_id (map User.id (users db))) "admin"
                    "admin@example.com" settings.ADMIN_PASSWORD_HASH
                    "admin"].
    exists [Status.mk (next_id (map Status.id (status db)))
                               "draft" "Draft post"], [].
    split; [|split; [|split]];
      [cbn [snd app]; rewrite ?app_nil_r; reflexivity
      | right; split; [reflexivity | assumption]
      | right; split; [reflexivity | assumption]
      | left; split; [reflexivity | assumption]].
  - exists [User.mk (next_id (map User.id (users db))) "admin"
                    "admin@example.com" settings.ADMIN_PASSWORD_HASH
                    "admin"].
    exists [Status.mk (next_id (map Status.id (status db)))
                      "draft" "Draft post"],
      [Status.mk (next_id (map Status.id
                             (status db
                              ++ [Status.mk
                                    (next_id (map Status.id (status db)))
                                    "draft" "Draft post"])))
                 "published" "Published post"].
    split; [|split; [|split]];
      [cbn [snd app]; rewrite ?app_nil_r, <- ?app_assoc; reflexivity
      | right; split; [reflexivity | assumption]
      | right; split; [reflexivity | assumption]
      | right; split; [reflexivity | assumption]].
Qed.

Lemma init_db_established (db : DB) (storage_ok : bool) :
  fst (init_db db storage_ok) = Ok tt ->
  (exists a, In a (users (snd (init_db db storage_ok)))
             /\ User.role a = "admin")
  /\ In "draft" (map Status.name (status (snd (init_db db storage_ok))))
  /\ In "published"
        (map Status.name (status (snd (init_db db storage_ok)))).
Proof.
  intros Hok.
  destruct (init_db_cases db storage_ok) as [[Hfail _]|[_ H]];
    [contradiction|].
  destruct H as [admin [draft [published [-> [Ha [Hd Hp]]]]]].
  cbn [users status]. rewrite !map_app. split; [|split].
  - destruct Ha as [[_ [a [Hin Hrole]]]|[-> _]].
    + exists a. split; [apply in_or_app; now left | assumption].
    + eexists. split; [apply in_or_app; right; now left | reflexivity].
  - destruct Hd as [[_ Hin]|[-> _]]; apply in_or_app.
    + now left.
    + right. apply in_or_app. left. now left.
  - destruct Hp as [[_ Hin]|[-> _]]; apply in_or_app.
    + now left.
    + right. apply in_or_app. right. now left.
Qed.

(** X19. [init_db] sets up what the handlers rely on and can be run
    again: when it succeeds the database holds a user of role admin and
    statuses named draft and published, keeps every row it had, and a
    second run changes nothing.  On a database without statuses the two
    statuses get the ids 1 and 2, the 2 that the read rules compare
    [status_id] with.  When no user has the role admin but one is called
    admin, the commit fails on the unique username, nobody catches the
    exception, and nothing is written. *)
Theorem init_db_establishes_and_repeats :
  forall (db : DB) (storage_ok : bool),
    (fst (init_db db storage_ok) = Ok tt ->
     (exists a, In a (users (snd (init_db db storage_ok)))
                /\ User.role a = "admin")
     /\ In "draft" (map Status.name (status (snd (init_db db storage_ok))))
     /\ In "published"
           (map Status.name (status (snd (init_db db storage_ok))))
     /\ extends (users db) (users (snd (init_db db storage_ok)))
     /\ extends (status db) (status (snd (init_db db storage_ok)))
     /\ (forall storage_ok',
           snd (init_db (snd (init_db db storage_ok)) storage_ok')
           = snd (init_db db storage_ok))
     /\ (status db = [] ->
         status (snd (init_db db storage_ok))
         = [Status.mk 1 "draft" "Draft post";
            Status.mk published "published" "Published post"]))
    /\ ((forall a, In a (users db) -> User.role a <> "admin") ->
        In "admin" (map User.username (users db)) ->
        init_db db storage_ok = (Unhandled "IntegrityError", db)).
Proof.
  intros db storage_ok. split.
  - intros Hok.
    pose proof (init_db_established db storage_ok Hok) as [Ha [Hd Hp]].
    do 3 (split; [assumption|]).
    destruct (init_db_cases db storage_ok) as [[Hfail _]|[_ H]];
      [contradiction|].
    destruct H as [admin [draft [published' [Hdb [Ha' [Hd' Hp']]]]]].
    split; [rewrite Hdb; apply extends_app|].
    split; [rewrite Hdb; apply extends_app|]. split.
    + intros ok'.
      destruct (init_db_cases (snd (init_db db storage_ok)) ok')
        as [[_ Hsame]|[_ H]]; [exact Hsame|].
      destruct H as [admin2 [draft2 [published2 [Hdb2 [Ha2 [Hd2 Hp2]]]]]].
      rewrite Hdb2.
      destruct Ha2 as [[-> _]|[_ Hnone]];
        [|destruct Ha as [a [Hin Hrole]]; now apply Hnone in Hin].
      destruct Hd2 as [[-> _]|[_ Hnone]]; [|contradiction].
      destruct Hp2 as [[-> _]|[_ Hnone]]; [|contradiction].
      rewrite !app_nil_r. now destruct (snd (init_db db storage_ok)).
    + intros Hempty. rewrite Hdb. cbn [status]. rewrite Hempty in *.
      destruct Hd' as [[_ []]|[-> _]]. destruct Hp' as [[_ []]|[-> _]].
      reflexivity.
  - intros Hnone Hname. unfold init_db.
    destruct (first (filter (fun u => String.eqb (User.role u) "admin")
                            (users db))) as [a|] eqn:E.
    + apply first_filter_Some in E. destruct E as [Hin Hrole].
      apply String.eqb_eq in Hrole. now apply Hnone in Hin.
    + apply in_map_iff in Hname. destruct Hname as [u [Hu Hin]].
      match goal with
      | |- context [if existsb ?f ?l then _ else _] =>
          replace (existsb f l) with true; [reflexivity|]
      end.
      symmetry. cbn [existsb]. rewrite orb_false_r.
      apply existsb_exists. exists u. split; [assumption|].
      cbn [User.username]. rewrite Hu. reflexivity.
Qed.

Lemma init_db_establishes_and_repeats_witness :
  init_db (mkDB [] [] [] [] [] [] []) true
  = (Ok tt,
     mkDB [User.mk 1 "admin" "admin@example.com"
                   settings.ADMIN_PASSWORD_HASH "admin"]
          [Status.mk 1 "draft" "Draft post";
           Status.mk 2 "published" "Published post"]
          [] [] [] [] [])
  /\ init_db (mkDB [User.mk 7 "admin" "a@example.com" "" "reader"]
                   [] [] [] [] [] []) true
     = (Unhandled "IntegrityError",
        mkDB [User.mk 7 "admin" "a@example.com" "" "reader"]
             [] [] [] [] [] []).
Proof.
  split; [reflexivity|].
  apply (proj2 (init_db_establishes_and_repeats
                  (mkDB [User.mk 7 "admin" "a@example.com" "" "reader"]
                        [] [] [] [] [] []) true)).
  - intros a [<-|[]]. discriminate.
  - now left.
Defined.

(** ** Tags are made once *)

Lemma attach_tags_stored (tag_names : list string) :
  forall (tags_ collection tags' collection' : list Tag.t),
    (forall name, In name tag_names -> In name (map Tag.name tags_)) ->
    attach_tags tag_names tags_ collection = (tags', collection') ->
    tags' = tags_.
Proof.
  induction tag_names as [|name rest IH];
    intros tags_ collection tags' collection' Hall H.
  - now inversion H.
  - cbn [attach_tags] in H.
    pose proof (get_or_create_tag_spec tags_ name) as Hget.
    destruct (tag_named tags_ name) as [t|] eqn:Hnamed.
    + rewrite Hget in H. apply IH in H; [assumption|].
      intros n Hn. apply Hall. now right.
    + apply tag_named_None in Hnamed. exfalso. apply Hnamed, Hall.
      now left.
Qed.

(** X20. A tag name is stored once.  [create_tag] answers 409 exactly
    when a tag of that name is stored and otherwise, the store permitting,
    appends the tag under a new id; a second [create_tag] of the same name
    is then answered 409, and a [create_post] or [update_post] whose tag
    names are all stored creates no tag. *)
Theorem create_tag_once :
  forall (db : DB) (tag : TagBase.t) (user : User.t),
    (forall storage_ok,
        (exists detail,
            fst (create_tag db tag user storage_ok)
            = HTTPException Conflict detail)
        <-> In (TagBase.name tag) (map Tag.name (tags db)))
    /\ (~ In (TagBase.name tag) (map Tag.name (tags db)) ->
        exists t db',
          create_tag db tag user true = (Ok t, db')
          /\ tags db' = tags db ++ [t]
          /\ Tag.name t = TagBase.name tag
          /\ ~ In (Tag.id t) (map Tag.id (tags db))
          /\ (forall user' storage_ok,
                create_tag db' tag user' storage_ok
                = (HTTPException Conflict "Tag already exists", db')))
    /\ (forall post author now storage_ok P db',
          (forall name, In name (schemas.tags post) ->
                        In name (map Tag.name (tags db))) ->
          create_post db post author now storage_ok = (Ok P, db') ->
          tags db' = tags db)
    /\ (forall post_id post_update tag_names editor now storage_ok P db',
          schemas.update_tags post_update = Some tag_names ->
          (forall name, In name tag_names ->
                        In name (map Tag.name (tags db))) ->
          update_post db post_id post_update editor now storage_ok
          = (Ok P, db') ->
          tags db' = tags db).
Proof.
  intros db tag user.
  assert (Hlookup : forall d, 
             match first (filter (fun t => String.eqb (Tag.name t)
                                                      (TagBase.name tag))
                                 (tags d)) with
             | Some _ => In (TagBase.name tag) (map Tag.name (tags d))
             | None => ~ In (TagBase.name tag) (map Tag.name (tags d))
             end).
  { intros d. pose proof (tag_named_None (tags d) (TagBase.name tag)) as Hn.
    unfold tag_named in Hn. destruct (first _) as [t|] eqn:E.
    - apply first_filter_Some in E. destruct E as [Hin Ht].
      apply String.eqb_eq in Ht. rewrite <- Ht. now apply in_map.
    - now apply Hn. }
  split; [|split; [|split]].
  - intros storage_ok. pose proof (Hlookup db) as H. unfold create_tag.
    destruct (first _); cbn [fst].
    + split; [auto | intros _; eexists; reflexivity].
    + unfold commit. destruct storage_ok; cbn [fst]; split;
        try contradiction; intros [d Hd]; discriminate.
  - intros Hnew. pose proof (Hlookup db) as H. unfold create_tag at 1.
    destruct (first _); [contradiction|]. cbn [commit].
    eexists. eexists. split; [reflexivity|]. cbn [tags Tag.name Tag.id].
    do 2 (split; [reflexivity|]). split.
    + intros Hin. apply next_id_fresh in Hin. lia.
    + intros user' storage_ok. unfold create_tag.
      match goal with
      | |- context [first (filter ?f (tags ?d))] =>
          pose proof (Hlookup d) as H';
          destruct (first (filter f (tags d))); [reflexivity|]
      end.
      exfalso. apply H'. cbn [tags]. rewrite map_app. apply in_or_app.
      right. now left.
  - intros post author now storage_ok P db' Hall H.
    apply create_post_Ok in H.
    destruct H as [_ [_ [_ [_ [_ [_ [_ [tags' [coll [Hattach [-> _]]]]]]]]]]].
    now apply (attach_tags_stored _ _ _ _ _ Hall Hattach).
  - intros post_id post_update tag_names editor now storage_ok P db'
           Htags Hall H.
    apply update_post_Ok in H.
    destruct H as [P0 [_ [_ [_ [_ [_ [_ [_ [_ H]]]]]]]]].
    rewrite Htags in H. destruct H as [tags' [coll [Hattach [-> _]]]].
    now apply (attach_tags_stored _ _ _ _ _ Hall Hattach).
Qed.

Lemma create_tag_once_witness :
  ~ In "rocq" (map Tag.name (tags Example.db))
  /\ exists t db',
       create_tag Example.db (TagBase.mk "rocq") Example.bob true
       = (Ok t, db')
       /\ tags db' = tags Example.db ++ [t]
       /\ Tag.name t = "rocq"
       /\ ~ In (Tag.id t) (map Tag.id (tags Example.db))
       /\ (forall user' storage_ok,
             create_tag db' (TagBase.mk "rocq") user' storage_ok
             = (HTTPException Conflict "Tag already exists", db')).
Proof.
  assert (H : ~ In "rocq" (map Tag.name (tags Example.db))).
  { cbn. intros [H|[]]. discriminate. }
  split; [exact H|].
  exact (proj1 (proj2 (create_tag_once Example.db (TagBase.mk "rocq")
                         Example.bob)) H).
Defined.

(** ** The status of a post *)

(** X21. Only [create_post] checks the status: with a [status_id] that
    references no stored Status, [create_post] answers 404, while an
    authorized [update_post] that sends the same [status_id] succeeds (the
    store permitting and title and content not sent as null) and stores
    it.  Unless that id is 2 the post is from then on hidden from
    anonymous callers, and it is never in a listing by tag that filters
    on a status name. *)
Theorem update_post_does_not_check_status :
  forall (db : DB) (post_id status_id : Z) (post_update : schemas.PostUpdate)
         (user : User.t) (now : Z) (P : Post.t),
    ~ status_exists db (Some status_id) ->
    find_post db post_id = Some P ->
    check_resource_permission user (Post.author_id P) "edit" = true ->
    schemas.update_status_id post_update = schemas.Sent (Some status_id) ->
    schemas.update_title post_update <> schemas.Sent None ->
    schemas.update_content post_update <> schemas.Sent None ->
    (forall post author,
        schemas.status_id post = Some status_id ->
        create_post db post author now true
        = (HTTPException NotFound "Status not found", db))
    /\ exists row db',
         update_post db post_id post_update user now true = (Ok row, db')
         /\ Post.status_id row = Some status_id
         /\ find_post db' post_id = Some row
         /\ (status_id <> published ->
             get_post db' post_id None
             = HTTPException NotFound "Post not found")
         /\ (forall tag_id name,
               ~ In row (with_status_name db' name
                           (posts_with_tag db' tag_id))).
Proof.
  intros db post_id status_id post_update user now P Hnone Hfind Hperm
         Hstatus Htitle Hcontent.
  split.
  - intros post author Hpost. unfold create_post. rewrite Hpost.
    pose proof (status_lookup db (Some status_id)) as H.
    destruct (first _); [contradiction | reflexivity].
  - destruct (updated_row_Some P post_update now Htitle Hcontent)
      as [row Hrow].
    assert (Hupdate : exists db',
               update_post db post_id post_update user now true
               = (Ok row, db')).
    { unfold update_post. rewrite Hfind, Hperm, Hrow. cbn [negb].
      destruct (schemas.update_tags post_update) as [names|];
        [destruct (attach_tags names (tags db) [])|];
        eexists; reflexivity. }
    destruct Hupdate as [db' Hupdate]. exists row, db'.
    split; [exact Hupdate|].
    pose proof (updated_row_fields _ _ _ _ Hrow)
      as [Hid [_ [_ [_ [_ [Hs _]]]]]].
    rewrite Hstatus in Hs. cbn [setattr] in Hs.
    pose proof (update_post_Ok _ _ _ _ _ _ _ _ Hupdate)
      as [P0 [Hfind0 [_ [_ [Hposts [_ [Hst _]]]]]]].
    assert (Hnew : find_post db' post_id = Some row).
    { unfold find_post. rewrite Hposts.
      rewrite (first_filter_replace Post.id (posts db) post_id P row);
        [now rewrite Z.eqb_refl | | exact Hfind].
      apply find_post_In in Hfind. destruct Hfind as [_ HidP]. congruence. }
    split; [exact Hs|]. split; [exact Hnew|]. split.
    + intros Hne. rewrite (get_post_canView _ _ _ _ Hnew). unfold canView.
      rewrite Hs. cbn [eq_nullable].
      apply Z.eqb_neq in Hne. now rewrite Hne.
    + intros tag_id name Hin. apply in_with_status_name in Hin.
      destruct Hin as [_ [s [Hins [Hsid _]]]]. rewrite Hst in Hins.
      apply Hnone. exists s. split; [assumption | congruence].
Qed.

Lemma update_post_does_not_check_status_witness :
  ~ status_exists Example.db (Some 999)
  /\ create_post Example.db
       (schemas.mkPostCreate "Title" "Body" (Some 999) []) Example.alice
       300 true
     = (HTTPException NotFound "Status not found", Example.db)
  /\ exists row db',
       update_post Example.db 2
         (schemas.mkPostUpdate schemas.Unset schemas.Unset
                               (schemas.Sent (Some 999)) None)
         Example.alice 300 true
       = (Ok row, db')
       /\ Post.status_id row = Some 999
       /\ find_post db' 2 = Some row
       /\ (999 <> published ->
           get_post db' 2 None = HTTPException NotFound "Post not found")
       /\ (forall tag_id name,
             ~ In row (with_status_name db' name
                         (posts_with_tag db' tag_id))).
Proof.
  assert (H : ~ status_exists Example.db (Some 999)).
  { intros [s [Hin Hs]]. cbn in Hin.
    destruct Hin as [<-|[<-|[]]]; discriminate. }
  split; [exact H|]. split; [reflexivity|].
  refine (proj2 (update_post_does_not_check_status Example.db 2 999
                   (schemas.mkPostUpdate schemas.Unset schemas.Unset
                                         (schemas.Sent (Some 999)) None)
                   Example.alice 300 Example.article H eq_refl eq_refl
                   eq_refl _ _)); discriminate.
Defined.

(** ** The listings of the current user *)

(** The pages of a query hold its rows and nothing else. *)
Lemma in_pages {A} (query : list A) (limit_ : Z) (x : A) :
  0 < limit_ ->
  (exists page,
      0 < page /\ In x (limit limit_ (offset ((page - 1) * limit_) query)))
  <-> In x query.
Proof.
  intros Hlim. split.
  - intros [page [_ H]]. now apply in_limit, in_offset in H.
  - now apply in_some_page.
Qed.

Lemma me_listing_items (db : DB) (page limit_ : Z) (user : User.t) :
  0 < page -> 0 < limit_ <= 100 ->
  page_items (list_user_posts db (Some page) (Some limit_) user)
  = limit limit_
      (offset ((page - 1) * limit_)
         (order_by_created_at_desc
            (filter (fun p => Post.author_id p =? User.id user) (posts db))))
  /\ page_items (list_user_comments db (Some page) (Some limit_) user)
     = limit limit_
         (offset ((page - 1) * limit_)
            (filter (fun c => Comment.author_id c =? User.id user)
                    (comments db)))
  /\ page_items (list_user_liked_posts db (Some page) (Some limit_) user)
     = limit limit_
         (offset ((page - 1) * limit_)
            (map fst
               (filter (fun row => Like.user_id (snd row) =? User.id user)
                  (join (fun p l => Like.post_id l =? Post.id p)
                        (posts db) (likes db))))).
Proof.
  intros Hpage Hlim.
  unfold list_user_posts, list_user_comments, list_user_liked_posts.
  rewrite (Query_Some 1 0 None "page" page) by (lia || exact I).
  rewrite (Query_Some 10 0 (Some 100) "limit" limit_) by lia.
  assert (E : (limit_ =? 0) = false) by (apply Z.eqb_neq; lia).
  cbn [bind]. unfold floordiv. rewrite E.
  cbn [bind page_items items]. split; [|split]; reflexivity.
Qed.

(** X22. The listings under /me hold the rows of the current user and
    nothing else, whatever the status of a post: a post is on one of the
    pages of [list_user_posts] exactly when it is stored and the user is
    its author, a comment on one of [list_user_comments] exactly when
    the user wrote it, and a post on one of [list_user_liked_posts]
    exactly when a like of the user for it is stored.  So a user sees
    their own drafts there, and keeps seeing a post they liked that
    [get_post] hides from them. *)
Theorem me_listings_hold_own_rows :
  forall (db : DB) (user : User.t) (limit_ : Z),
    0 < limit_ <= 100 ->
    (forall P,
        (exists page,
            0 < page
            /\ In P (page_items
                       (list_user_posts db (Some page) (Some limit_) user)))
        <-> In P (posts db) /\ Post.author_id P = User.id user)
    /\ (forall c,
          (exists page,
              0 < page
              /\ In c (page_items
                         (list_user_comments db (Some page) (Some limit_)
                                             user)))
          <-> In c (comments db) /\ Comment.author_id c = User.id user)
    /\ (forall P,
          (exists page,
              0 < page
              /\ In P (page_items
                         (list_user_liked_posts db (Some page)
                                                (Some limit_) user)))
          <-> In P (posts db)
              /\ exists l, In l (likes db)
                           /\ Like.post_id l = Post.id P
                           /\ Like.user_id l = User.id user)
    /\ (forall P,
          In P (posts db) ->
          find_post db (Post.id P) = Some P ->
          is_admin user = false ->
          Post.author_id P <> User.id user ->
          Post.status_id P <> Some published ->
          (exists l, In l (likes db)
                     /\ Like.post_id l = Post.id P
                     /\ Like.user_id l = User.id user) ->
          get_post db (Post.id P) (Some user)
          = HTTPException NotFound "Post not found"
          /\ exists page,
               0 < page
               /\ In P (page_items
                          (list_user_liked_posts db (Some page)
                                                 (Some limit_) user))).
Proof.
  intros db user limit_ Hlim.
  assert (Hposts : forall P,
            (exists page,
                0 < page
                /\ In P (page_items
                           (list_user_posts db (Some page) (Some limit_)
                                            user)))
            <-> In P (posts db) /\ Post.author_id P = User.id user).
  { intros P.
    assert (Hrows :
              In P (order_by_created_at_desc
                      (filter (fun p => Post.author_id p =? User.id user)
                              (posts db)))
              <-> In P (posts db) /\ Post.author_id P = User.id user).
    { rewrite in_order_by_created_at_desc, filter_In, Z.eqb_eq. tauto. }
    rewrite <- Hrows. rewrite <- (in_pages _ limit_ P) by lia.
    split; intros [page [Hpage H]]; exists page; (split; [assumption|]);
      destruct (me_listing_items db page limit_ user Hpage Hlim)
        as [Heq _]; [rewrite <- Heq | rewrite Heq]; exact H. }
  assert (Hcomments : forall c,
            (exists page,
                0 < page
                /\ In c (page_items
                           (list_user_comments db (Some page) (Some limit_)
                                               user)))
            <-> In c (comments db) /\ Comment.author_id c = User.id user).
  { intros c.
    assert (Hrows :
              In c (filter (fun c => Comment.author_id c =? User.id user)
                           (comments db))
              <-> In c (comments db) /\ Comment.author_id c = User.id user).
    { rewrite filter_In, Z.eqb_eq. tauto. }
    rewrite <- Hrows. rewrite <- (in_pages _ limit_ c) by lia.
    split; intros [page [Hpage H]]; exists page; (split; [assumption|]);
      destruct (me_listing_items db page limit_ user Hpage Hlim)
        as [_ [Heq _]]; [rewrite <- Heq | rewrite Heq]; exact H. }
  assert (Hliked : forall P,
            (exists page,
                0 < page
                /\ In P (page_items
                           (list_user_liked_posts db (Some page)
                                                  (Some limit_) user)))
            <-> In P (posts db)
                /\ exists l, In l (likes db)
                             /\ Like.post_id l = Post.id P
                             /\ Like.user_id l = User.id user).
  { intros P.
    assert (Hrows :
              In P (map fst
                      (filter (fun row => Like.user_id (snd row)
                                          =? User.id user)
                         (join (fun p l => Like.post_id l =? Post.id p)
                               (posts db) (likes db))))
              <-> In P (posts db)
                  /\ exists l, In l (likes db)
                               /\ Like.post_id l = Post.id P
                               /\ Like.user_id l = User.id user).
    { rewrite in_map_iff. split.
      - intros [[p l] [Heq H]]. cbn [fst] in Heq. subst p.
        apply filter_In in H. destruct H as [H Huser]. cbn [snd] in Huser.
        apply in_join in H. destruct H as [HP [Hl Hon]].
        apply Z.eqb_eq in Hon. apply Z.eqb_eq in Huser.
        split; [assumption|]. exists l. auto.
      - intros [HP [l [Hl [Hpost Huser]]]]. exists (P, l).
        split; [reflexivity|]. apply filter_In. cbn [snd].
        split; [|now apply Z.eqb_eq].
        apply in_join. repeat split; try assumption. now apply Z.eqb_eq. }
    rewrite <- Hrows. rewrite <- (in_pages _ limit_ P) by lia.
    split; intros [page [Hpage H]]; exists page; (split; [assumption|]);
      destruct (me_listing_items db page limit_ user Hpage Hlim)
        as [_ [_ Heq]]; [rewrite <- Heq | rewrite Heq]; exact H. }
  split; [exact Hposts|]. split; [exact Hcomments|].
  split; [exact Hliked|].
  intros P HP Hfind Hadmin Hauthor Hstatus Hlike. split.
  - rewrite (get_post_canView _ _ _ _ Hfind). unfold canView.
    rewrite Hadmin. apply Z.eqb_neq in Hauthor. rewrite Hauthor.
    cbn [orb].
    destruct (eq_nullable (Post.status_id P) published) eqn:E;
      [|reflexivity].
    apply eq_nullable_true in E. contradiction.
  - apply Hliked. auto.
Qed.

Lemma me_listings_hold_own_rows_witness :
  0 < 10 <= 100
  /\ In Example.draft (posts Example.db)
  /\ Post.status_id Example.draft <> Some published
  /\ exists page,
       0 < page
       /\ In Example.draft
            (page_items
               (list_user_posts Example.db (Some page) (Some 10)
                                (Example.alice))).
Proof.
  assert (Hlim : 0 < 10 <= 100) by lia.
  split; [exact Hlim|]. split; [cbn; auto|]. split; [discriminate|].
  apply (proj1 (me_listings_hold_own_rows Example.db Example.alice 10 Hlim)
               Example.draft).
  split; [cbn; auto | reflexivity].
Defined.

(** ** Registering as an admin *)

Lemma first_filter_fresh {A} (f : A -> string) (l : list A) (v : string) :
  ~ In v (map f l) ->
  first (filter (fun x => String.eqb (f x) v) l) = None.
Proof.
  intros Hnew. apply first_filter_None. intros x Hin.
  destruct (String.eqb (f x) v) eqn:E; [|reflexivity].
  apply String.eqb_eq in E. exfalso. apply Hnew. rewrite <- E.
  now apply in_map.
Qed.

Lemma validate_password_length (password : string) :
  validate_password password = true ->
  schemas.Field 8 None password = true.
Proof.
  unfold validate_password, schemas.Field. cbv zeta.
  destruct (Z.of_nat (String.length password) <? 8) eqn:E;
    [discriminate|].
  intros _. apply Z.ltb_ge in E. rewrite andb_true_r. now apply Z.leb_le.
Qed.

(** X23. Registration gives the role that was asked for, to anyone: with
    a body that the schema accepts (a username of 3 to 50 characters, an
    address the collaborator accepts, one of the three roles or none), a
    username and an address that are not stored and a password that
    passes [validate_password], the request is answered with a new user
    whose password is stored as the collaborator hashed it, the store
    permitting.  Without a role the user is a reader.  With the role
    admin the user is an admin at once: [get_post] gives them every
    stored post, drafts of others included, and [delete_post] deletes
    every stored post for them. *)
Theorem register_user_grants_requested_role :
  forall (EmailStr : string -> option string)
         (get_password_hash : string -> string) (db : DB)
         (user : schemas.UserCreate) (email : string),
    schemas.Field 3 (Some 50) (schemas.username user) = true ->
    EmailStr (schemas.email user) = Some email ->
    ~ In (schemas.username user) (map User.username (users db)) ->
    ~ In email (map User.email (users db)) ->
    validate_password (schemas.password user) = true ->
    match schemas.role user with
    | Some role => schemas.UserRole role = true
    | None => True
    end ->
    exists u,
      register_user EmailStr get_password_hash db user true
      = (Ok u, set_users db (users db ++ [u]))
      /\ User.email u = email
      /\ User.password u = get_password_hash (schemas.password user)
      /\ ~ In (User.id u) (map User.id (users db))
      /\ (schemas.role user = None ->
          User.role u = "reader" /\ is_admin u = false)
      /\ (forall role, schemas.role user = Some role -> User.role u = role)
      /\ (schemas.role user = Some "admin" ->
          is_admin u = true
          /\ forall post_id P,
               find_post db post_id = Some P ->
               get_post (set_users db (users db ++ [u])) post_id (Some u)
               = Ok P
               /\ exists db',
                    delete_post (set_users db (users db ++ [u])) post_id u
                                true
                    = (Ok "Post deleted successfully", db')).
Proof.
  intros EmailStr gph db user email Hfield Hmail Hname Hemail Hpw Hrole.
  assert (Hvalid :
            schemas.UserCreate_model_validate EmailStr user
            = Ok (schemas.mkUserCreate (schemas.username user) email
                    (schemas.password user) (schemas.role user))).
  { unfold schemas.UserCreate_model_validate.
    rewrite Hfield, Hmail, (validate_password_length _ Hpw). cbn [negb].
    destruct (schemas.role user) as [role|]; [|reflexivity].
    now rewrite Hrole. }
  unfold register_user. rewrite Hvalid.
  cbn [schemas.username schemas.email schemas.password schemas.role].
  rewrite (first_filter_fresh User.username _ _ Hname).
  rewrite (first_filter_fresh User.email _ _ Hemail).
  rewrite Hpw. cbn [negb]. cbv zeta.
  assert (Hvalid_role :
            validate_role
              match schemas.role user with
              | Some r => if String.eqb r "" then "reader" else r
              | None => "reader"
              end = true).
  { destruct (schemas.role user) as [r|]; [|reflexivity].
    destruct (String.eqb r ""); [reflexivity | exact Hrole]. }
  rewrite Hvalid_role. cbn [negb commit].
  eexists. split; [reflexivity|].
  cbn [User.email User.password User.id User.role].
  split; [reflexivity|]. split; [reflexivity|]. split.
  { intros Hin. apply next_id_fresh in Hin. lia. }
  split; [|split].
  - intros Hnone. rewrite Hnone. split; reflexivity.
  - intros role Hsome. rewrite Hsome in *.
    destruct (String.eqb role "") eqn:E; [|reflexivity].
    apply String.eqb_eq in E. subst role. discriminate.
  - intros Hadmin. rewrite Hadmin. cbn [String.eqb Ascii.eqb Bool.eqb].
    assert (Ha : forall id_ name email_ pw,
               is_admin (User.mk id_ name email_ pw "admin") = true)
      by reflexivity.
    split; [apply Ha|].
    intros post_id P Hfind. split.
    + rewrite (get_post_canView _ post_id _ P) by exact Hfind.
      unfold canView. now rewrite Ha.
    + unfold delete_post.
      change (find_post (set_users db _) post_id)
        with (find_post db post_id).
      rewrite Hfind. unfold check_resource_permission. rewrite Ha.
      cbn [negb commit]. eexists. reflexivity.
Qed.

Lemma register_user_grants_requested_role_witness :
  ~ In "mallory" (map User.username (users Example.db))
  /\ schemas.UserCreate_model_validate Example.EmailStr
       (schemas.mkUserCreate "mallory" "mallory@example.com" "Secret123"
                             (Some "admin"))
     = Ok (schemas.mkUserCreate "mallory" "mallory@example.com"
                                "Secret123" (Some "admin"))
  /\ validate_password "Secret123" = true
  /\ exists u,
       register_user Example.EmailStr Example.get_password_hash Example.db
         (schemas.mkUserCreate "mallory" "mallory@example.com" "Secret123"
                               (Some "admin")) true
       = (Ok u, set_users Example.db (users Example.db ++ [u]))
       /\ User.role u = "admin"
       /\ get_post (set_users Example.db (users Example.db ++ [u])) 1
                   (Some u)
          = Ok Example.draft.
Proof.
  assert (Hname : ~ In "mallory" (map User.username (users Example.db))).
  { cbn. intuition discriminate. }
  assert (Hemail : ~ In "mallory@example.com"
                        (map User.email (users Example.db))).
  { cbn. intuition discriminate. }
  split; [exact Hname|]. split; [reflexivity|]. split; [reflexivity|].
  destruct (register_user_grants_requested_role Example.EmailStr
              Example.get_password_hash Example.db
              (schemas.mkUserCreate "mallory" "mallory@example.com"
                                    "Secret123" (Some "admin"))
              "mallory@example.com" eq_refl eq_refl Hname Hemail eq_refl
              eq_refl)
    as [u [Hreg [_ [_ [_ [_ [Hrole Hadmin]]]]]]].
  exists u. split; [exact Hreg|]. split; [now apply Hrole|].
  exact (proj1 (proj2 (Hadmin eq_refl) 1 Example.draft eq_refl)).
Defined.
